(** * Threshold-backtest: legend detection, entry resolution and the
      trailing-stop simulator

    A shallow embedding of the two [Backtester] classes of the repository
    (the current one, driven by [runConfig], and the earlier one, driven by
    the module-level [config]) together with the properties the specification
    states about them.

    Numbers.  The TypeScript code computes on [number]; the development reads
    every price, percentage and balance as an exact rational ([Q]) and states
    equalities of computed prices with [==].  Comparisons are the boolean
    tests below.  Candles are taken as validated by the ingestion layer
    (positive [open]); a division whose divisor is [0] has the value [0] here.
    What depends only on comparisons, counts and copied values is the same on
    the program's binary64 numbers; an equality between two computed prices
    is a statement of exact arithmetic.  [Binary64] repeats the ladder and
    the trailing-stop simulator on binary64 numbers and shows where such
    equalities miss by the rounding of the last bits.

    Times.  [moment(t).format('YYYY-MM-DD HH:mm:ss')] is kept as the epoch
    value it was formatted from ([Formatted t]); the empty string is [Empty].

    Console output is not part of the model.  Of the files only the outcome
    of writing them is: [findMatchingCandles] takes it as a parameter. *)

From Stdlib Require Import QArith Qabs Qround ZArith List Bool Lia Lqa.
Import ListNotations.

Open Scope Q_scope.

(** ** JavaScript comparisons on numbers *)

Definition geb (x y : Q) : bool := Qle_bool y x.          (* x >= y *)
Definition leb (x y : Q) : bool := Qle_bool x y.          (* x <= y *)
Definition gtb (x y : Q) : bool := negb (Qle_bool x y).   (* x >  y *)
Definition ltb (x y : Q) : bool := negb (Qle_bool y x).   (* x <  y *)

Definition ofNat (n : nat) : Q := inject_Z (Z.of_nat n).

(** [x.toFixed(2)] read back as a number: the multiple of [1/100] nearest to
    the exact value of [x], the one of larger magnitude on a tie.  The
    argument is the rational the model computed; where the program's binary64
    value differs from it in the last bits and sits next to a tie, the two
    can round to neighbouring multiples. *)
Definition toFixed2 (x : Q) : Q :=
  let n := Qfloor (Qabs x * 100 + (1 # 2)) in
  if ltb x 0 then - (inject_Z n / 100) else inject_Z n / 100.

(** ** Completions: a call either returns or throws *)

Inductive Completion (A : Type) : Type :=
| Return (a : A)
| Throw.
Arguments Return {A} a.
Arguments Throw {A}.

Definition bind {A B : Type} (c : Completion A) (k : A -> Completion B)
  : Completion B :=
  match c with
  | Return a => k a
  | Throw => Throw
  end.

Notation "x <- c ;; k" := (bind c (fun x => k))
  (at level 61, c at next level, right associativity).

(** ** Data model (interfaces) *)

Inductive TimeStr : Type :=
| Formatted (epoch : Z)
| Empty.

Inductive Side : Type := LONG | SHORT.

(** ['LONG' | 'SHORT' | 'NONE'] *)
Inductive Direction : Type :=
| Dir (side : Side)
| NONE.

Inductive UpdateType : Type := INITIAL | TRAIL_UP | TRAIL_DOWN | HIT.

Module Candle.
Record t : Type := mk {
  openTime : Z;
  open : Q;
  high : Q;
  low : Q;
  close : Q;
  volume : Q;
  closeTime : Z
}.
End Candle.

Module CandleData.
Record t : Type := mk {
  open : Q;
  high : Q;
  low : Q;
  close : Q;
  volume : Q
}.
Definition ofCandle (c : Candle.t) : t :=
  mk (Candle.open c) (Candle.high c) (Candle.low c) (Candle.close c)
     (Candle.volume c).
End CandleData.

Module TriggerLevel.
Record t : Type := mk {
  trigger : Q;
  stopLoss : Q;
  triggered : bool;
  hit : bool
}.
End TriggerLevel.

Module TrailingStopUpdate.
Record t : Type := mk {
  price : Q;
  time : TimeStr;
  type : UpdateType;
  market_price : Q;
  profit_at_update : Q;
  triggerCandle : option Candle.t
}.
End TrailingStopUpdate.

Module TradeExit.
Record t : Type := mk {
  price : Q;
  time : TimeStr;
  candles_until_exit : nat;
  trailing_stops : list TrailingStopUpdate.t
}.
End TradeExit.

(** The argument [entry] of [checkTradeOutcome]. *)
Module Entry.
Record t : Type := mk {
  price : Q;
  side : Side;
  size : Q;
  dynamicThreshold : Q
}.
End Entry.

(** The legend candle handed to [checkThresholdCrossing]. *)
Module LegendCandle.
Record t : Type := mk {
  timestamp : TimeStr;
  close : Q;
  upward_movementThreshold : Q;
  downward_movementThreshold : Q;
  candleData : option CandleData.t
}.
End LegendCandle.

(** The result of [checkThresholdCrossing]. *)
Module Crossing.
Record t : Type := mk {
  direction : Direction;
  crossed_at : TimeStr;
  entry_price : Q;
  candles_until_cross : nat;
  entryCandleData : option CandleData.t
}.
Definition none : t := mk NONE Empty 0 0%nat None.
End Crossing.

Module TradingConfig.
Record t : Type := mk {
  initialBalance : Q;
  positionSizePercent : Q;
  lookbackCandles : nat;          (* lookbackPeriod.candles *)
  threshold : Q;                  (* lookbackPeriod.threshold *)
  maxLookForwardCandles : nat;    (* trade.maxLookForwardCandles *)
  maxTriggerLevels : nat          (* trade.trailingStop.maxTriggerLevels *)
}.
End TradingConfig.

(** The state of one trailing-stop simulation between two candles. *)
Module Sim.
Record t : Type := mk {
  currentStopLoss : Q;
  currentTriggerIndex : nat;
  trailingHistory : list TrailingStopUpdate.t
}.
End Sim.

(** One entry of [trailing_details.trails]. *)
Module Trail.
Record t : Type := mk {
  trail_number : nat;
  time : TimeStr;
  triggerValue : Q;
  old_stop_loss : Q;
  new_stop_loss : Q;
  profit_at_this_trail : Q;              (* toFixed(2) *)
  TriggerCandleDetails : option CandleData.t;
  profit_so_far : Q                      (* toFixed(2) *)
}.
End Trail.

(** [TradeDetailsResult]: the fields are kept with their numeric content;
    the ones the code renders with [toFixed(2)] hold the rounded value. *)
Module TradeDetailsResult.
Record t : Type := mk {
  trade_Number : nat;
  timestamp : TimeStr;
  currentDynamicThreshold : Q;
  LegendCandleDifference : Q;            (* toFixed(2) *)
  LegendCandleDetails : option CandleData.t;
  side : Side;
  price : Q;
  time : TimeStr;
  PositionEntryCandleDetails : option CandleData.t;
  initial_stop_price : Q;
  trails : list Trail.t;
  exit_time : TimeStr;
  final_stop_loss_price : Q;
  total_trails_before_exit : nat;
  PNL_in_percent : Q;                    (* toFixed(2) *)
  PNL : Q;                               (* toFixed(2) *)
  balance_after_trade : Q
}.
End TradeDetailsResult.

Module MatchingCandle.
Record t : Type := mk {
  timestamp : TimeStr;
  open : Q;
  close : Q;
  movement : Q;
  dynamicThreshold : Q;
  averageMovement : Q;
  numPreviousCandles : nat;
  upward_movementThreshold : Q;
  downward_movementThreshold : Q;
  threshold_crossed : Crossing.t;
  trade_result : option TradeDetailsResult.t
}.
End MatchingCandle.

Module BalanceUpdate.
Record t : Type := mk {
  timestamp : TimeStr;
  balance : Q;
  trade_pnl : Q
}.
End BalanceUpdate.

(** The mutable fields of a [Backtester] instance. *)
Module RunState.
Record t : Type := mk {
  matchingCandles : list MatchingCandle.t;
  currentBalance : Q;
  balanceHistory : list BalanceUpdate.t
}.
End RunState.

(** ** Array helpers *)

(** [a.slice(-n)] *)
Definition sliceLast {A : Type} (n : nat) (a : list A) : list A :=
  match n with
  | O => a
  | S _ => skipn (length a - n) a
  end.

(** [a.slice(from, to)] *)
Definition slice {A : Type} (from to : nat) (a : list A) : list A :=
  firstn (to - from) (skipn from a).

(** [a.map((x, index) => f(x, index))] *)
Fixpoint mapiFrom {A B : Type} (f : A -> nat -> B) (index : nat) (a : list A)
  : list B :=
  match a with
  | [] => []
  | x :: a' => f x index :: mapiFrom f (S index) a'
  end.

Definition sum (l : list Q) : Q := fold_right Qplus 0 l.

(** [math.mean]: throws on an empty array. *)
Definition mean (l : list Q) : Completion Q :=
  match l with
  | [] => Throw
  | _ :: _ => Return (sum l / ofNat (length l))
  end.

(** [stops[i].price]; every index read this way exists in the array. *)
Definition priceAt (stops : list TrailingStopUpdate.t) (i : nat) : Q :=
  match nth_error stops i with
  | Some u => TrailingStopUpdate.price u
  | None => 0
  end.

(** Stop-hit test shared by both classes: LONG looks at the low, SHORT at
    the high. *)
Definition stopHit (side : Side) (candle : Candle.t) (currentStopLoss : Q)
  : bool :=
  match side with
  | LONG => leb (Candle.low candle) currentStopLoss
  | SHORT => geb (Candle.high candle) currentStopLoss
  end.

(** Trigger test shared by both classes. *)
Definition triggerCrossed (side : Side) (candle : Candle.t) (trigger : Q)
  : bool :=
  match side with
  | LONG => geb (Candle.high candle) trigger
  | SHORT => leb (Candle.low candle) trigger
  end.

Definition calculatePnL (entry exit : Q) (side : Side) (size : Q) : Q * Q :=
  let pnl := match side with LONG => exit - entry | SHORT => entry - exit end in
  let pnl_percentage := pnl / entry * 100 in
  (pnl, pnl_percentage).

(** ** The current class

    The first [Backtester] of the source (the one constructed with a
    [runConfig]): [checkThresholdCrossing], [calculateTriggerLevels],
    [checkTradeOutcome], [createTradeExit], [processTradeResult],
    [storeMatchingCandle], [updateBalance], [calculateTradeSize],
    [processCandle] and [findMatchingCandles].  Loops are written as
    recursive functions; [promote], [trailWhile], [candleStep], [tradeLoop]
    and [initialSim] are the pieces of [checkTradeOutcome], and [movement],
    [averageMovement], [dynamicThresholdOf] and [legendCandleOf] the opening
    statements of [processCandle]. *)

Module Backtester.

Section Run.

(** [config] is the default export of the configuration module, [runConfig]
    the constructor argument, [candles] the array filled by [loadData]. *)
Variable config : TradingConfig.t.
Variable runConfig : TradingConfig.t.
Variable candles : list Candle.t.

(** [const thresholdValue = entryPrice * (dynamicThreshold / 100)]: the
    distance between two rungs of the ladder. *)
Definition thresholdValue (entryPrice dynamicThreshold : Q) : Q :=
  entryPrice * (dynamicThreshold / 100).

Definition calculateTriggerLevels (entryPrice : Q) (side : Side)
    (dynamicThreshold : Q) : list TriggerLevel.t :=
  let thresholdValue := thresholdValue entryPrice dynamicThreshold in
  let initialLevel :=
    TriggerLevel.mk entryPrice
      (match side with
       | LONG => entryPrice - thresholdValue
       | SHORT => entryPrice + thresholdValue
       end)
      true false in
  initialLevel ::
  map (fun i =>
         match side with
         | LONG =>
             let trigger := entryPrice + thresholdValue * ofNat i in
             let stopLoss := trigger - thresholdValue in
             TriggerLevel.mk trigger stopLoss false false
         | SHORT =>
             let trigger := entryPrice - thresholdValue * ofNat i in
             let stopLoss := trigger + thresholdValue in
             TriggerLevel.mk trigger stopLoss false false
         end)
      (seq 1 (TradingConfig.maxTriggerLevels runConfig)).

(** [createTradeExit] pushes the HIT event on the history it is given and
    returns the exit. *)
Definition createTradeExit (candle : Candle.t) (stopLossPrice : Q)
    (candlesUntilExit : nat) (trailingHistory : list TrailingStopUpdate.t)
  : TradeExit.t :=
  let trailingHistory' :=
    trailingHistory ++
    [TrailingStopUpdate.mk stopLossPrice
       (Formatted (Candle.openTime candle)) HIT stopLossPrice 0 None] in
  TradeExit.mk stopLossPrice (Formatted (Candle.openTime candle))
    candlesUntilExit trailingHistory'.

(** One promotion: the body of the [while] when the trigger is crossed. *)
Definition promote (entry : Entry.t) (candle : Candle.t)
    (nextTrigger : TriggerLevel.t) (st : Sim.t) : Sim.t :=
  let currentStopLoss := TriggerLevel.stopLoss nextTrigger in
  Sim.mk currentStopLoss
    (S (Sim.currentTriggerIndex st))
    (Sim.trailingHistory st ++
     [TrailingStopUpdate.mk currentStopLoss
        (Formatted (Candle.openTime candle))
        (match Entry.side entry with LONG => TRAIL_UP | SHORT => TRAIL_DOWN end)
        (match Entry.side entry with
         | LONG => Candle.high candle
         | SHORT => Candle.low candle
         end)
        ((match Entry.side entry with LONG => 1 | SHORT => -(1) end)
         * (TriggerLevel.trigger nextTrigger - Entry.price entry)
         / Entry.price entry * 100)
        (Some candle)]).

(** [while (currentTriggerIndex < triggerLevels.length) { ... }]: the loop
    walks the levels from [currentTriggerIndex] on, so it is written by
    recursion on that suffix of the ladder ([pending]). *)
Fixpoint trailWhile (entry : Entry.t) (candle : Candle.t)
    (pending : list TriggerLevel.t) (st : Sim.t) : Sim.t :=
  match pending with
  | [] => st
  | nextTrigger :: pending' =>
      if triggerCrossed (Entry.side entry) candle
           (TriggerLevel.trigger nextTrigger)
      then trailWhile entry candle pending' (promote entry candle nextTrigger st)
      else st
  end.

(** The body of the [for] loop once [candle] has been read. *)
Definition candleStep (entry : Entry.t) (triggerLevels : list TriggerLevel.t)
    (i : nat) (candle : Candle.t) (st : Sim.t) : TradeExit.t + Sim.t :=
  if stopHit (Entry.side entry) candle (Sim.currentStopLoss st)
  then inl (createTradeExit candle (Sim.currentStopLoss st) i
              (Sim.trailingHistory st))
  else inr (trailWhile entry candle
              (skipn (Sim.currentTriggerIndex st) triggerLevels) st).

(** [for (let i = ...; i <= maxLookForwardCandles; i++)], with [remaining]
    the number of iterations still to run. *)
Fixpoint tradeLoop (startIndex : nat) (entry : Entry.t)
    (triggerLevels : list TriggerLevel.t) (remaining i : nat) (st : Sim.t)
  : option TradeExit.t :=
  match remaining with
  | O => None
  | S remaining' =>
      match nth_error candles (startIndex + i) with
      | None => None
      | Some candle =>
          match candleStep entry triggerLevels i candle st with
          | inl exit => Some exit
          | inr st' =>
              tradeLoop startIndex entry triggerLevels remaining' (S i) st'
          end
      end
  end.

(** The variables of [checkTradeOutcome] before its loop;
    [triggerLevels[0]] is the initial level, which the ladder always has. *)
Definition initialSim (entry : Entry.t) (triggerLevels : list TriggerLevel.t)
    (startCandle : Candle.t) : Sim.t :=
  let currentStopLoss :=
    match triggerLevels with
    | level0 :: _ => TriggerLevel.stopLoss level0
    | [] => 0
    end in
  Sim.mk currentStopLoss 1
    [TrailingStopUpdate.mk currentStopLoss
       (Formatted (Candle.openTime startCandle)) INITIAL
       (Entry.price entry) 0 None].

Definition checkTradeOutcome (startIndex : nat) (entry : Entry.t)
  : Completion (option TradeExit.t) :=
  let triggerLevels :=
    calculateTriggerLevels (Entry.price entry) (Entry.side entry)
      (Entry.dynamicThreshold entry) in
  match nth_error candles startIndex with
  | None => Throw          (* this.candles[startIndex].openTime *)
  | Some startCandle =>
      Return (tradeLoop startIndex entry triggerLevels
                (TradingConfig.maxLookForwardCandles runConfig) 1
                (initialSim entry triggerLevels startCandle))
  end.

(** *** Entry resolver *)

(** The [for] loop of [checkThresholdCrossing]; [remaining] counts the
    iterations still to run, [i] is the loop variable. *)
Fixpoint crossingLoop (startIndex : nat) (legendCandle : LegendCandle.t)
    (remaining i : nat) : Crossing.t :=
  match remaining with
  | O => Crossing.none
  | S remaining' =>
      match nth_error candles (startIndex + i) with
      | None => Crossing.none                       (* break *)
      | Some candle =>
          if geb (Candle.high candle)
               (LegendCandle.upward_movementThreshold legendCandle)
          then Crossing.mk (Dir LONG) (Formatted (Candle.openTime candle))
                 (LegendCandle.upward_movementThreshold legendCandle) i
                 (Some (CandleData.ofCandle candle))
          else if leb (Candle.low candle)
                    (LegendCandle.downward_movementThreshold legendCandle)
          then Crossing.mk (Dir SHORT) (Formatted (Candle.openTime candle))
                 (LegendCandle.downward_movementThreshold legendCandle) i
                 (Some (CandleData.ofCandle candle))
          else crossingLoop startIndex legendCandle remaining' (S i)
      end
  end.

Definition checkThresholdCrossing (startIndex : nat)
    (legendCandle : LegendCandle.t) : Crossing.t :=
  crossingLoop startIndex legendCandle
    (TradingConfig.maxLookForwardCandles runConfig) 1.

(** *** Trade accountant *)

Definition calculateTradeSize (st : RunState.t) (entryPrice : Q) : Q :=
  let positionSize :=
    RunState.currentBalance st * TradingConfig.positionSizePercent config
    / 100 in
  positionSize / entryPrice.

Definition isTrail (stop : TrailingStopUpdate.t) : bool :=
  match TrailingStopUpdate.type stop with
  | INITIAL | HIT => false
  | TRAIL_UP | TRAIL_DOWN => true
  end.

Definition processTradeResult (st : RunState.t) (entry : Crossing.t)
    (direction : Side) (exit : TradeExit.t) (dynamicThreshold currentDiff : Q)
    (legendCandleData : option CandleData.t) : TradeDetailsResult.t :=
  let '(pnl, pnl_percentage) :=
    calculatePnL (Crossing.entry_price entry) (TradeExit.price exit)
      direction 1 in
  let stops := TradeExit.trailing_stops exit in
  let trails :=
    mapiFrom
      (fun stop index =>
         let profitAtThisTrail :=
           match direction with
           | LONG => TrailingStopUpdate.price stop - priceAt stops index
           | SHORT => priceAt stops index - TrailingStopUpdate.price stop
           end in
         let profitSoFar :=
           match direction with
           | LONG => TrailingStopUpdate.price stop - Crossing.entry_price entry
           | SHORT => Crossing.entry_price entry - TrailingStopUpdate.price stop
           end in
         Trail.mk (index + 1) (TrailingStopUpdate.time stop)
           (TrailingStopUpdate.market_price stop)
           (priceAt stops index) (TrailingStopUpdate.price stop)
           (toFixed2 profitAtThisTrail)
           (option_map CandleData.ofCandle
              (TrailingStopUpdate.triggerCandle stop))
           (toFixed2 profitSoFar))
      0%nat (filter isTrail stops) in
  TradeDetailsResult.mk
    (length (RunState.matchingCandles st) + 1)
    (Crossing.crossed_at entry)
    dynamicThreshold (toFixed2 currentDiff) legendCandleData
    direction (Crossing.entry_price entry) (Crossing.crossed_at entry)
    (Crossing.entryCandleData entry)
    (priceAt stops 0)
    trails
    (TradeExit.time exit) (TradeExit.price exit) (length trails)
    (toFixed2 pnl_percentage) (toFixed2 pnl)
    (RunState.currentBalance st + pnl).

Definition updateBalance (st : RunState.t) (tradeResult : TradeDetailsResult.t)
  : RunState.t :=
  let currentBalance := TradeDetailsResult.balance_after_trade tradeResult in
  RunState.mk (RunState.matchingCandles st) currentBalance
    (RunState.balanceHistory st ++
     [BalanceUpdate.mk (TradeDetailsResult.exit_time tradeResult)
        currentBalance (TradeDetailsResult.PNL tradeResult)]).

Definition storeMatchingCandle (st : RunState.t) (currentCandle : Candle.t)
    (legendCandle : LegendCandle.t) (threshold_crossed : Crossing.t)
    (tradeResult : TradeDetailsResult.t) (dynamicThreshold averageDiff : Q)
  : RunState.t :=
  RunState.mk
    (RunState.matchingCandles st ++
     [MatchingCandle.mk (LegendCandle.timestamp legendCandle)
        (Candle.open currentCandle) (Candle.close currentCandle)
        (Qabs ((Candle.close currentCandle - Candle.open currentCandle)
               / Candle.open currentCandle) * 100)
        dynamicThreshold averageDiff
        (TradingConfig.lookbackCandles runConfig)
        (LegendCandle.upward_movementThreshold legendCandle)
        (LegendCandle.downward_movementThreshold legendCandle)
        threshold_crossed (Some tradeResult)])
    (RunState.currentBalance st) (RunState.balanceHistory st).

(** *** Threshold calculator and legend detector *)

(** The first statements of [processCandle]: the candle's own movement, the
    average movement of the window and the dynamic threshold. *)
Definition movement (currentCandle : Candle.t) : Q :=
  Qabs (Candle.close currentCandle - Candle.open currentCandle)
  / Candle.open currentCandle * 100.

Definition averageMovement (lookbackCandles : list Candle.t) : Completion Q :=
  let previousCandles :=
    sliceLast (TradingConfig.lookbackCandles runConfig) lookbackCandles in
  let previousDiffs :=
    map (fun candle =>
           Qabs ((Candle.close candle - Candle.open candle)
                 / Candle.open candle) * 100)
        previousCandles in
  mean previousDiffs.

Definition dynamicThresholdOf (averageDiff : Q) : Q :=
  TradingConfig.threshold runConfig * averageDiff.

(** The guard [currentDiff >= dynamicThreshold]. *)
Definition isLegend (currentCandle : Candle.t)
    (lookbackCandles : list Candle.t) : Completion bool :=
  averageDiff <- averageMovement lookbackCandles ;;
  Return (geb (movement currentCandle) (dynamicThresholdOf averageDiff)).

(** The object literal [legendCandle]. *)
Definition legendCandleOf (currentCandle : Candle.t) (dynamicThreshold : Q)
  : LegendCandle.t :=
  let thresholdValue := Candle.close currentCandle * (dynamicThreshold / 100) in
  LegendCandle.mk (Formatted (Candle.openTime currentCandle))
    (Candle.close currentCandle)
    (Candle.close currentCandle + thresholdValue)
    (Candle.close currentCandle - thresholdValue)
    (Some (CandleData.ofCandle currentCandle)).

Definition processCandle (st : RunState.t) (currentCandle : Candle.t)
    (lookbackCandles : list Candle.t) (currentIndex : nat)
  : Completion RunState.t :=
  let currentDiff := movement currentCandle in
  averageDiff <- averageMovement lookbackCandles ;;
  let dynamicThreshold := dynamicThresholdOf averageDiff in
  if geb currentDiff dynamicThreshold then
    let legendCandle := legendCandleOf currentCandle dynamicThreshold in
    let threshold_crossed := checkThresholdCrossing currentIndex legendCandle in
    match Crossing.direction threshold_crossed with
    | NONE => Return st
    | Dir side =>
        let tradeSize :=
          calculateTradeSize st (Crossing.entry_price threshold_crossed) in
        exit <- checkTradeOutcome
                  (currentIndex + Crossing.candles_until_cross threshold_crossed)
                  (Entry.mk (Crossing.entry_price threshold_crossed) side
                     tradeSize dynamicThreshold) ;;
        match exit with
        | None => Return st
        | Some exit =>
            let tradeResult :=
              processTradeResult st threshold_crossed side exit
                dynamicThreshold currentDiff
                (LegendCandle.candleData legendCandle) in
            let st1 := updateBalance st tradeResult in
            Return (storeMatchingCandle st1 currentCandle legendCandle
                      threshold_crossed tradeResult dynamicThreshold
                      averageDiff)
        end
    end
  else Return st.

(** [for (let i = lookbackPeriod; i < this.candles.length; i++)] *)
Fixpoint candleLoop (lookbackPeriod : nat) (indices : list nat)
    (st : RunState.t) : Completion RunState.t :=
  match indices with
  | [] => Return st
  | i :: indices' =>
      match nth_error candles i with
      | None => Throw
      | Some currentCandle =>
          let lookbackCandles := slice (i - lookbackPeriod) i candles in
          st' <- processCandle st currentCandle lookbackCandles i ;;
          candleLoop lookbackPeriod indices' st'
      end
  end.

Definition initialState : RunState.t :=
  RunState.mk [] (TradingConfig.initialBalance runConfig) [].

(** [saveResults] builds the report from the fields of the instance (its
    numbers are [trade_performance] below), creates the result directories
    and writes the file.  Whether [fs.promises.mkdir] and
    [fs.promises.writeFile] resolve or reject is decided outside the program:
    the call is a parameter of the run. *)
Variable saveResults : RunState.t -> Completion unit.

(** [findMatchingCandles]: the loop over the candles, then
    [await this.saveResults(this.matchingCandles)]. *)
Definition findMatchingCandles (st : RunState.t) : Completion RunState.t :=
  let lookbackPeriod := (TradingConfig.lookbackCandles runConfig + 10)%nat in
  st' <- candleLoop lookbackPeriod
           (seq lookbackPeriod (length candles - lookbackPeriod)) st ;;
  _ <- saveResults st' ;;
  Return st'.

End Run.

End Backtester.

(** ** The earlier class

    The second [Backtester] of the source (the one constructed with the symbol
    only).  It reads the module-level [config], looks 720 candles ahead for an
    entry with strict comparisons, builds 20 trigger levels as multiples of
    the entry price, tests one trigger per candle, and flags a legend with a
    strict comparison.  [hitExit], [promote], [candleStep], [tradeLoop],
    [initialStop] and [initialSim] are the pieces of its [checkTradeOutcome];
    [tradeResultOf] is the object literal [tradeResult] of its
    [processCandle]. *)

Module Backtester2.

Module TradeResult.
Record t : Type := mk {
  entry_price : Q;
  entry_time : TimeStr;
  entry_side : Side;
  candles_until_entry : nat;
  exit : TradeExit.t;
  pnl : Q;
  pnl_percentage : Q;
  max_profit_reached : Q;
  max_profit_percentage : Q;
  total_trails : nat;
  average_trail_distance : Q;
  largest_trail : Q;
  balance_after_trade : Q
}.
End TradeResult.

Module MatchingCandle.
Record t : Type := mk {
  timestamp : TimeStr;
  open : Q;
  close : Q;
  movement : Q;
  dynamicThreshold : Q;
  averageMovement : Q;
  numPreviousCandles : nat;
  upward_movementThreshold : Q;
  downward_movementThreshold : Q;
  threshold_crossed : Crossing.t;
  trade_result : option TradeResult.t
}.
End MatchingCandle.

Module RunState.
Record t : Type := mk {
  matchingCandles : list MatchingCandle.t;
  currentBalance : Q;
  balanceHistory : list BalanceUpdate.t
}.
End RunState.

Section Run.

Variable config : TradingConfig.t.
Variable candles : list Candle.t.

(** *** Entry resolver (strict comparisons, 720 candles) *)

Fixpoint crossingLoop (startIndex : nat) (legendCandle : LegendCandle.t)
    (remaining i : nat) : Crossing.t :=
  match remaining with
  | O => Crossing.none
  | S remaining' =>
      match nth_error candles (startIndex + i) with
      | None => Crossing.none
      | Some candle =>
          if gtb (Candle.high candle)
               (LegendCandle.upward_movementThreshold legendCandle)
          then Crossing.mk (Dir LONG) (Formatted (Candle.openTime candle))
                 (LegendCandle.upward_movementThreshold legendCandle) i None
          else if ltb (Candle.low candle)
                    (LegendCandle.downward_movementThreshold legendCandle)
          then Crossing.mk (Dir SHORT) (Formatted (Candle.openTime candle))
                 (LegendCandle.downward_movementThreshold legendCandle) i None
          else crossingLoop startIndex legendCandle remaining' (S i)
      end
  end.

Definition checkThresholdCrossing (startIndex : nat)
    (legendCandle : LegendCandle.t) : Crossing.t :=
  let lookForward := Nat.min 720 (length candles - startIndex) in
  crossingLoop startIndex legendCandle lookForward 1.

(** *** Trigger ladder (multiples of the entry price) *)

Definition calculateTriggerLevels (entryPrice : Q) (side : Side)
    (dynamicThreshold : Q) : list TriggerLevel.t :=
  let thresholdMultiplier := dynamicThreshold / 100 in
  map (fun i =>
         match side with
         | LONG =>
             let trigger := entryPrice * (1 + thresholdMultiplier * ofNat i) in
             let stopLoss :=
               entryPrice * (1 + thresholdMultiplier * (ofNat i - 1)) in
             TriggerLevel.mk trigger stopLoss false false
         | SHORT =>
             let trigger := entryPrice * (1 - thresholdMultiplier * ofNat i) in
             let stopLoss :=
               entryPrice * (1 - thresholdMultiplier * (ofNat i - 1)) in
             TriggerLevel.mk trigger stopLoss false false
         end)
      (seq 1 20).

Definition initialStop (entry : Entry.t) : Q :=
  match Entry.side entry with
  | LONG => Entry.price entry * (1 - Entry.dynamicThreshold entry / 100)
  | SHORT => Entry.price entry * (1 + Entry.dynamicThreshold entry / 100)
  end.

(** *** Trailing-stop simulator

    [nextTriggerLevel] is assigned together with [currentTriggerIndex] and is
    always [triggerLevels[currentTriggerIndex]]; it is read from the ladder
    here. *)

Definition hitExit (entry : Entry.t) (i : nat) (candle : Candle.t)
    (st : Sim.t) : TradeExit.t :=
  let currentStopLoss := Sim.currentStopLoss st in
  TradeExit.mk currentStopLoss (Formatted (Candle.openTime candle)) i
    (Sim.trailingHistory st ++
     [TrailingStopUpdate.mk currentStopLoss
        (Formatted (Candle.openTime candle)) HIT
        (match Entry.side entry with
         | LONG => Candle.low candle
         | SHORT => Candle.high candle
         end)
        (match Entry.side entry with
         | LONG => (currentStopLoss - Entry.price entry) / Entry.price entry * 100
         | SHORT => (Entry.price entry - currentStopLoss) / Entry.price entry * 100
         end)
        None]).

Definition promote (entry : Entry.t) (candle : Candle.t)
    (nextTriggerLevel : TriggerLevel.t) (st : Sim.t) : Sim.t :=
  let currentStopLoss := TriggerLevel.stopLoss nextTriggerLevel in
  Sim.mk currentStopLoss
    (S (Sim.currentTriggerIndex st))
    (Sim.trailingHistory st ++
     [TrailingStopUpdate.mk currentStopLoss
        (Formatted (Candle.openTime candle))
        (match Entry.side entry with LONG => TRAIL_UP | SHORT => TRAIL_DOWN end)
        (match Entry.side entry with
         | LONG => Candle.high candle
         | SHORT => Candle.low candle
         end)
        (match Entry.side entry with
         | LONG => (Candle.high candle - Entry.price entry) / Entry.price entry * 100
         | SHORT => (Entry.price entry - Candle.low candle) / Entry.price entry * 100
         end)
        None]).

(** The body of the [for] loop once [candle] has been read: the stop test,
    then a single [if] on the next trigger. *)
Definition candleStep (entry : Entry.t) (triggerLevels : list TriggerLevel.t)
    (i : nat) (candle : Candle.t) (st : Sim.t) : TradeExit.t + Sim.t :=
  if stopHit (Entry.side entry) candle (Sim.currentStopLoss st)
  then inl (hitExit entry i candle st)
  else
    match nth_error triggerLevels (Sim.currentTriggerIndex st) with
    | Some nextTriggerLevel =>
        if triggerCrossed (Entry.side entry) candle
             (TriggerLevel.trigger nextTriggerLevel)
        then inr (promote entry candle nextTriggerLevel st)
        else inr st
    | None => inr st        (* currentTriggerIndex >= triggerLevels.length *)
    end.

Fixpoint tradeLoop (startIndex : nat) (entry : Entry.t)
    (triggerLevels : list TriggerLevel.t) (remaining i : nat) (st : Sim.t)
  : option TradeExit.t :=
  match remaining with
  | O => None
  | S remaining' =>
      match nth_error candles (startIndex + i) with
      | None => None
      | Some candle =>
          match candleStep entry triggerLevels i candle st with
          | inl exit => Some exit
          | inr st' =>
              tradeLoop startIndex entry triggerLevels remaining' (S i) st'
          end
      end
  end.

Definition initialSim (entry : Entry.t) (startCandle : Candle.t) : Sim.t :=
  let currentStopLoss := initialStop entry in
  Sim.mk currentStopLoss 0
    [TrailingStopUpdate.mk currentStopLoss
       (Formatted (Candle.openTime startCandle)) INITIAL
       (Entry.price entry) 0 None].

Definition checkTradeOutcome (startIndex : nat) (entry : Entry.t)
  : Completion (option TradeExit.t) :=
  let triggerLevels :=
    calculateTriggerLevels (Entry.price entry) (Entry.side entry)
      (Entry.dynamicThreshold entry) in
  match nth_error candles startIndex with
  | None => Throw
  | Some startCandle =>
      Return (tradeLoop startIndex entry triggerLevels
                (TradingConfig.maxLookForwardCandles config) 1
                (initialSim entry startCandle))
  end.

(** *** Threshold calculator, legend detector and accounting *)

Definition calculateTradeSize (st : RunState.t) (entryPrice : Q) : Q :=
  let positionSize :=
    RunState.currentBalance st * TradingConfig.positionSizePercent config
    / 100 in
  positionSize / entryPrice.

Definition movement (currentCandle : Candle.t) : Q :=
  Qabs (Candle.close currentCandle - Candle.open currentCandle)
  / Candle.open currentCandle * 100.

Definition averageMovement (lookbackCandles : list Candle.t) : Completion Q :=
  let previousCandles :=
    sliceLast (TradingConfig.lookbackCandles config) lookbackCandles in
  let previousDiffs :=
    map (fun candle =>
           Qabs ((Candle.close candle - Candle.open candle)
                 / Candle.open candle) * 100)
        previousCandles in
  mean previousDiffs.

Definition dynamicThresholdOf (averageDiff : Q) : Q :=
  TradingConfig.threshold config * averageDiff.

(** The guard [currentDiff > dynamicThreshold]. *)
Definition isLegend (currentCandle : Candle.t)
    (lookbackCandles : list Candle.t) : Completion bool :=
  averageDiff <- averageMovement lookbackCandles ;;
  Return (gtb (movement currentCandle) (dynamicThresholdOf averageDiff)).

(** Sum of the distances between consecutive stops (the [reduce] of
    [average_trail_distance]). *)
Fixpoint trailDistances (prev : Q) (rest : list TrailingStopUpdate.t) : Q :=
  match rest with
  | [] => 0
  | update :: rest' =>
      Qabs (TrailingStopUpdate.price update - prev)
      + trailDistances (TrailingStopUpdate.price update) rest'
  end.

(** [Math.max(...xs)] on a non-empty list. *)
Definition maxOf (x : Q) (xs : list Q) : Q :=
  fold_left (fun m y => if ltb m y then y else m) xs x.

Definition tradeResultOf (threshold_crossed : Crossing.t) (side : Side)
    (exit : TradeExit.t) (pnl pnl_percentage balance : Q) : TradeResult.t :=
  let stops := TradeExit.trailing_stops exit in
  let profit := TradeExit.price exit - Crossing.entry_price threshold_crossed in
  let profitPercent := profit / Crossing.entry_price threshold_crossed * 100 in
  let spans :=
    map (fun update => Qabs (TrailingStopUpdate.price update - priceAt stops 0))
        (skipn 1 stops) in
  TradeResult.mk
    (Crossing.entry_price threshold_crossed)
    (Crossing.crossed_at threshold_crossed) side
    (Crossing.candles_until_cross threshold_crossed)
    exit pnl pnl_percentage profit profitPercent
    (length stops - 1)
    (trailDistances (priceAt stops 0) (skipn 1 stops)
     / ofNat (length stops - 1))
    (match spans with
     | [] => 0
     | x :: xs => maxOf x xs
     end)
    balance.

Definition legendCandleOf (currentCandle : Candle.t) (dynamicThreshold : Q)
  : LegendCandle.t :=
  let thresholdPercentage := dynamicThreshold / 100 in
  LegendCandle.mk (Formatted (Candle.openTime currentCandle))
    (Candle.close currentCandle)
    (Candle.close currentCandle * (1 + thresholdPercentage))
    (Candle.close currentCandle * (1 - thresholdPercentage))
    None.

Definition processCandle (st : RunState.t) (currentCandle : Candle.t)
    (lookbackCandles : list Candle.t) (currentIndex : nat)
  : Completion RunState.t :=
  let currentDiff := movement currentCandle in
  averageDiff <- averageMovement lookbackCandles ;;
  let dynamicThreshold := dynamicThresholdOf averageDiff in
  if gtb currentDiff dynamicThreshold then
    let legendCandle := legendCandleOf currentCandle dynamicThreshold in
    let threshold_crossed := checkThresholdCrossing currentIndex legendCandle in
    match Crossing.direction threshold_crossed with
    | NONE => Return st
    | Dir side =>
        let tradeSize :=
          calculateTradeSize st (Crossing.entry_price threshold_crossed) in
        exit <- checkTradeOutcome
                  (currentIndex + Crossing.candles_until_cross threshold_crossed)
                  (Entry.mk (Crossing.entry_price threshold_crossed) side
                     tradeSize dynamicThreshold) ;;
        match exit with
        | None => Return st
        | Some exit =>
            let '(pnl, pnl_percentage) :=
              calculatePnL (Crossing.entry_price threshold_crossed)
                (TradeExit.price exit) side tradeSize in
            let currentBalance := RunState.currentBalance st + pnl in
            let tradeResult :=
              tradeResultOf threshold_crossed side exit pnl pnl_percentage
                currentBalance in
            Return
              (RunState.mk
                 (RunState.matchingCandles st ++
                  [MatchingCandle.mk (LegendCandle.timestamp legendCandle)
                     (Candle.open currentCandle) (Candle.close currentCandle)
                     currentDiff dynamicThreshold averageDiff
                     (TradingConfig.lookbackCandles config)
                     (LegendCandle.upward_movementThreshold legendCandle)
                     (LegendCandle.downward_movementThreshold legendCandle)
                     threshold_crossed (Some tradeResult)])
                 currentBalance (RunState.balanceHistory st))
        end
    end
  else Return st.

Fixpoint candleLoop (lookbackPeriod : nat) (indices : list nat)
    (st : RunState.t) : Completion RunState.t :=
  match indices with
  | [] => Return st
  | i :: indices' =>
      match nth_error candles i with
      | None => Throw
      | Some currentCandle =>
          let lookbackCandles := slice (i - lookbackPeriod) i candles in
          st' <- processCandle st currentCandle lookbackCandles i ;;
          candleLoop lookbackPeriod indices' st'
      end
  end.

(** After the loop [findMatchingCandles] of this class builds the report
    from the stored candles, writes it with [fs.promises.writeFile] and
    prints the summary.  Whether that part resolves or rejects is decided
    outside the program: it is a parameter of the run. *)
Variable writeResults : RunState.t -> Completion unit.

Definition findMatchingCandles (st : RunState.t) : Completion RunState.t :=
  let lookbackPeriod := (TradingConfig.lookbackCandles config + 10)%nat in
  st' <- candleLoop lookbackPeriod
           (seq lookbackPeriod (length candles - lookbackPeriod)) st ;;
  _ <- writeResults st' ;;
  Return st'.

End Run.

End Backtester2.

(** ** Notions used in the statements *)

Definition prices (history : list TrailingStopUpdate.t) : list Q :=
  map TrailingStopUpdate.price history.

(** Each element exceeds its predecessor by exactly [d]. *)
Fixpoint stepsBy (d : Q) (l : list Q) : Prop :=
  match l with
  | x :: (y :: _) as l' => y - x == d /\ stepsBy d l'
  | _ => True
  end.



(** The signed rung distance of a trade: [+delta] for LONG, [-delta] for
    SHORT. *)
Definition signedDelta (entry : Entry.t) : Q :=
  match Entry.side entry with
  | LONG => Backtester.thresholdValue (Entry.price entry) (Entry.dynamicThreshold entry)
  | SHORT => - Backtester.thresholdValue (Entry.price entry) (Entry.dynamicThreshold entry)
  end.

(** The states the [for] loop of [Backtester.checkTradeOutcome] goes through:
    [reachable ... i st] says that the loop starts iteration [i] in state
    [st]. *)
Inductive reachable (runConfig : TradingConfig.t) (candles : list Candle.t)
    (startIndex : nat) (entry : Entry.t) : nat -> Sim.t -> Prop :=
| reach_init : forall startCandle,
    nth_error candles startIndex = Some startCandle ->
    reachable runConfig candles startIndex entry 1
      (Backtester.initialSim entry
         (Backtester.calculateTriggerLevels runConfig (Entry.price entry)
            (Entry.side entry) (Entry.dynamicThreshold entry))
         startCandle)
| reach_step : forall i st candle st',
    reachable runConfig candles startIndex entry i st ->
    nth_error candles (startIndex + i) = Some candle ->
    Backtester.candleStep entry
      (Backtester.calculateTriggerLevels runConfig (Entry.price entry)
         (Entry.side entry) (Entry.dynamicThreshold entry))
      i candle st = inr st' ->
    reachable runConfig candles startIndex entry (S i) st'.

(** The indices [findMatchingCandles] visits at which the guard of
    [processCandle] holds, i.e. the candles flagged as legends. *)
Definition flagged (runConfig : TradingConfig.t) (candles : list Candle.t)
    (i : nat) : bool :=
  let lookbackPeriod := (TradingConfig.lookbackCandles runConfig + 10)%nat in
  match nth_error candles i with
  | Some currentCandle =>
      match Backtester.isLegend runConfig currentCandle
              (slice (i - lookbackPeriod) i candles) with
      | Return b => b
      | Throw => false
      end
  | None => false
  end.

Definition legendIndices (runConfig : TradingConfig.t)
    (candles : list Candle.t) : list nat :=
  let lookbackPeriod := (TradingConfig.lookbackCandles runConfig + 10)%nat in
  filter (flagged runConfig candles)
    (seq lookbackPeriod (length candles - lookbackPeriod)).

(** The configuration with another threshold multiplier. *)
Definition withThreshold (k : Q) (c : TradingConfig.t) : TradingConfig.t :=
  TradingConfig.mk (TradingConfig.initialBalance c)
    (TradingConfig.positionSizePercent c) (TradingConfig.lookbackCandles c) k
    (TradingConfig.maxLookForwardCandles c) (TradingConfig.maxTriggerLevels c).

(** Rung [j >= 1] of the ladder, as the loop body builds it. *)
Definition rung (entryPrice : Q) (side : Side) (dynamicThreshold : Q) (j : nat)
  : TriggerLevel.t :=
  let d := Backtester.thresholdValue entryPrice dynamicThreshold in
  match side with
  | LONG => TriggerLevel.mk (entryPrice + d * ofNat j)
              (entryPrice + d * ofNat j - d) false false
  | SHORT => TriggerLevel.mk (entryPrice - d * ofNat j)
               (entryPrice - d * ofNat j + d) false false
  end.

(** Rung [j >= 1] of the ladder of the earlier class (stored at index
    [j - 1]). *)
Definition rung2 (entryPrice : Q) (side : Side) (dynamicThreshold : Q) (j : nat)
  : TriggerLevel.t :=
  let m := dynamicThreshold / 100 in
  match side with
  | LONG => TriggerLevel.mk (entryPrice * (1 + m * ofNat j))
              (entryPrice * (1 + m * (ofNat j - 1))) false false
  | SHORT => TriggerLevel.mk (entryPrice * (1 - m * ofNat j))
               (entryPrice * (1 - m * (ofNat j - 1))) false false
  end.

(** The event type of a promotion. *)
Definition trailTypeOf (side : Side) : UpdateType :=
  match side with
  | LONG => TRAIL_UP
  | SHORT => TRAIL_DOWN
  end.

(** The invariant of the simulation loop of the current class: the history
    is the INITIAL event followed by one event per rung passed, its prices
    start one rung distance behind the entry price, move by the signed rung
    distance at each event, and end at the active stop. *)
Definition stopChain (runConfig : TradingConfig.t) (entry : Entry.t)
    (st : Sim.t) : Prop :=
  (1 <= Sim.currentTriggerIndex st
   <= S (TradingConfig.maxTriggerLevels runConfig))%nat
  /\ (exists earlier,
        prices (Sim.trailingHistory st) = earlier ++ [Sim.currentStopLoss st])
  /\ Sim.currentStopLoss st
     == Entry.price entry
        + (ofNat (Sim.currentTriggerIndex st) - 2) * signedDelta entry
  /\ stepsBy (signedDelta entry) (prices (Sim.trailingHistory st))
  /\ map TrailingStopUpdate.type (Sim.trailingHistory st)
     = INITIAL :: repeat (trailTypeOf (Entry.side entry))
                    (Sim.currentTriggerIndex st - 1)
  /\ (exists first rest,
        prices (Sim.trailingHistory st) = first :: rest
        /\ first == Entry.price entry - signedDelta entry).

(** ** Scenarios *)

(** The shipped configuration: 72 lookback candles, multiplier 10, 720 candles
    of look-forward, 20 trigger levels. *)
Definition shippedConfig : TradingConfig.t :=
  TradingConfig.mk 1000 100 72 10 720 20.

(** A LONG entry at 189 with a dynamic threshold of 5 percent. *)
Definition entry189 : Entry.t := Entry.mk 189 LONG 1 5.

Definition crossingCandle189 : Candle.t := Candle.mk 0 185 190 184 189 10 1.
Definition promotingCandle189 : Candle.t := Candle.mk 2 191 199 190 198 10 3.
Definition exitCandle189 : Candle.t := Candle.mk 4 198 198 188 189 10 5.

Definition candles189 : list Candle.t :=
  [crossingCandle189; promotingCandle189; exitCandle189].

(** A candle that reaches both the initial stop (179.55) and trigger 1
    (198.45) of the entry at 189. *)
Definition engulfingCandle189 : Candle.t := Candle.mk 2 189 199 179 185 10 3.

(** A LONG entry at 100 with a dynamic threshold of 5 percent: initial stop
    95, triggers 105, 110, 115, ... with stops 100, 105, 110, ...  The gap
    candle reaches triggers 1 and 2 (not 3) and stays above the stop; the quiet
    candle after it dips to 103. *)
Definition entry100 : Entry.t := Entry.mk 100 LONG 1 5.
Definition crossingCandle100 : Candle.t := Candle.mk 0 98 101 97 100 10 1.
Definition gapCandle100 : Candle.t := Candle.mk 2 100 112 99 111 10 3.
Definition quietCandle100 : Candle.t := Candle.mk 4 104 104 103 103 10 5.
Definition candles100 : list Candle.t :=
  [crossingCandle100; gapCandle100; quietCandle100].

(** A legend candle closing at 100 with a dynamic threshold of 10 percent
    (levels 110 and 90), followed by a candle whose high touches 110 exactly. *)
Definition legend100 : Candle.t := Candle.mk 0 90 101 90 100 10 1.
Definition touchingCandle : Candle.t := Candle.mk 2 100 110 99 105 10 3.
Definition candlesTouch : list Candle.t := [legend100; touchingCandle].

(** Candles that do not move, one every two time units, and a configuration
    with a lookback of two candles (the window handed to [processCandle] then
    holds 12 candles). *)
Definition flatCandleAt (n : nat) : Candle.t :=
  Candle.mk (Z.of_nat (2 * n)) 100 100 100 100 10 (Z.of_nat (2 * n + 1)).
Definition shortLookback : TradingConfig.t :=
  TradingConfig.mk 1000 100 2 10 720 20.
Definition flatRun : list Candle.t := map flatCandleAt (seq 0 13).
Definition flatWindow : list Candle.t := slice 0 12 flatRun.
Definition flatCandle : Candle.t := flatCandleAt 12.

(** A short run for the accounting properties: lookback 1 (warm-up of 11
    candles), multiplier 1, two candles of look-forward, two trigger levels.
    Eleven candles moving by 1 percent are followed by a candle moving by 2
    percent (a legend closing at 102, levels 103.02 and 100.98), a candle whose
    high reaches 104 (LONG entry at 103.02), and one last candle that stays
    between stop and trigger: the simulation runs out of candles. *)
Definition tinyConfig : TradingConfig.t := TradingConfig.mk 1000 100 1 1 2 2.
Definition calmCandleAt (n : nat) : Candle.t :=
  Candle.mk (Z.of_nat (2 * n)) 100 101 100 101 10 (Z.of_nat (2 * n + 1)).
Definition legendCandle102 : Candle.t := Candle.mk 22 100 102 100 102 10 23.
Definition entryCandle104 : Candle.t := Candle.mk 24 102 104 102 103 10 25.
Definition idleCandle : Candle.t := Candle.mk 26 103 103.5 102.5 103 10 27.
Definition abandonedRun : list Candle.t :=
  map calmCandleAt (seq 0 11) ++ [legendCandle102; entryCandle104; idleCandle].

(** ** The report of [saveResults]

    The numeric part of the object [formattedResults] that the current class
    writes out: [detailed_trades] and [trade_performance].  A percentage
    rendered from 0/0 is [None] (the text is "NaN%"). *)

(** [matchingCandles.filter(c => c.trade_result !== null).map(c => c.trade_result)] *)
Definition detailed_trades (matchingCandles : list MatchingCandle.t)
  : list TradeDetailsResult.t :=
  flat_map (fun c => match MatchingCandle.trade_result c with
                     | Some r => [r]
                     | None => []
                     end) matchingCandles.

(** [c.trade_result && test(parseFloat(c.trade_result...PNL))] *)
Definition pnlIs (test : Q -> bool) (c : MatchingCandle.t) : bool :=
  match MatchingCandle.trade_result c with
  | Some r => test (TradeDetailsResult.PNL r)
  | None => false
  end.

(** [c.trade_result?.entry.side === side] *)
Definition sideIs (side : Side) (c : MatchingCandle.t) : bool :=
  match MatchingCandle.trade_result c with
  | Some r =>
      match TradeDetailsResult.side r, side with
      | LONG, LONG | SHORT, SHORT => true
      | _, _ => false
      end
  | None => false
  end.

Module DirectionStats.
Record t : Type := mk {
  total_trades : nat;
  profitable_trades : nat;
  total_pnl : Q                              (* toFixed(2) *)
}.
End DirectionStats.

Module Performance.
Record t : Type := mk {
  total_trades : nat;
  profitable_trades : nat;
  unprofitable_trades : nat;
  win_rate : option Q;                       (* toFixed(2), None for NaN *)
  long : DirectionStats.t;
  short : DirectionStats.t
}.
End Performance.

Definition by_direction (side : Side) (matchingCandles : list MatchingCandle.t)
  : DirectionStats.t :=
  DirectionStats.mk
    (length (filter (sideIs side) matchingCandles))
    (length (filter (fun c => sideIs side c && pnlIs (fun p => gtb p 0) c)
               matchingCandles))
    (toFixed2
       (fold_left
          (fun sum trade =>
             sum + match MatchingCandle.trade_result trade with
                   | Some r => TradeDetailsResult.PNL r
                   | None => 0
                   end)
          (filter (sideIs side) matchingCandles) 0)).

Definition trade_performance (matchingCandles : list MatchingCandle.t)
  : Performance.t :=
  let total := length matchingCandles in
  let profitable :=
    length (filter (pnlIs (fun p => gtb p 0)) matchingCandles) in
  Performance.mk total profitable
    (length (filter (pnlIs (fun p => leb p 0)) matchingCandles))
    (match total with
     | O => None
     | S _ => Some (toFixed2 (ofNat profitable / ofNat total * 100))
     end)
    (by_direction LONG matchingCandles)
    (by_direction SHORT matchingCandles).

(** ** The ledger *)

(** Every entry of a balance history records, as [trade_pnl], the change of
    the balance it reports, up to half a cent. *)
Fixpoint pnlConsistent (previous : Q) (history : list BalanceUpdate.t) : Prop :=
  match history with
  | [] => True
  | update :: history' =>
      Qabs (BalanceUpdate.trade_pnl update
            - (BalanceUpdate.balance update - previous)) <= 1 # 200
      /\ pnlConsistent (BalanceUpdate.balance update) history'
  end.

(** What the run state of the current class satisfies between two candles,
    for a run started with [initialBalance]. *)
Definition ledger (initialBalance : Q) (st : RunState.t) : Prop :=
  let trades := detailed_trades (RunState.matchingCandles st) in
  length trades = length (RunState.matchingCandles st)
  /\ map TradeDetailsResult.trade_Number trades = seq 1 (length trades)
  /\ map BalanceUpdate.balance (RunState.balanceHistory st)
     = map TradeDetailsResult.balance_after_trade trades
  /\ map BalanceUpdate.timestamp (RunState.balanceHistory st)
     = map TradeDetailsResult.exit_time trades
  /\ RunState.currentBalance st
     = last (map BalanceUpdate.balance (RunState.balanceHistory st))
         initialBalance
  /\ pnlConsistent initialBalance (RunState.balanceHistory st).

(** A run with one completed trade: the abandoned run followed by a candle
    that falls to the initial stop. *)
Definition stoppingCandle : Candle.t := Candle.mk 28 103 103 101 102 10 29.
Definition completedRun : list Candle.t := abandonedRun ++ [stoppingCandle].

(** A run whose result file is written without error. *)
Definition resultsSaved (st : RunState.t) : Completion unit := Return tt.
Definition resultsWritten (st : Backtester2.RunState.t) : Completion unit :=
  Return tt.

(** ** The data fetcher: the months to download

    [DataFetcher.getMonthlyFileNames] walks the months from the configured
    start date to the configured end date (the current date when none is
    configured, here the argument [today]) and names one file per month.
    [jsDate] is what [new Date(year, month - 1)] keeps of a configured
    year and one-based month: the full year and the zero-based month, a
    month outside 1..12 carrying into the year and a year below 100 counted
    from 1900. *)

From Stdlib Require String DecimalString.
Import String.StringSyntax.
Delimit Scope string_scope with string.

Module DataFetcher.

Definition jsDate (year month : nat) : nat * nat :=
  let fullYear := if (year <=? 99)%nat then (1900 + year)%nat else year in
  match month with
  | O => ((fullYear - 1)%nat, 11%nat)
  | S monthIndex =>
      ((fullYear + monthIndex / 12)%nat, (monthIndex mod 12)%nat)
  end.

(** [String(n)] for a non-negative integer, and [padStart(2, '0')]. *)
Definition decimal (n : nat) : String.string :=
  DecimalString.NilZero.string_of_uint (Nat.to_uint n).

Definition padStart2 (s : String.string) : String.string :=
  match String.length s with
  | 0%nat => String.append "00"%string s
  | 1%nat => String.append "0"%string s
  | _ => s
  end.

Definition fileName (symbol timeframe : String.string) (yearMonth : nat * nat)
  : String.string :=
  let '(currentYear, currentMonth) := yearMonth in
  String.append symbol
    (String.append "-"%string
       (String.append timeframe
          (String.append "-"%string
             (String.append (decimal currentYear)
                (String.append "-"%string
                   (padStart2 (decimal (currentMonth + 1)))))))).

(** The [while] loop, with [fuel] bounding the number of iterations. *)
Fixpoint monthLoop (fuel endYear endMonth currentYear currentMonth : nat)
  : list (nat * nat) :=
  match fuel with
  | O => []
  | S fuel' =>
      if ((currentYear <? endYear)
          || ((currentYear =? endYear) && (currentMonth <=? endMonth)))%nat
      then
        (currentYear, currentMonth)
        :: (if (11 <? currentMonth + 1)%nat
            then monthLoop fuel' endYear endMonth (currentYear + 1) 0
            else monthLoop fuel' endYear endMonth currentYear
                   (currentMonth + 1))
      else []
  end.

(** The months walked: twelve iterations per year from the start year to
    the end year are enough for the loop to run to its end. *)
Definition monthsToFetch (startDate endDate : nat * nat) : list (nat * nat) :=
  monthLoop (12 * (S (fst endDate) - fst startDate))%nat
    (fst endDate) (snd endDate) (fst startDate) (snd startDate).

Definition getMonthlyFileNames (symbol timeframe : String.string)
    (startYear startMonth : nat) (endDate : option (nat * nat))
    (today : nat * nat) : list String.string :=
  let startDate := jsDate startYear startMonth in
  let endDate :=
    match endDate with
    | Some (year, month) => jsDate year month
    | None => today
    end in
  map (fileName symbol timeframe) (monthsToFetch startDate endDate).

(** The month number [12 * year + month] of a date and the date of a month
    number. *)
Definition monthNumber (date : nat * nat) : nat :=
  (12 * fst date + snd date)%nat.
Definition dateOfNumber (n : nat) : nat * nat :=
  ((n / 12)%nat, (n mod 12)%nat).

End DataFetcher.

(** ** The earlier class: a fresh instance and its reported total

    The constructor sets the balance to [config.account.initialBalance];
    [total_pnl] is the sum printed as "Total PnL" by [findMatchingCandles]
    ([reduce((sum, trade) => sum + (trade.trade_result?.pnl || 0), 0)]). *)

Definition initialState2 (config : TradingConfig.t) : Backtester2.RunState.t :=
  Backtester2.RunState.mk [] (TradingConfig.initialBalance config) [].

Definition total_pnl2 (matchingCandles : list Backtester2.MatchingCandle.t) : Q :=
  fold_left
    (fun sum trade =>
       sum + match Backtester2.MatchingCandle.trade_result trade with
             | Some r => Backtester2.TradeResult.pnl r
             | None => 0
             end)
    matchingCandles 0.

(** ** The trailing-stop simulator on binary64 numbers

    [calculateTriggerLevels], [checkTradeOutcome], [createTradeExit] and
    [calculatePnL] of the current class once more, on the numbers the code
    computes with.  A JavaScript [number] is an IEEE 754 binary64 value and
    [+], [-], [*], [/] round to nearest, ties to even; that is the arithmetic
    of [PrimFloat], and [<=] and [>=] are its [leb].  The definitions follow
    the ones of [Backtester] line by line, with [float] for [Q]; they show
    which equalities of the rational reading hold of the program only up to
    the rounding of the last bits. *)

From Stdlib Require Floats.

Module Binary64.

Import PrimFloat.
Local Open Scope float_scope.

Module Candle.
Record t : Type := mk {
  openTime : Z;
  open : float;
  high : float;
  low : float;
  close : float;
  volume : float;
  closeTime : Z
}.
End Candle.

Module TriggerLevel.
Record t : Type := mk {
  trigger : float;
  stopLoss : float;
  triggered : bool;
  hit : bool
}.
End TriggerLevel.

Module TrailingStopUpdate.
Record t : Type := mk {
  price : float;
  time : TimeStr;
  type : UpdateType;
  market_price : float;
  profit_at_update : float;
  triggerCandle : option Candle.t
}.
End TrailingStopUpdate.

Module TradeExit.
Record t : Type := mk {
  price : float;
  time : TimeStr;
  candles_until_exit : nat;
  trailing_stops : list TrailingStopUpdate.t
}.
End TradeExit.

Module Entry.
Record t : Type := mk {
  price : float;
  side : Side;
  size : float;
  dynamicThreshold : float
}.
End Entry.

Module Sim.
Record t : Type := mk {
  currentStopLoss : float;
  currentTriggerIndex : nat;
  trailingHistory : list TrailingStopUpdate.t
}.
End Sim.

Definition geb (x y : float) : bool := y <=? x.   (* x >= y *)
Definition leb (x y : float) : bool := x <=? y.   (* x <= y *)

(** The loop variable of [for (let i = 1; ...; i++)] as a number. *)
Fixpoint ofNat (n : nat) : float :=
  match n with
  | O => 0
  | S n' => ofNat n' + 1
  end.

Section Run.

(** [runConfig.trade.trailingStop.maxTriggerLevels],
    [runConfig.trade.maxLookForwardCandles] and the array [candles]. *)
Variable maxTriggerLevels : nat.
Variable maxLookForwardCandles : nat.
Variable candles : list Candle.t.

Definition thresholdValue (entryPrice dynamicThreshold : float) : float :=
  entryPrice * (dynamicThreshold / 100).

Definition calculateTriggerLevels (entryPrice : float) (side : Side)
    (dynamicThreshold : float) : list TriggerLevel.t :=
  let thresholdValue := thresholdValue entryPrice dynamicThreshold in
  let initialLevel :=
    TriggerLevel.mk entryPrice
      (match side with
       | LONG => entryPrice - thresholdValue
       | SHORT => entryPrice + thresholdValue
       end)
      true false in
  initialLevel ::
  map (fun i =>
         match side with
         | LONG =>
             let trigger := entryPrice + thresholdValue * ofNat i in
             let stopLoss := trigger - thresholdValue in
             TriggerLevel.mk trigger stopLoss false false
         | SHORT =>
             let trigger := entryPrice - thresholdValue * ofNat i in
             let stopLoss := trigger + thresholdValue in
             TriggerLevel.mk trigger stopLoss false false
         end)
      (seq 1 maxTriggerLevels).

Definition createTradeExit (candle : Candle.t) (stopLossPrice : float)
    (candlesUntilExit : nat) (trailingHistory : list TrailingStopUpdate.t)
  : TradeExit.t :=
  let trailingHistory' :=
    trailingHistory ++
    [TrailingStopUpdate.mk stopLossPrice
       (Formatted (Candle.openTime candle)) HIT stopLossPrice 0 None] in
  TradeExit.mk stopLossPrice (Formatted (Candle.openTime candle))
    candlesUntilExit trailingHistory'.

Definition stopHit (side : Side) (candle : Candle.t) (currentStopLoss : float)
  : bool :=
  match side with
  | LONG => leb (Candle.low candle) currentStopLoss
  | SHORT => geb (Candle.high candle) currentStopLoss
  end.

Definition triggerCrossed (side : Side) (candle : Candle.t) (trigger : float)
  : bool :=
  match side with
  | LONG => geb (Candle.high candle) trigger
  | SHORT => leb (Candle.low candle) trigger
  end.

Definition promote (entry : Entry.t) (candle : Candle.t)
    (nextTrigger : TriggerLevel.t) (st : Sim.t) : Sim.t :=
  let currentStopLoss := TriggerLevel.stopLoss nextTrigger in
  Sim.mk currentStopLoss
    (S (Sim.currentTriggerIndex st))
    (Sim.trailingHistory st ++
     [TrailingStopUpdate.mk currentStopLoss
        (Formatted (Candle.openTime candle))
        (match Entry.side entry with LONG => TRAIL_UP | SHORT => TRAIL_DOWN end)
        (match Entry.side entry with
         | LONG => Candle.high candle
         | SHORT => Candle.low candle
         end)
        ((match Entry.side entry with LONG => 1 | SHORT => -(1) end)
         * (TriggerLevel.trigger nextTrigger - Entry.price entry)
         / Entry.price entry * 100)
        (Some candle)]).

Fixpoint trailWhile (entry : Entry.t) (candle : Candle.t)
    (pending : list TriggerLevel.t) (st : Sim.t) : Sim.t :=
  match pending with
  | [] => st
  | nextTrigger :: pending' =>
      if triggerCrossed (Entry.side entry) candle
           (TriggerLevel.trigger nextTrigger)
      then trailWhile entry candle pending' (promote entry candle nextTrigger st)
      else st
  end.

Definition candleStep (entry : Entry.t) (triggerLevels : list TriggerLevel.t)
    (i : nat) (candle : Candle.t) (st : Sim.t) : TradeExit.t + Sim.t :=
  if stopHit (Entry.side entry) candle (Sim.currentStopLoss st)
  then inl (createTradeExit candle (Sim.currentStopLoss st) i
              (Sim.trailingHistory st))
  else inr (trailWhile entry candle
              (skipn (Sim.currentTriggerIndex st) triggerLevels) st).

Fixpoint tradeLoop (startIndex : nat) (entry : Entry.t)
    (triggerLevels : list TriggerLevel.t) (remaining i : nat) (st : Sim.t)
  : option TradeExit.t :=
  match remaining with
  | O => None
  | S remaining' =>
      match nth_error candles (startIndex + i) with
      | None => None
      | Some candle =>
          match candleStep entry triggerLevels i candle st with
          | inl exit => Some exit
          | inr st' =>
              tradeLoop startIndex entry triggerLevels remaining' (S i) st'
          end
      end
  end.

Definition initialSim (entry : Entry.t) (triggerLevels : list TriggerLevel.t)
    (startCandle : Candle.t) : Sim.t :=
  let currentStopLoss :=
    match triggerLevels with
    | level0 :: _ => TriggerLevel.stopLoss level0
    | [] => 0
    end in
  Sim.mk currentStopLoss 1
    [TrailingStopUpdate.mk currentStopLoss
       (Formatted (Candle.openTime startCandle)) INITIAL
       (Entry.price entry) 0 None].

Definition checkTradeOutcome (startIndex : nat) (entry : Entry.t)
  : Completion (option TradeExit.t) :=
  let triggerLevels :=
    calculateTriggerLevels (Entry.price entry) (Entry.side entry)
      (Entry.dynamicThreshold entry) in
  match nth_error candles startIndex with
  | None => Throw          (* this.candles[startIndex].openTime *)
  | Some startCandle =>
      Return (tradeLoop startIndex entry triggerLevels
                maxLookForwardCandles 1
                (initialSim entry triggerLevels startCandle))
  end.

Definition calculatePnL (entry exit : float) (side : Side) (size : float)
  : float * float :=
  let pnl := match side with LONG => exit - entry | SHORT => entry - exit end in
  let pnl_percentage := pnl / entry * 100 in
  (pnl, pnl_percentage).

End Run.

(** The prices of the events of a history, in order. *)
Definition prices (history : list TrailingStopUpdate.t) : list float :=
  map TrailingStopUpdate.price history.

(** *** Scenarios on binary64 numbers

    Decimal literals denote the nearest binary64 value, as they do in
    JavaScript. *)

Local Set Warnings "-inexact-float".

(** The LONG entry at 189 with a dynamic threshold of 5 percent; the second
    candle passes two triggers, the third falls back to the second stop. *)
Definition entry189 : Entry.t := Entry.mk 189 LONG 1 5.
Definition candles189 : list Candle.t :=
  [Candle.mk 0 185 190 184 189 10 1;
   Candle.mk 2 191 208 190 207 10 3;
   Candle.mk 4 207 207 198 199 10 5].


(** LONG entries stopped at the initial stop and after one promotion. *)
Definition entry382 : Entry.t := Entry.mk 382.12 LONG 1 2.63.
Definition candles382 : list Candle.t :=
  [Candle.mk 0 380 383 379 382.12 10 1;
   Candle.mk 2 382 383 372 373 10 3].
Definition entry248 : Entry.t := Entry.mk 248.22 LONG 1 4.55.
Definition candles248 : list Candle.t :=
  [Candle.mk 0 247 249 246 248.22 10 1;
   Candle.mk 2 249 260 248.5 259 10 3;
   Candle.mk 4 259 259 248 249 10 5].

(** The profit [processTradeResult] computes for an exit:
    [calculatePnL(entry.price, exit.price, entry.side, entry.size).pnl]. *)
Definition pnlOf (entry : Entry.t) (exit : TradeExit.t) : float :=
  fst (calculatePnL (Entry.price entry) (TradeExit.price exit)
         (Entry.side entry) (Entry.size entry)).

End Binary64.

(** * Properties *)

(** ** Comparisons and small arithmetic facts *)

Lemma geb_true (x y : Q) : geb x y = true <-> y <= x.
Proof. unfold geb. apply Qle_bool_iff. Qed.

Lemma leb_true (x y : Q) : leb x y = true <-> x <= y.
Proof. unfold leb. apply Qle_bool_iff. Qed.

Lemma gtb_true (x y : Q) : gtb x y = true <-> y < x.
Proof.
  unfold gtb. rewrite negb_true_iff, <- not_true_iff_false, Qle_bool_iff.
  split; [apply Qnot_le_lt | apply Qlt_not_le].
Qed.

Lemma ltb_true (x y : Q) : ltb x y = true <-> x < y.
Proof. unfold ltb. apply (gtb_true y x). Qed.

Lemma geb_false (x y : Q) : geb x y = false <-> x < y.
Proof.
  rewrite <- not_true_iff_false, geb_true.
  split; [apply Qnot_le_lt | apply Qlt_not_le].
Qed.

Lemma leb_false (x y : Q) : leb x y = false <-> y < x.
Proof. unfold leb. apply (geb_false y x). Qed.

Lemma ofNat_S (n : nat) : ofNat (S n) == ofNat n + 1.
Proof.
  unfold ofNat. rewrite Nat2Z.inj_succ. unfold Z.succ.
  rewrite inject_Z_plus. reflexivity.
Qed.

Lemma ofNat_nonneg (n : nat) : 0 <= ofNat n.
Proof.
  unfold ofNat. change 0 with (inject_Z 0). rewrite <- Zle_Qle. lia.
Qed.

(** ** The trigger ladder of the current class *)

Lemma nth_error_seq_in (start len k : nat) :
  (k < len)%nat -> nth_error (seq start len) k = Some (start + k)%nat.
Proof.
  revert start k. induction len as [|len IH]; intros start k Hk; [lia|].
  destruct k as [|k]; simpl.
  - f_equal. lia.
  - rewrite IH by lia. f_equal. lia.
Qed.

Lemma ladder_rung runConfig P side t j :
  (1 <= j <= TradingConfig.maxTriggerLevels runConfig)%nat ->
  nth_error (Backtester.calculateTriggerLevels runConfig P side t) j
  = Some (rung P side t j).
Proof.
  intros Hj. unfold Backtester.calculateTriggerLevels.
  destruct j as [|j]; [lia|]. cbn [nth_error].
  rewrite nth_error_map, nth_error_seq_in by lia.
  cbn [option_map]. replace (1 + j)%nat with (S j) by lia.
  unfold rung. destruct side; reflexivity.
Qed.

Lemma ladder_initial runConfig P side t :
  nth_error (Backtester.calculateTriggerLevels runConfig P side t) 0
  = Some (TriggerLevel.mk P
            (match side with
             | LONG => P - Backtester.thresholdValue P t
             | SHORT => P + Backtester.thresholdValue P t
             end) true false).
Proof. reflexivity. Qed.

Lemma ladder_length runConfig P side t :
  length (Backtester.calculateTriggerLevels runConfig P side t)
  = S (TradingConfig.maxTriggerLevels runConfig).
Proof.
  unfold Backtester.calculateTriggerLevels. cbn [length].
  now rewrite length_map, length_seq.
Qed.

(** C3. A LONG entry at 189.00 with a dynamic threshold of 5 percent has
    delta 9.45, initial stop 179.55, trigger 1 at 198.45 with stop 189.00; the
    candle with high 199 and low 190 promotes the active stop to 189.00 without
    exiting, and the following candle with low 188.00 exits the trade at 189.00
    with a profit of 0.00. *)
Theorem long_189_scenario :
  let levels := Backtester.calculateTriggerLevels shippedConfig 189 LONG 5 in
  let st0 := Backtester.initialSim entry189 levels crossingCandle189 in
  Backtester.thresholdValue 189 5 == 9.45
  /\ Sim.currentStopLoss st0 == 179.55
  /\ (exists level1, nth_error levels 1 = Some level1
        /\ TriggerLevel.trigger level1 == 198.45
        /\ TriggerLevel.stopLoss level1 == 189)
  /\ (exists st1,
        Backtester.candleStep entry189 levels 1 promotingCandle189 st0 = inr st1
        /\ Sim.currentStopLoss st1 == 189
        /\ Sim.currentTriggerIndex st1 = 2%nat)
  /\ (exists exit,
        Backtester.checkTradeOutcome shippedConfig candles189 0 entry189
        = Return (Some exit)
        /\ TradeExit.price exit == 189
        /\ TradeExit.time exit = Formatted (Candle.openTime exitCandle189)
        /\ TradeExit.candles_until_exit exit = 2%nat
        /\ fst (calculatePnL (Entry.price entry189) (TradeExit.price exit)
                  LONG 1) == 0).
Proof.
  cbv zeta. split; [reflexivity|]. split; [reflexivity|].
  split; [eexists; split; [reflexivity|]; split; reflexivity|].
  split; [eexists; split; [reflexivity|]; split; reflexivity|].
  eexists. split; [vm_compute; reflexivity|].
  repeat split; reflexivity.
Qed.

(** C7. In exact arithmetic, in the ladder generated for an entry at [P],
    rung [j >= 1] has its stop at the trigger of rung [j - 1] (rung 0 being
    the entry price itself) and its trigger exactly one delta beyond the
    trigger of rung [j - 1], upwards for LONG and downwards for SHORT, where
    delta is [P * dynamicThreshold / 100].  (On binary64 numbers the two
    sides can differ in the last bits, as evaluated further down.) *)
Theorem trigger_ladder_symmetry runConfig P side t j :
  (1 <= j <= TradingConfig.maxTriggerLevels runConfig)%nat ->
  let levels := Backtester.calculateTriggerLevels runConfig P side t in
  let delta := Backtester.thresholdValue P t in
  delta == P * t / 100
  /\ option_map TriggerLevel.trigger (nth_error levels 0) = Some P
  /\ exists cur prev,
       nth_error levels j = Some cur
       /\ nth_error levels (j - 1) = Some prev
       /\ TriggerLevel.stopLoss cur == TriggerLevel.trigger prev
       /\ match side with
          | LONG => TriggerLevel.trigger cur - TriggerLevel.trigger prev == delta
          | SHORT => TriggerLevel.trigger prev - TriggerLevel.trigger cur == delta
          end.
Proof.
  intros Hj levels delta. subst levels delta.
  split; [unfold Backtester.thresholdValue; field|].
  split; [reflexivity|].
  destruct (Nat.eq_dec j 1) as [->|Hne].
  - exists (rung P side t 1). eexists.
    split; [apply ladder_rung; lia|].
    split; [apply ladder_initial|].
    unfold rung. change (ofNat 1) with 1.
    destruct side; cbn [TriggerLevel.stopLoss TriggerLevel.trigger];
      split; ring.
  - exists (rung P side t j), (rung P side t (j - 1)).
    split; [apply ladder_rung; lia|].
    split; [apply ladder_rung; lia|].
    destruct j as [|j]; [lia|].
    replace (S j - 1)%nat with j by lia.
    unfold rung.
    destruct side; cbn [TriggerLevel.stopLoss TriggerLevel.trigger];
      rewrite ofNat_S; split; ring.
Qed.

Lemma trigger_ladder_symmetry_witness :
  let levels := Backtester.calculateTriggerLevels shippedConfig 189 SHORT 5 in
  let delta := Backtester.thresholdValue 189 5 in
  delta == 189 * 5 / 100
  /\ option_map TriggerLevel.trigger (nth_error levels 0) = Some 189
  /\ exists cur prev,
       nth_error levels 3 = Some cur
       /\ nth_error levels (3 - 1) = Some prev
       /\ TriggerLevel.stopLoss cur == TriggerLevel.trigger prev
       /\ TriggerLevel.trigger prev - TriggerLevel.trigger cur == delta.
Proof.
  apply (trigger_ladder_symmetry shippedConfig 189 SHORT 5 3).
  simpl. lia.
Defined.

(** ** The trigger ladder of the earlier class *)

Lemma ladder2_rung P side t j :
  (1 <= j <= 20)%nat ->
  nth_error (Backtester2.calculateTriggerLevels P side t) (j - 1)
  = Some (rung2 P side t j).
Proof.
  intros Hj. unfold Backtester2.calculateTriggerLevels.
  rewrite nth_error_map, nth_error_seq_in by lia.
  cbn [option_map]. replace (1 + (j - 1))%nat with j by lia.
  unfold rung2. destruct side; reflexivity.
Qed.

(** C8. Under exact arithmetic the two ladders agree: rung [j] of the
    fixed-delta ladder of the current class and rung [j] of the
    percentage ladder of the earlier class (stored at index [j - 1] there) have
    equal triggers and equal stops for [j = 1..20], for both sides, and the two
    initial stops are equal. *)
Theorem ladders_agree runConfig P side t size startCandle j :
  (1 <= j <= 20)%nat ->
  (j <= TradingConfig.maxTriggerLevels runConfig)%nat ->
  let entry := Entry.mk P side size t in
  let first := Backtester.calculateTriggerLevels runConfig P side t in
  let second := Backtester2.calculateTriggerLevels P side t in
  (exists a b,
     nth_error first j = Some a
     /\ nth_error second (j - 1) = Some b
     /\ TriggerLevel.trigger a == TriggerLevel.trigger b
     /\ TriggerLevel.stopLoss a == TriggerLevel.stopLoss b)
  /\ Sim.currentStopLoss (Backtester.initialSim entry first startCandle)
     == Sim.currentStopLoss (Backtester2.initialSim entry startCandle).
Proof.
  intros Hj HM entry first second. subst entry first second. split.
  - exists (rung P side t j), (rung2 P side t j).
    split; [apply ladder_rung; lia|].
    split; [apply ladder2_rung; lia|].
    unfold rung, rung2, Backtester.thresholdValue.
    destruct side; cbn [TriggerLevel.stopLoss TriggerLevel.trigger];
      split; field.
  - unfold Backtester.initialSim, Backtester2.initialSim,
      Backtester2.initialStop, Backtester.calculateTriggerLevels,
      Backtester.thresholdValue.
    destruct side;
      cbn [Sim.currentStopLoss TriggerLevel.stopLoss Entry.side Entry.price
           Entry.dynamicThreshold]; field.
Qed.

Lemma ladders_agree_witness :
  ((1 <= 20 <= 20)%nat /\ (20 <= TradingConfig.maxTriggerLevels shippedConfig)%nat)
  /\ ((exists a b,
         nth_error (Backtester.calculateTriggerLevels shippedConfig 189 SHORT 5) 20
         = Some a
         /\ nth_error (Backtester2.calculateTriggerLevels 189 SHORT 5) (20 - 1)
            = Some b
         /\ TriggerLevel.trigger a == TriggerLevel.trigger b
         /\ TriggerLevel.stopLoss a == TriggerLevel.stopLoss b)
      /\ Sim.currentStopLoss
           (Backtester.initialSim (Entry.mk 189 SHORT 1 5)
              (Backtester.calculateTriggerLevels shippedConfig 189 SHORT 5)
              crossingCandle189)
         == Sim.currentStopLoss
              (Backtester2.initialSim (Entry.mk 189 SHORT 1 5) crossingCandle189)).
Proof.
  split; [simpl; lia|].
  apply (ladders_agree shippedConfig 189 SHORT 5 1 crossingCandle189 20);
    simpl; lia.
Defined.

(** ** Stop precedence *)

(** C1. When the candle read by the simulation loop reaches the active stop
    (LONG: [low <= currentStopLoss]; SHORT: [high >= currentStopLoss]), the
    simulation returns at once, whatever the candle's other extreme is: in
    particular when the same candle also reaches the next trigger.  The exit
    price is the active stop, the exit is reported at this candle, and the
    trailing history is the one held before this candle followed by the single
    HIT event: no promotion is recorded on this candle, and no later candle is
    read.  This holds for the loop of both classes. *)
Theorem stop_precedence candles startIndex entry levels remaining i st candle :
  nth_error candles (startIndex + i) = Some candle ->
  stopHit (Entry.side entry) candle (Sim.currentStopLoss st) = true ->
  (exists hit,
     Backtester.tradeLoop candles startIndex entry levels (S remaining) i st
     = Some (TradeExit.mk (Sim.currentStopLoss st)
               (Formatted (Candle.openTime candle)) i
               (Sim.trailingHistory st ++ [hit]))
     /\ TrailingStopUpdate.type hit = HIT
     /\ TrailingStopUpdate.price hit = Sim.currentStopLoss st)
  /\ (exists hit,
        Backtester2.tradeLoop candles startIndex entry levels (S remaining) i st
        = Some (TradeExit.mk (Sim.currentStopLoss st)
                  (Formatted (Candle.openTime candle)) i
                  (Sim.trailingHistory st ++ [hit]))
        /\ TrailingStopUpdate.type hit = HIT
        /\ TrailingStopUpdate.price hit = Sim.currentStopLoss st).
Proof.
  intros Hc Hs. split; eexists.
  - cbn [Backtester.tradeLoop]. rewrite Hc.
    unfold Backtester.candleStep. rewrite Hs.
    unfold Backtester.createTradeExit. split; [reflexivity|]. split; reflexivity.
  - cbn [Backtester2.tradeLoop]. rewrite Hc.
    unfold Backtester2.candleStep. rewrite Hs.
    unfold Backtester2.hitExit. split; [reflexivity|]. split; reflexivity.
Qed.

Lemma stop_precedence_witness :
  (nth_error [crossingCandle189; engulfingCandle189] (0 + 1)
   = Some engulfingCandle189
   /\ stopHit LONG engulfingCandle189 179.55 = true
   /\ triggerCrossed LONG engulfingCandle189 198.45 = true)
  /\ exists hit,
       Backtester.tradeLoop [crossingCandle189; engulfingCandle189] 0 entry189
         (Backtester.calculateTriggerLevels shippedConfig 189 LONG 5) 720 1
         (Sim.mk 179.55 1 [])
       = Some (TradeExit.mk 179.55 (Formatted 2) 1 ([] ++ [hit]))
       /\ TrailingStopUpdate.type hit = HIT
       /\ TrailingStopUpdate.price hit = 179.55.
Proof.
  split; [repeat split; reflexivity|].
  apply (stop_precedence [crossingCandle189; engulfingCandle189] 0 entry189
           (Backtester.calculateTriggerLevels shippedConfig 189 LONG 5) 719 1
           (Sim.mk 179.55 1 []) engulfingCandle189); reflexivity.
Defined.

(** ** Promotions within one candle *)

Lemma trailWhile_crossed entry candle crossed rest st :
  Forall (fun level =>
            triggerCrossed (Entry.side entry) candle
              (TriggerLevel.trigger level) = true) crossed ->
  match rest with
  | [] => True
  | level :: _ =>
      triggerCrossed (Entry.side entry) candle (TriggerLevel.trigger level)
      = false
  end ->
  Backtester.trailWhile entry candle (crossed ++ rest) st
  = fold_left (fun s level => Backtester.promote entry candle level s)
      crossed st.
Proof.
  intros Hall Hrest. revert st.
  induction Hall as [|level crossed Hl _ IH]; intros st; cbn.
  - destruct rest as [|level rest]; [reflexivity|]. cbn. now rewrite Hrest.
  - rewrite Hl. apply IH.
Qed.

Lemma promote_fold_index entry candle crossed st :
  Sim.currentTriggerIndex
    (fold_left (fun s level => Backtester.promote entry candle level s)
       crossed st)
  = (Sim.currentTriggerIndex st + length crossed)%nat.
Proof.
  revert st. induction crossed as [|level crossed IH]; intros st; cbn.
  - lia.
  - rewrite IH. cbn. lia.
Qed.

Lemma promote_fold_prices entry candle crossed st :
  prices (Sim.trailingHistory
            (fold_left (fun s level => Backtester.promote entry candle level s)
               crossed st))
  = prices (Sim.trailingHistory st) ++ map TriggerLevel.stopLoss crossed.
Proof.
  revert st. induction crossed as [|level crossed IH]; intros st; cbn.
  - now rewrite app_nil_r.
  - rewrite IH. cbn. unfold prices. rewrite map_app, <- app_assoc. reflexivity.
Qed.

Lemma last_cons_default {A : Type} (x d : A) (l : list A) :
  last (x :: l) d = last l x.
Proof.
  revert x d. induction l as [|y l IH]; intros x d; [reflexivity|].
  change (last (x :: y :: l) d) with (last (y :: l) d).
  rewrite (IH y d). symmetry. apply IH.
Qed.

Lemma promote_fold_stop entry candle crossed st :
  Sim.currentStopLoss
    (fold_left (fun s level => Backtester.promote entry candle level s)
       crossed st)
  = last (map TriggerLevel.stopLoss crossed) (Sim.currentStopLoss st).
Proof.
  revert st. induction crossed as [|level crossed IH]; intros st.
  - reflexivity.
  - cbn [fold_left map]. rewrite IH, last_cons_default. reflexivity.
Qed.

(** The current class applies every promotion a candle calls for: if the candle does not reach the active stop and reaches
    the triggers of the pending rungs [crossed] (the rungs from
    [currentTriggerIndex] on) but not the rung after them, the step ends with
    the stop of the last rung of [crossed] as active stop, with the trigger
    index advanced past them and with one event per rung, in ladder order,
    appended to the history. *)
Lemma Backtester_promotes_all_crossed entry levels i candle st crossed rest :
  stopHit (Entry.side entry) candle (Sim.currentStopLoss st) = false ->
  skipn (Sim.currentTriggerIndex st) levels = crossed ++ rest ->
  Forall (fun level =>
            triggerCrossed (Entry.side entry) candle
              (TriggerLevel.trigger level) = true) crossed ->
  match rest with
  | [] => True
  | level :: _ =>
      triggerCrossed (Entry.side entry) candle (TriggerLevel.trigger level)
      = false
  end ->
  exists st',
    Backtester.candleStep entry levels i candle st = inr st'
    /\ Sim.currentStopLoss st'
       = last (map TriggerLevel.stopLoss crossed) (Sim.currentStopLoss st)
    /\ Sim.currentTriggerIndex st'
       = (Sim.currentTriggerIndex st + length crossed)%nat
    /\ prices (Sim.trailingHistory st')
       = prices (Sim.trailingHistory st) ++ map TriggerLevel.stopLoss crossed.
Proof.
  intros Hs Hsk Hall Hrest. eexists.
  unfold Backtester.candleStep. rewrite Hs, Hsk.
  rewrite (trailWhile_crossed _ _ _ _ _ Hall Hrest).
  split; [reflexivity|].
  split; [apply promote_fold_stop|].
  split; [apply promote_fold_index | apply promote_fold_prices].
Qed.

(** The lemma at work on the gap candle of the entry at 100: rungs 1 and 2
    are reached, rung 3 is not, and the step ends with the stop of rung 2. *)
Example gap_candle_promotes_twice :
  exists st',
    Backtester.candleStep entry100
      (Backtester.calculateTriggerLevels shippedConfig 100 LONG 5) 1
      gapCandle100
      (Backtester.initialSim entry100
         (Backtester.calculateTriggerLevels shippedConfig 100 LONG 5)
         crossingCandle100)
    = inr st'
    /\ Sim.currentStopLoss st' == 105
    /\ Sim.currentTriggerIndex st' = 3%nat.
Proof.
  destruct (Backtester_promotes_all_crossed entry100
              (Backtester.calculateTriggerLevels shippedConfig 100 LONG 5) 1
              gapCandle100
              (Backtester.initialSim entry100
                 (Backtester.calculateTriggerLevels shippedConfig 100 LONG 5)
                 crossingCandle100)
              [rung 100 LONG 5 1; rung 100 LONG 5 2]
              (map (rung 100 LONG 5) (seq 3 18)))
    as (st' & Hstep & Hstop & Hidx & _).
  - reflexivity.
  - reflexivity.
  - repeat constructor.
  - reflexivity.
  - exists st'. split; [exact Hstep|]. split.
    + rewrite Hstop. reflexivity.
    + rewrite Hidx. reflexivity.
Qed.

(** The earlier class never applies more than one promotion on a candle. *)
Lemma Backtester2_at_most_one_promotion entry levels i candle st st' :
  Backtester2.candleStep entry levels i candle st = inr st' ->
  (Sim.currentTriggerIndex st' <= S (Sim.currentTriggerIndex st))%nat
  /\ (length (Sim.trailingHistory st')
      <= S (length (Sim.trailingHistory st)))%nat.
Proof.
  unfold Backtester2.candleStep.
  destruct (stopHit _ _ _); [discriminate|].
  destruct (nth_error levels _) as [level|].
  - destruct (triggerCrossed _ _ _); intros [= <-]; cbn.
    + rewrite length_app. cbn. lia.
    + lia.
  - intros [= <-]. lia.
Qed.

(** C2, on the earlier class.  The gap candle of the entry at 100 stays above
    the active stop (95) and reaches triggers 1 and 2 (105 and 110).  The
    earlier class promotes once only: the active stop becomes 100, the stop of
    rung 1, not 105, the stop of rung 2; on the next candle, whose low is 103,
    it therefore does not exit and the trade is abandoned.  The current class
    promotes twice on the gap candle and exits at 105 on the next one. *)
Theorem earlier_class_promotes_once :
  let levels2 := Backtester2.calculateTriggerLevels 100 LONG 5 in
  let st0 := Backtester2.initialSim entry100 crossingCandle100 in
  stopHit LONG gapCandle100 (Sim.currentStopLoss st0) = false
  /\ (exists rung1 rung2 rung3,
        firstn 3 levels2 = [rung1; rung2; rung3]
        /\ triggerCrossed LONG gapCandle100 (TriggerLevel.trigger rung1) = true
        /\ triggerCrossed LONG gapCandle100 (TriggerLevel.trigger rung2) = true
        /\ triggerCrossed LONG gapCandle100 (TriggerLevel.trigger rung3) = false
        /\ TriggerLevel.stopLoss rung1 == 100
        /\ TriggerLevel.stopLoss rung2 == 105)
  /\ (exists st1,
        Backtester2.candleStep entry100 levels2 1 gapCandle100 st0 = inr st1
        /\ Sim.currentStopLoss st1 == 100
        /\ Sim.currentTriggerIndex st1 = 1%nat
        /\ length (Sim.trailingHistory st1) = 2%nat)
  /\ Backtester2.checkTradeOutcome shippedConfig candles100 0 entry100
     = Return None
  /\ (exists exit,
        Backtester.checkTradeOutcome shippedConfig candles100 0 entry100
        = Return (Some exit)
        /\ TradeExit.price exit == 105
        /\ TradeExit.candles_until_exit exit = 2%nat
        /\ map TrailingStopUpdate.type (TradeExit.trailing_stops exit)
           = [INITIAL; TRAIL_UP; TRAIL_UP; HIT]).
Proof.
  cbv zeta. split; [reflexivity|].
  split.
  { do 3 eexists. split; [reflexivity|]. repeat split; reflexivity. }
  split.
  { eexists. split; [reflexivity|]. repeat split; reflexivity. }
  split; [vm_compute; reflexivity|].
  eexists. split; [vm_compute; reflexivity|]. repeat split; reflexivity.
Qed.

(** ** Entry resolver *)

Lemma crossingLoop_first candles startIndex legendCandle n :
  forall remaining i candle,
    (n < remaining)%nat ->
    nth_error candles (startIndex + (i + n)) = Some candle ->
    (forall k c, (i <= k < i + n)%nat ->
                 nth_error candles (startIndex + k) = Some c ->
                 Candle.high c < LegendCandle.upward_movementThreshold legendCandle
                 /\ LegendCandle.downward_movementThreshold legendCandle
                    < Candle.low c) ->
    Backtester.crossingLoop candles startIndex legendCandle remaining i
    = if geb (Candle.high candle)
           (LegendCandle.upward_movementThreshold legendCandle)
      then Crossing.mk (Dir LONG) (Formatted (Candle.openTime candle))
             (LegendCandle.upward_movementThreshold legendCandle) (i + n)
             (Some (CandleData.ofCandle candle))
      else if leb (Candle.low candle)
                (LegendCandle.downward_movementThreshold legendCandle)
      then Crossing.mk (Dir SHORT) (Formatted (Candle.openTime candle))
             (LegendCandle.downward_movementThreshold legendCandle) (i + n)
             (Some (CandleData.ofCandle candle))
      else Backtester.crossingLoop candles startIndex legendCandle
             (remaining - S n) (S (i + n)).
Proof.
  induction n as [|n IH]; intros remaining i candle Hrem Hc Hbefore.
  - destruct remaining as [|remaining]; [lia|].
    rewrite Nat.add_0_r in *. cbn [Backtester.crossingLoop]. rewrite Hc.
    replace (S remaining - 1)%nat with remaining by lia. reflexivity.
  - destruct remaining as [|remaining]; [lia|].
    cbn [Backtester.crossingLoop].
    destruct (nth_error candles (startIndex + i)) as [c|] eqn:Hi.
    + destruct (Hbefore i c ltac:(lia) Hi) as [Hup Hdown].
      apply geb_false in Hup. apply leb_false in Hdown.
      rewrite Hup, Hdown.
      rewrite (IH remaining (S i) candle); try lia.
      * replace (S i + n)%nat with (i + S n)%nat by lia. reflexivity.
      * replace (S i + n)%nat with (i + S n)%nat by lia. exact Hc.
      * intros k c' Hk. apply Hbefore. lia.
    + exfalso. apply nth_error_None in Hi.
      assert (Hlt : (startIndex + (i + S n) < length candles)%nat)
        by (apply nth_error_Some; rewrite Hc; discriminate).
      lia.
Qed.

(** The current class resolves the entry at the first crossing: if candle [startIndex + j], with [j] within
    the look-forward horizon, is the first one after the legend whose high
    reaches the upward level or whose low reaches the downward level, the
    result is LONG at exactly the upward level when its high reaches it
    (also when its low reaches the downward level on the same candle), and
    SHORT at exactly the downward level otherwise; the offset reported is
    [j]. *)
Lemma Backtester_first_crossing runConfig candles startIndex legendCandle j candle :
  (1 <= j <= TradingConfig.maxLookForwardCandles runConfig)%nat ->
  nth_error candles (startIndex + j) = Some candle ->
  (forall k c, (1 <= k < j)%nat ->
               nth_error candles (startIndex + k) = Some c ->
               Candle.high c < LegendCandle.upward_movementThreshold legendCandle
               /\ LegendCandle.downward_movementThreshold legendCandle
                  < Candle.low c) ->
  (LegendCandle.upward_movementThreshold legendCandle <= Candle.high candle ->
   Backtester.checkThresholdCrossing runConfig candles startIndex legendCandle
   = Crossing.mk (Dir LONG) (Formatted (Candle.openTime candle))
       (LegendCandle.upward_movementThreshold legendCandle) j
       (Some (CandleData.ofCandle candle)))
  /\ (Candle.high candle < LegendCandle.upward_movementThreshold legendCandle ->
      Candle.low candle <= LegendCandle.downward_movementThreshold legendCandle ->
      Backtester.checkThresholdCrossing runConfig candles startIndex legendCandle
      = Crossing.mk (Dir SHORT) (Formatted (Candle.openTime candle))
          (LegendCandle.downward_movementThreshold legendCandle) j
          (Some (CandleData.ofCandle candle))).
Proof.
  intros Hj Hc Hbefore. unfold Backtester.checkThresholdCrossing.
  assert (Hloop := crossingLoop_first candles startIndex legendCandle (j - 1)
                     (TradingConfig.maxLookForwardCandles runConfig) 1 candle).
  replace (1 + (j - 1))%nat with j in Hloop by lia.
  rewrite Hloop; [|lia|exact Hc|intros k c Hk; apply Hbefore; lia].
  split.
  - intros Hup. apply geb_true in Hup. now rewrite Hup.
  - intros Hup Hdown. apply geb_false in Hup. apply leb_true in Hdown.
    now rewrite Hup, Hdown.
Qed.

(** The lemma at work on a touch: a high equal to the upward level is an
    entry for the current class. *)
Example touching_candle_enters_long :
  Backtester.checkThresholdCrossing shippedConfig candlesTouch 0
    (Backtester.legendCandleOf legend100 10)
  = Crossing.mk (Dir LONG) (Formatted 2)
      (LegendCandle.upward_movementThreshold
         (Backtester.legendCandleOf legend100 10)) 1
      (Some (CandleData.ofCandle touchingCandle)).
Proof.
  apply (Backtester_first_crossing shippedConfig candlesTouch 0
           (Backtester.legendCandleOf legend100 10) 1 touchingCandle).
  - cbn. lia.
  - reflexivity.
  - intros k c Hk. lia.
  - apply Qle_bool_iff. reflexivity.
Qed.

(** Without a crossing inside the horizon the current class reports NONE. *)
Lemma Backtester_no_crossing candles startIndex legendCandle remaining :
  forall i,
    (forall k c, (i <= k < i + remaining)%nat ->
                 nth_error candles (startIndex + k) = Some c ->
                 Candle.high c < LegendCandle.upward_movementThreshold legendCandle
                 /\ LegendCandle.downward_movementThreshold legendCandle
                    < Candle.low c) ->
    Backtester.crossingLoop candles startIndex legendCandle remaining i
    = Crossing.none.
Proof.
  induction remaining as [|remaining IH]; intros i Hall; [reflexivity|].
  cbn [Backtester.crossingLoop].
  destruct (nth_error candles (startIndex + i)) as [c|] eqn:Hi; [|reflexivity].
  destruct (Hall i c ltac:(lia) Hi) as [Hup Hdown].
  apply geb_false in Hup. apply leb_false in Hdown. rewrite Hup, Hdown.
  apply IH. intros k c' Hk. apply Hall. lia.
Qed.

(** C6, on the earlier class.  The candle after the legend has its high
    exactly at the upward level (110).  The current class enters LONG at 110 on
    that candle; the earlier class, whose comparisons are strict, finds no
    entry. *)
Theorem earlier_class_strict_crossing :
  let legendCandle := Backtester.legendCandleOf legend100 10 in
  let legendCandle2 := Backtester2.legendCandleOf legend100 10 in
  LegendCandle.upward_movementThreshold legendCandle == 110
  /\ LegendCandle.upward_movementThreshold legendCandle2 == 110
  /\ Candle.high touchingCandle == 110
  /\ Backtester2.checkThresholdCrossing candlesTouch 0 legendCandle2
     = Crossing.none
  /\ Crossing.direction
       (Backtester.checkThresholdCrossing shippedConfig candlesTouch 0
          legendCandle) = Dir LONG
  /\ Crossing.entry_price
       (Backtester.checkThresholdCrossing shippedConfig candlesTouch 0
          legendCandle) == 110
  /\ Crossing.candles_until_cross
       (Backtester.checkThresholdCrossing shippedConfig candlesTouch 0
          legendCandle) = 1%nat.
Proof.
  cbv zeta. repeat split; vm_compute; reflexivity.
Qed.

(** ** Legend detection *)

Lemma crossingLoop_index candles startIndex legendCandle remaining :
  forall i side,
    Crossing.direction
      (Backtester.crossingLoop candles startIndex legendCandle remaining i)
    = Dir side ->
    nth_error candles
      (startIndex
       + Crossing.candles_until_cross
           (Backtester.crossingLoop candles startIndex legendCandle remaining i))
    <> None.
Proof.
  induction remaining as [|remaining IH]; intros i side; cbn; [discriminate|].
  destruct (nth_error candles (startIndex + i)) as [c|] eqn:Hi;
    [|discriminate].
  destruct (geb _ _); [cbn; intros _; now rewrite Hi|].
  destruct (leb _ _); [cbn; intros _; now rewrite Hi|].
  apply IH.
Qed.

Lemma crossingLoop2_index candles startIndex legendCandle remaining :
  forall i side,
    Crossing.direction
      (Backtester2.crossingLoop candles startIndex legendCandle remaining i)
    = Dir side ->
    nth_error candles
      (startIndex
       + Crossing.candles_until_cross
           (Backtester2.crossingLoop candles startIndex legendCandle remaining i))
    <> None.
Proof.
  induction remaining as [|remaining IH]; intros i side; cbn; [discriminate|].
  destruct (nth_error candles (startIndex + i)) as [c|] eqn:Hi;
    [|discriminate].
  destruct (gtb _ _); [cbn; intros _; now rewrite Hi|].
  destruct (ltb _ _); [cbn; intros _; now rewrite Hi|].
  apply IH.
Qed.

(** [processCandle] throws only when the window is empty. *)
Lemma processCandle_returns config runConfig candles st c window i avg :
  Backtester.averageMovement runConfig window = Return avg ->
  exists st',
    Backtester.processCandle config runConfig candles st c window i = Return st'.
Proof.
  intros Havg. unfold Backtester.processCandle. rewrite Havg. cbn [bind].
  destruct (geb _ _); [|now eexists].
  destruct (Crossing.direction _) as [side|] eqn:Hdir; [|now eexists].
  apply crossingLoop_index in Hdir.
  unfold Backtester.checkTradeOutcome.
  unfold Backtester.checkThresholdCrossing.
  destruct (nth_error candles _) as [startCandle|]; [|contradiction].
  cbn [bind]. destruct (Backtester.tradeLoop _ _ _ _ _ _ _); now eexists.
Qed.

Lemma processCandle2_returns config candles st c window i avg :
  Backtester2.averageMovement config window = Return avg ->
  exists st',
    Backtester2.processCandle config candles st c window i = Return st'.
Proof.
  intros Havg. unfold Backtester2.processCandle. rewrite Havg. cbn [bind].
  destruct (gtb _ _); [|now eexists].
  destruct (Crossing.direction _) as [side|] eqn:Hdir; [|now eexists].
  apply crossingLoop2_index in Hdir.
  unfold Backtester2.checkTradeOutcome.
  unfold Backtester2.checkThresholdCrossing.
  destruct (nth_error candles _) as [startCandle|]; [|contradiction].
  cbn [bind]. destruct (Backtester2.tradeLoop _ _ _ _ _ _ _); [|now eexists].
  destruct (calculatePnL _ _ _ _). now eexists.
Qed.

Lemma movement_nonneg (c : Candle.t) :
  0 < Candle.open c -> 0 <= Backtester.movement c.
Proof.
  intros Hopen. unfold Backtester.movement, Qdiv.
  apply Qmult_le_0_compat; [|lra].
  apply Qmult_le_0_compat; [apply Qabs_nonneg|].
  apply Qinv_le_0_compat. lra.
Qed.

(** C4, as the code has it.  With a dynamic threshold of 0 the current class
    ([>=]) flags a candle exactly when its movement is at least 0, hence every
    candle with a positive open, a candle with [open = close] included; the
    earlier class ([>]) flags it exactly when its movement is strictly
    positive, so not when [open = close].  Neither class throws in this
    case. *)
Theorem zero_threshold_legend config runConfig candles st st2 c window i avg :
  Backtester.averageMovement runConfig window = Return avg ->
  Backtester.dynamicThresholdOf runConfig avg == 0 ->
  (exists b, Backtester.isLegend runConfig c window = Return b
             /\ (b = true <-> 0 <= Backtester.movement c))
  /\ (0 < Candle.open c ->
      Backtester.isLegend runConfig c window = Return true)
  /\ (exists b, Backtester2.isLegend runConfig c window = Return b
                /\ (b = true <-> 0 < Backtester2.movement c))
  /\ (Candle.open c == Candle.close c ->
      Backtester2.isLegend runConfig c window = Return false)
  /\ (exists st',
        Backtester.processCandle config runConfig candles st c window i
        = Return st')
  /\ (exists st',
        Backtester2.processCandle runConfig candles st2 c window i
        = Return st').
Proof.
  intros Havg Hzero.
  assert (Havg2 : Backtester2.averageMovement runConfig window = Return avg)
    by exact Havg.
  assert (Hzero2 : Backtester2.dynamicThresholdOf runConfig avg == 0)
    by exact Hzero.
  repeat apply conj.
  - eexists. unfold Backtester.isLegend. rewrite Havg. cbn [bind].
    split; [reflexivity|]. rewrite geb_true, Hzero. reflexivity.
  - intros Hopen. unfold Backtester.isLegend. rewrite Havg. cbn [bind].
    f_equal. apply geb_true. rewrite Hzero. now apply movement_nonneg.
  - eexists. unfold Backtester2.isLegend. rewrite Havg2. cbn [bind].
    split; [reflexivity|]. rewrite gtb_true, Hzero2. reflexivity.
  - intros Heq. unfold Backtester2.isLegend. rewrite Havg2. cbn [bind].
    f_equal. apply not_true_iff_false. rewrite gtb_true, Hzero2.
    unfold Backtester2.movement.
    assert (Hd : Candle.close c - Candle.open c == 0) by lra.
    rewrite Hd. change (Qabs 0) with 0. unfold Qdiv.
    rewrite !Qmult_0_l. apply Qlt_irrefl.
  - eapply processCandle_returns; eassumption.
  - eapply processCandle2_returns; eassumption.
Qed.

(** C4, as stated, fails on the current class: after a window of candles that
    do not move the dynamic threshold is 0, and a candle with [open = close],
    whose movement is 0 and not strictly positive, is flagged as a legend. *)
Lemma flat_candle_is_legend :
  exists avg,
    Backtester.averageMovement shortLookback flatWindow = Return avg
    /\ Backtester.dynamicThresholdOf shortLookback avg == 0
    /\ Candle.open flatCandle = Candle.close flatCandle
    /\ ~ 0 < Backtester.movement flatCandle
    /\ Backtester.isLegend shortLookback flatCandle flatWindow = Return true
    /\ legendIndices shortLookback flatRun = [12%nat].
Proof.
  eexists. split; [reflexivity|].
  split; [reflexivity|]. split; [reflexivity|].
  split; [|split; reflexivity].
  apply Qle_not_lt. apply Qle_bool_iff. reflexivity.
Qed.

Lemma zero_threshold_legend_witness :
  (Backtester.averageMovement shortLookback flatWindow = Return (0 # 20000)
   /\ Backtester.dynamicThresholdOf shortLookback (0 # 20000) == 0)
  /\ Backtester.isLegend shortLookback flatCandle flatWindow = Return true
  /\ Backtester2.isLegend shortLookback flatCandle flatWindow = Return false.
Proof.
  assert (Havg : Backtester.averageMovement shortLookback flatWindow
                 = Return (0 # 20000)) by reflexivity.
  assert (Hzero : Backtester.dynamicThresholdOf shortLookback (0 # 20000) == 0)
    by reflexivity.
  split; [split; assumption|].
  destruct (zero_threshold_legend shortLookback shortLookback flatWindow
              (Backtester.initialState shortLookback)
              (Backtester2.RunState.mk [] 1000 []) flatCandle flatWindow 12
              (0 # 20000) Havg Hzero)
    as (_ & Hfirst & _ & Hsecond & _).
  split; [apply Hfirst | apply Hsecond]; reflexivity.
Defined.

Lemma sum_nonneg (l : list Q) : Forall (fun x => 0 <= x) l -> 0 <= sum l.
Proof.
  induction 1 as [|x l Hx _ IH]; cbn; [apply Qle_refl|].
  change 0 with (0 + 0). now apply Qplus_le_compat.
Qed.

Lemma averageMovement_nonneg runConfig window avg :
  Backtester.averageMovement runConfig window = Return avg -> 0 <= avg.
Proof.
  unfold Backtester.averageMovement, mean.
  set (diffs := map _ _).
  assert (Hall : Forall (fun x => 0 <= x) diffs).
  { subst diffs. apply Forall_map, Forall_forall. intros c _.
    apply Qmult_le_0_compat; [apply Qabs_nonneg | lra]. }
  clearbody diffs. destruct diffs as [|x rest]; [discriminate|].
  intros [= <-]. unfold Qdiv.
  apply Qmult_le_0_compat; [exact (sum_nonneg (x :: rest) Hall)|].
  apply Qinv_le_0_compat, ofNat_nonneg.
Qed.

Lemma flagged_antitone runConfig candles k1 k2 i :
  k1 <= k2 ->
  flagged (withThreshold k2 runConfig) candles i = true ->
  flagged (withThreshold k1 runConfig) candles i = true.
Proof.
  intros Hk. unfold flagged. cbn [withThreshold TradingConfig.lookbackCandles].
  destruct (nth_error candles i) as [c|]; [|discriminate].
  unfold Backtester.isLegend.
  change (Backtester.averageMovement (withThreshold k2 runConfig))
    with (Backtester.averageMovement (withThreshold k1 runConfig)).
  destruct (Backtester.averageMovement _ _) as [avg|] eqn:Havg;
    [|discriminate].
  cbn [bind]. apply averageMovement_nonneg in Havg.
  rewrite !geb_true. unfold Backtester.dynamicThresholdOf.
  cbn [withThreshold TradingConfig.threshold]. intros H2.
  apply Qle_trans with (k2 * avg); [|exact H2].
  now apply Qmult_le_compat_r.
Qed.

Lemma filter_length_le {A : Type} (f g : A -> bool) (l : list A) :
  (forall x, f x = true -> g x = true) ->
  (length (filter f l) <= length (filter g l))%nat.
Proof.
  intros Himp. induction l as [|x l IH]; cbn; [lia|].
  destruct (f x) eqn:Hf.
  - rewrite (Himp x Hf). cbn. lia.
  - destruct (g x); cbn; lia.
Qed.

(** C9. With the candles and the lookback length fixed, raising the threshold
    multiplier from [k1] to [k2] can only remove legends: every index flagged
    under [k2] is flagged under [k1], and the number of flagged candles does
    not grow. *)
Theorem legend_detection_antitone runConfig candles k1 k2 :
  k1 <= k2 ->
  incl (legendIndices (withThreshold k2 runConfig) candles)
       (legendIndices (withThreshold k1 runConfig) candles)
  /\ (length (legendIndices (withThreshold k2 runConfig) candles)
      <= length (legendIndices (withThreshold k1 runConfig) candles))%nat.
Proof.
  intros Hk. unfold legendIndices.
  cbn [withThreshold TradingConfig.lookbackCandles]. split.
  - intros i Hi. apply filter_In in Hi as [Hin Hf]. apply filter_In.
    split; [exact Hin|]. now apply (flagged_antitone _ _ k1 k2).
  - apply filter_length_le. intros i. now apply flagged_antitone.
Qed.

Lemma legend_detection_antitone_witness :
  1 <= 3
  /\ legendIndices (withThreshold 1 tinyConfig) abandonedRun = [11%nat]
  /\ legendIndices (withThreshold 3 tinyConfig) abandonedRun = []
  /\ incl (legendIndices (withThreshold 3 tinyConfig) abandonedRun)
          (legendIndices (withThreshold 1 tinyConfig) abandonedRun)
  /\ (length (legendIndices (withThreshold 3 tinyConfig) abandonedRun)
      <= length (legendIndices (withThreshold 1 tinyConfig) abandonedRun))%nat.
Proof.
  assert (H13 : 1 <= 3) by (apply Qle_bool_iff; reflexivity).
  split; [exact H13|]. split; [reflexivity|]. split; [reflexivity|].
  exact (legend_detection_antitone tinyConfig abandonedRun 1 3 H13).
Defined.

(** A candle that is not flagged leaves the run state as it is. *)
Lemma not_legend_no_effect config runConfig candles st c window i :
  Backtester.isLegend runConfig c window = Return false ->
  Backtester.processCandle config runConfig candles st c window i = Return st.
Proof.
  unfold Backtester.isLegend, Backtester.processCandle.
  destruct (Backtester.averageMovement runConfig window) as [avg|];
    [|discriminate].
  cbn [bind]. intros [= ->]. reflexivity.
Qed.

(** ** Accounting *)

(** C5. When the simulation of a resolved entry returns null (the
    look-forward horizon or the candles are exhausted before a stop is hit),
    [processCandle] returns the run state it was given: the list of trades,
    the balance and the balance history are unchanged. *)
Theorem abandoned_trade_leaves_state
    config runConfig candles st c window i avg side :
  let dynamicThreshold := Backtester.dynamicThresholdOf runConfig avg in
  let threshold_crossed :=
    Backtester.checkThresholdCrossing runConfig candles i
      (Backtester.legendCandleOf c dynamicThreshold) in
  Backtester.averageMovement runConfig window = Return avg ->
  geb (Backtester.movement c) dynamicThreshold = true ->
  Crossing.direction threshold_crossed = Dir side ->
  Backtester.checkTradeOutcome runConfig candles
    (i + Crossing.candles_until_cross threshold_crossed)
    (Entry.mk (Crossing.entry_price threshold_crossed) side
       (Backtester.calculateTradeSize config st
          (Crossing.entry_price threshold_crossed))
       dynamicThreshold)
  = Return None ->
  Backtester.processCandle config runConfig candles st c window i = Return st.
Proof.
  intros dynamicThreshold threshold_crossed Havg Hlegend Hdir Hnull.
  subst dynamicThreshold threshold_crossed.
  unfold Backtester.processCandle. rewrite Havg. cbn [bind].
  rewrite Hlegend, Hdir, Hnull. reflexivity.
Qed.

Lemma abandoned_trade_leaves_state_witness :
  let threshold_crossed :=
    Backtester.checkThresholdCrossing tinyConfig abandonedRun 11
      (Backtester.legendCandleOf legendCandle102
         (Backtester.dynamicThresholdOf tinyConfig 1.00)) in
  (Backtester.averageMovement tinyConfig (slice 0 11 abandonedRun) = Return 1.00
   /\ Crossing.direction threshold_crossed = Dir LONG
   /\ Crossing.entry_price threshold_crossed == 103.02
   /\ Backtester.checkTradeOutcome tinyConfig abandonedRun
        (11 + Crossing.candles_until_cross threshold_crossed)
        (Entry.mk (Crossing.entry_price threshold_crossed) LONG
           (Backtester.calculateTradeSize tinyConfig
              (Backtester.initialState tinyConfig)
              (Crossing.entry_price threshold_crossed))
           (Backtester.dynamicThresholdOf tinyConfig 1.00))
      = Return None)
  /\ Backtester.processCandle tinyConfig tinyConfig abandonedRun
       (Backtester.initialState tinyConfig) legendCandle102
       (slice 0 11 abandonedRun) 11
     = Return (Backtester.initialState tinyConfig).
Proof.
  cbv zeta. split; [repeat split; vm_compute; reflexivity|].
  apply (abandoned_trade_leaves_state tinyConfig tinyConfig abandonedRun
           (Backtester.initialState tinyConfig) legendCandle102
           (slice 0 11 abandonedRun) 11 1.00 LONG);
    vm_compute; reflexivity.
Defined.

(** A completed trade, by contrast, is recorded: one trade and one balance
    update are appended and the balance moves by the profit of the trade. *)
Lemma completed_trade_updates_state
    config runConfig candles st c window i avg side exit :
  let dynamicThreshold := Backtester.dynamicThresholdOf runConfig avg in
  let threshold_crossed :=
    Backtester.checkThresholdCrossing runConfig candles i
      (Backtester.legendCandleOf c dynamicThreshold) in
  Backtester.averageMovement runConfig window = Return avg ->
  geb (Backtester.movement c) dynamicThreshold = true ->
  Crossing.direction threshold_crossed = Dir side ->
  Backtester.checkTradeOutcome runConfig candles
    (i + Crossing.candles_until_cross threshold_crossed)
    (Entry.mk (Crossing.entry_price threshold_crossed) side
       (Backtester.calculateTradeSize config st
          (Crossing.entry_price threshold_crossed))
       dynamicThreshold)
  = Return (Some exit) ->
  exists st',
    Backtester.processCandle config runConfig candles st c window i = Return st'
    /\ length (RunState.matchingCandles st')
       = S (length (RunState.matchingCandles st))
    /\ length (RunState.balanceHistory st')
       = S (length (RunState.balanceHistory st))
    /\ RunState.currentBalance st'
       = RunState.currentBalance st
         + fst (calculatePnL (Crossing.entry_price threshold_crossed)
                  (TradeExit.price exit) side 1).
Proof.
  intros dynamicThreshold threshold_crossed Havg Hlegend Hdir Hexit.
  subst dynamicThreshold threshold_crossed.
  unfold Backtester.processCandle. rewrite Havg. cbn [bind].
  rewrite Hlegend, Hdir, Hexit. cbn [bind]. eexists. split; [reflexivity|].
  unfold Backtester.storeMatchingCandle, Backtester.updateBalance,
    Backtester.processTradeResult.
  cbn [RunState.matchingCandles RunState.balanceHistory RunState.currentBalance
       calculatePnL fst TradeDetailsResult.balance_after_trade].
  rewrite !length_app. cbn [length]. repeat split; lia.
Qed.

(** ** The active stop moves one rung at a time *)

Lemma stepsBy_snoc d l a b :
  stepsBy d (l ++ [a]) -> b - a == d -> stepsBy d ((l ++ [a]) ++ [b]).
Proof.
  intros Hl Hb. induction l as [|x l IH].
  - cbn. split; [exact Hb | exact I].
  - destruct l as [|y l].
    + cbn in *. destruct Hl as [Hxa _]. repeat split; assumption.
    + cbn in Hl |- *. destruct Hl as [Hxy Hrest].
      split; [exact Hxy|]. apply IH. exact Hrest.
Qed.



Lemma thresholdValue_pos P t : 0 < P -> 0 < t -> 0 < Backtester.thresholdValue P t.
Proof.
  intros HP Ht. unfold Backtester.thresholdValue.
  apply Qmult_lt_0_compat; [exact HP|].
  unfold Qdiv. apply Qmult_lt_0_compat; [exact Ht | reflexivity].
Qed.

Lemma skipn_cons_inv {A : Type} (n : nat) (l : list A) (x : A) (r : list A) :
  skipn n l = x :: r -> nth_error l n = Some x /\ skipn (S n) l = r.
Proof.
  revert l. induction n as [|n IH]; intros l H.
  - cbn in H. subst l. split; reflexivity.
  - destruct l as [|y l]; [discriminate|]. cbn in H. apply IH in H.
    exact H.
Qed.

Section StopChain.

Variable runConfig : TradingConfig.t.
Variable entry : Entry.t.

Local Abbreviation levels :=
  (Backtester.calculateTriggerLevels runConfig (Entry.price entry)
     (Entry.side entry) (Entry.dynamicThreshold entry)).

Lemma stopChain_initial startCandle :
  stopChain runConfig entry (Backtester.initialSim entry levels startCandle).
Proof.
  unfold stopChain, Backtester.initialSim, Backtester.calculateTriggerLevels,
    signedDelta, prices.
  cbn [Sim.currentTriggerIndex Sim.currentStopLoss Sim.trailingHistory
       TriggerLevel.stopLoss map TrailingStopUpdate.price
       TrailingStopUpdate.type Nat.sub repeat].
  change (ofNat 1) with 1.
  split; [lia|]. split; [now exists []|].
  split; [destruct (Entry.side entry); ring|].
  split; [exact I|]. split; [reflexivity|].
  eexists. exists []. split; [reflexivity|].
  destruct (Entry.side entry); ring.
Qed.

Lemma stopChain_promote candle st :
  (Sim.currentTriggerIndex st <= TradingConfig.maxTriggerLevels runConfig)%nat ->
  stopChain runConfig entry st ->
  stopChain runConfig entry
    (Backtester.promote entry candle
       (rung (Entry.price entry) (Entry.side entry)
          (Entry.dynamicThreshold entry) (Sim.currentTriggerIndex st)) st).
Proof.
  intros Hle (Hidx & [earlier Hlast] & Hcur & Hsteps & Htypes & Hfirst).
  assert (Hnew :
    TriggerLevel.stopLoss
      (rung (Entry.price entry) (Entry.side entry)
         (Entry.dynamicThreshold entry) (Sim.currentTriggerIndex st))
    == Entry.price entry
       + (ofNat (S (Sim.currentTriggerIndex st)) - 2) * signedDelta entry).
  { rewrite ofNat_S. unfold rung, signedDelta.
    destruct (Entry.side entry); cbn [TriggerLevel.stopLoss]; ring. }
  unfold stopChain, Backtester.promote.
  cbn [Sim.currentTriggerIndex Sim.currentStopLoss Sim.trailingHistory].
  unfold prices in *. rewrite !map_app.
  cbn [map TrailingStopUpdate.price TrailingStopUpdate.type].
  split; [lia|]. split; [eexists; reflexivity|]. split; [exact Hnew|].
  split.
  { rewrite Hlast in Hsteps |- *. apply stepsBy_snoc; [exact Hsteps|].
    rewrite Hnew, Hcur, ofNat_S. ring. }
  split.
  { rewrite Htypes. cbn [app]. f_equal.
    replace (S (Sim.currentTriggerIndex st) - 1)%nat
      with (S (Sim.currentTriggerIndex st - 1)) by lia.
    cbn [repeat]. rewrite repeat_cons. reflexivity. }
  destruct Hfirst as (first & rest & Hp & Hf).
  exists first, (rest ++ [TriggerLevel.stopLoss
                            (rung (Entry.price entry) (Entry.side entry)
                               (Entry.dynamicThreshold entry)
                               (Sim.currentTriggerIndex st))]).
  rewrite Hp. split; [reflexivity | exact Hf].
Qed.

Lemma stopChain_trailWhile candle pending :
  forall st,
    skipn (Sim.currentTriggerIndex st) levels = pending ->
    stopChain runConfig entry st ->
    stopChain runConfig entry (Backtester.trailWhile entry candle pending st).
Proof.
  induction pending as [|nextTrigger pending IH]; intros st Hsk Hinv;
    [exact Hinv|].
  cbn [Backtester.trailWhile].
  destruct (triggerCrossed _ _ _); [|exact Hinv].
  apply skipn_cons_inv in Hsk as [Hnth Hsk].
  assert (Hlt : (Sim.currentTriggerIndex st < length levels)%nat)
    by (apply nth_error_Some; rewrite Hnth; discriminate).
  rewrite ladder_length in Hlt.
  assert (Hge : (1 <= Sim.currentTriggerIndex st)%nat) by apply Hinv.
  rewrite ladder_rung in Hnth by lia. injection Hnth as <-.
  apply IH; [exact Hsk|]. apply stopChain_promote; [lia | exact Hinv].
Qed.

Lemma stopChain_candleStep i candle st st' :
  stopChain runConfig entry st ->
  Backtester.candleStep entry levels i candle st = inr st' ->
  stopChain runConfig entry st'.
Proof.
  intros Hinv. unfold Backtester.candleStep.
  destruct (stopHit _ _ _); [discriminate|]. intros [= <-].
  now apply stopChain_trailWhile.
Qed.

Lemma reachable_stopChain candles startIndex i st :
  reachable runConfig candles startIndex entry i st ->
  stopChain runConfig entry st.
Proof.
  induction 1 as [startCandle _ | i st candle st' _ IH _ Hstep].
  - apply stopChain_initial.
  - eapply stopChain_candleStep; eassumption.
Qed.

(** An exit is produced from a reachable state whose stop the candle hit. *)
Lemma tradeLoop_exit candles startIndex remaining :
  forall i st exit,
    reachable runConfig candles startIndex entry i st ->
    Backtester.tradeLoop candles startIndex entry levels remaining i st
    = Some exit ->
    exists i' st' candle,
      reachable runConfig candles startIndex entry i' st'
      /\ exit = Backtester.createTradeExit candle (Sim.currentStopLoss st') i'
                  (Sim.trailingHistory st').
Proof.
  induction remaining as [|remaining IH]; intros i st exit Hreach;
    cbn [Backtester.tradeLoop]; [discriminate|].
  destruct (nth_error candles (startIndex + i)) as [candle|] eqn:Hc;
    [|discriminate].
  destruct (Backtester.candleStep entry levels i candle st) as [e|st'] eqn:Hstep.
  - intros [= <-]. exists i, st, candle. split; [exact Hreach|].
    unfold Backtester.candleStep in Hstep.
    destruct (stopHit _ _ _); [|discriminate]. now injection Hstep as <-.
  - apply IH. eapply reach_step; eassumption.
Qed.

End StopChain.





(** ** The ladder and the stops on binary64 numbers

    The equalities between computed prices proved above are equalities of
    exact rationals.  The program computes the same expressions on binary64
    numbers, where each operation rounds: there the equalities hold up to the
    last bits only, as the evaluations below show. *)

Section OnBinary64.

Import PrimFloat.
Local Open Scope float_scope.
Local Set Warnings "-inexact-float".

(** C7, as stated, fails on the numbers the program computes with.  In the
    ladder of a LONG entry at 189 with a dynamic threshold of 5, [stop_2] is
    198.45000000000002 where [trigger_1] is 198.45, and
    [trigger_2 - trigger_1] is 9.450000000000017 where [delta] is
    9.450000000000001. *)
Lemma binary64_ladder_asymmetric :
  let levels := Binary64.calculateTriggerLevels 20 189 LONG 5 in
  let delta := Binary64.thresholdValue 189 5 in
  exists level1 level2,
    nth_error levels 1 = Some level1
    /\ nth_error levels 2 = Some level2
    /\ Binary64.TriggerLevel.trigger level1 = 198.45
    /\ Binary64.TriggerLevel.stopLoss level2 = 198.45000000000002
    /\ (Binary64.TriggerLevel.stopLoss level2
        =? Binary64.TriggerLevel.trigger level1) = false
    /\ delta = 9.450000000000001
    /\ Binary64.TriggerLevel.trigger level2
       - Binary64.TriggerLevel.trigger level1 = 9.450000000000017
    /\ (Binary64.TriggerLevel.trigger level2
        - Binary64.TriggerLevel.trigger level1 =? delta) = false.
Proof.
  cbv zeta. do 2 eexists.
  split; [reflexivity|]. split; [reflexivity|].
  repeat split; vm_compute; reflexivity.
Qed.


(** The profit of a trade on binary64 numbers.  A LONG entry at 382.12 with
    threshold 2.63, stopped at its initial stop, loses 10.049756000000002,
    more than its [delta] of 10.049756; a LONG entry at 248.22 with threshold
    4.55, stopped after one promotion, ends with a small loss where the
    rational reading gives a profit of 0. *)
Example binary64_profit_misses_whole_rungs :
  (exists exit,
      Binary64.checkTradeOutcome 20 720 Binary64.candles382 0
        Binary64.entry382 = Return (Some exit)
      /\ map Binary64.TrailingStopUpdate.type
           (Binary64.TradeExit.trailing_stops exit) = [INITIAL; HIT]
      /\ Binary64.pnlOf Binary64.entry382 exit = -10.049756000000002
      /\ Binary64.thresholdValue 382.12 2.63 = 10.049756
      /\ (Binary64.pnlOf Binary64.entry382 exit
          <? - Binary64.thresholdValue 382.12 2.63) = true)
  /\ (exists exit,
      Binary64.checkTradeOutcome 20 720 Binary64.candles248 0
        Binary64.entry248 = Return (Some exit)
      /\ map Binary64.TrailingStopUpdate.type
           (Binary64.TradeExit.trailing_stops exit)
         = [INITIAL; TRAIL_UP; HIT]
      /\ Binary64.TradeExit.price exit = 248.21999999999997
      /\ (Binary64.pnlOf Binary64.entry248 exit <? 0) = true).
Proof.
  split.
  - eexists. split; [vm_compute; reflexivity|].
    repeat split; vm_compute; reflexivity.
  - eexists. split; [vm_compute; reflexivity|].
    repeat split; vm_compute; reflexivity.
Qed.

End OnBinary64.

(** * Further properties of the two classes *)

(** ** The scan over the candles *)

Lemma slice_length {A : Type} (from to : nat) (a : list A) :
  (from <= to <= length a)%nat -> length (slice from to a) = (to - from)%nat.
Proof.
  intros H. unfold slice. rewrite length_firstn, length_skipn. lia.
Qed.




Lemma mean_returns (l : list Q) : l <> [] -> exists m, mean l = Return m.
Proof. destruct l; [congruence|]. intros _. now eexists. Qed.

Lemma averageMovement_returns runConfig (window : list Candle.t) :
  window <> [] ->
  exists avg, Backtester.averageMovement runConfig window = Return avg.
Proof.
  intros Hne. unfold Backtester.averageMovement. apply mean_returns.
  intros Hmap. apply map_eq_nil in Hmap. revert Hmap.
  destruct (TradingConfig.lookbackCandles runConfig) as [|n]; cbn [sliceLast].
  - exact Hne.
  - intros Hskip. apply (f_equal (@length _)) in Hskip.
    rewrite length_skipn in Hskip. cbn [length] in Hskip.
    destruct window; [congruence|]. cbn [length] in Hskip. lia.
Qed.

Lemma warmup_window_nonempty (lookbackPeriod i : nat) (candles : list Candle.t) :
  (0 < lookbackPeriod)%nat -> (lookbackPeriod <= i < length candles)%nat ->
  slice (i - lookbackPeriod) i candles <> [].
Proof.
  intros Hp Hi Hnil. apply (f_equal (@length _)) in Hnil.
  rewrite slice_length in Hnil by lia. cbn in Hnil. lia.
Qed.

Lemma candleLoop_returns config runConfig candles lookbackPeriod indices :
  (0 < lookbackPeriod)%nat ->
  Forall (fun i => (lookbackPeriod <= i < length candles)%nat) indices ->
  forall st,
  exists st',
    Backtester.candleLoop config runConfig candles lookbackPeriod indices st
    = Return st'.
Proof.
  intros Hp Hall. induction Hall as [|i indices Hi _ IH]; intros st.
  - now eexists.
  - cbn [Backtester.candleLoop].
    destruct (nth_error candles i) as [c|] eqn:Hc.
    + destruct (averageMovement_returns runConfig
                  (slice (i - lookbackPeriod) i candles)
                  (warmup_window_nonempty _ _ _ Hp Hi)) as [avg Havg].
      destruct (processCandle_returns config runConfig candles st c _ i avg Havg)
        as [st1 Hst1].
      rewrite Hst1. cbn [bind]. apply IH.
    + apply nth_error_None in Hc. lia.
Qed.

Lemma candleLoop2_returns config candles lookbackPeriod indices :
  (0 < lookbackPeriod)%nat ->
  Forall (fun i => (lookbackPeriod <= i < length candles)%nat) indices ->
  forall st,
  exists st',
    Backtester2.candleLoop config candles lookbackPeriod indices st = Return st'.
Proof.
  intros Hp Hall. induction Hall as [|i indices Hi _ IH]; intros st.
  - now eexists.
  - cbn [Backtester2.candleLoop].
    destruct (nth_error candles i) as [c|] eqn:Hc.
    + destruct (averageMovement_returns config
                  (slice (i - lookbackPeriod) i candles)
                  (warmup_window_nonempty _ _ _ Hp Hi)) as [avg Havg].
      destruct (processCandle2_returns config candles st c _ i avg Havg)
        as [st1 Hst1].
      rewrite Hst1. cbn [bind]. apply IH.
    + apply nth_error_None in Hc. lia.
Qed.

Lemma scan_indices (lookbackPeriod len : nat) :
  Forall (fun i => (lookbackPeriod <= i < len)%nat)
    (seq lookbackPeriod (len - lookbackPeriod)).
Proof.
  apply Forall_forall. intros i Hi. apply in_seq in Hi. lia.
Qed.

Lemma findMatchingCandles_scan config runConfig candles saveResults st st' :
  Backtester.findMatchingCandles config runConfig candles saveResults st
  = Return st' ->
  Backtester.candleLoop config runConfig candles
    (TradingConfig.lookbackCandles runConfig + 10)
    (seq (TradingConfig.lookbackCandles runConfig + 10)
       (length candles - (TradingConfig.lookbackCandles runConfig + 10))) st
  = Return st'.
Proof.
  unfold Backtester.findMatchingCandles.
  destruct (Backtester.candleLoop _ _ _ _ _ _) as [st1|]; [|discriminate].
  cbn [bind]. destruct (saveResults st1); [|discriminate].
  cbn [bind]. now intros [= <-].
Qed.

Lemma findMatchingCandles2_scan config candles writeResults st st' :
  Backtester2.findMatchingCandles config candles writeResults st = Return st' ->
  Backtester2.candleLoop config candles
    (TradingConfig.lookbackCandles config + 10)
    (seq (TradingConfig.lookbackCandles config + 10)
       (length candles - (TradingConfig.lookbackCandles config + 10))) st
  = Return st'.
Proof.
  unfold Backtester2.findMatchingCandles.
  destruct (Backtester2.candleLoop _ _ _ _ _) as [st1|]; [|discriminate].
  cbn [bind]. destruct (writeResults st1); [|discriminate].
  cbn [bind]. now intros [= <-].
Qed.

(** X1. [findMatchingCandles] of the current class can fail only in
    [saveResults].  For every lookback that is a whole number from 0 up
    (the type of [lookbackCandles] here), whatever the candles, the other
    settings and the state, the loop over the candles returns: every index it
    visits holds a candle, the window it passes on is never empty (even with
    a lookback of 0, and even with fewer candles than the warm-up, when
    nothing is visited), so [math.mean] has something to average, and the
    simulator is only started on a candle that exists.  The method then
    completes exactly as the call of [saveResults] on the state the loop
    left does: it throws if and only if creating the directories or writing
    the file fails. *)
Theorem findMatchingCandles_fails_only_in_saveResults
    config runConfig candles saveResults st :
  exists st',
    Backtester.candleLoop config runConfig candles
      (TradingConfig.lookbackCandles runConfig + 10)
      (seq (TradingConfig.lookbackCandles runConfig + 10)
         (length candles - (TradingConfig.lookbackCandles runConfig + 10))) st
    = Return st'
    /\ Backtester.findMatchingCandles config runConfig candles saveResults st
       = (_ <- saveResults st' ;; Return st')
    /\ (Backtester.findMatchingCandles config runConfig candles saveResults st
        = Throw <-> saveResults st' = Throw).
Proof.
  destruct (candleLoop_returns config runConfig candles
              (TradingConfig.lookbackCandles runConfig + 10)
              (seq (TradingConfig.lookbackCandles runConfig + 10)
                 (length candles
                  - (TradingConfig.lookbackCandles runConfig + 10)))
              ltac:(lia) (scan_indices _ _) st) as [st' Hloop].
  exists st'. unfold Backtester.findMatchingCandles.
  rewrite Hloop. cbn [bind]. repeat split.
  - destruct (saveResults st'); [discriminate | reflexivity].
  - intros Hsave. now rewrite Hsave.
Qed.

(** X2. [findMatchingCandles] of the earlier class can fail only after its
    loop.  For every lookback that is a whole number from 0 up, whatever the
    candles, the other settings and the state, the loop over the candles
    returns; the method then completes exactly as the part that follows (the
    report, [fs.promises.writeFile] and the printed summary, a parameter
    here) does on the state the loop left. *)
Theorem findMatchingCandles2_fails_only_after_the_loop
    config candles writeResults st :
  exists st',
    Backtester2.candleLoop config candles
      (TradingConfig.lookbackCandles config + 10)
      (seq (TradingConfig.lookbackCandles config + 10)
         (length candles - (TradingConfig.lookbackCandles config + 10))) st
    = Return st'
    /\ Backtester2.findMatchingCandles config candles writeResults st
       = (_ <- writeResults st' ;; Return st')
    /\ (Backtester2.findMatchingCandles config candles writeResults st
        = Throw <-> writeResults st' = Throw).
Proof.
  destruct (candleLoop2_returns config candles
              (TradingConfig.lookbackCandles config + 10)
              (seq (TradingConfig.lookbackCandles config + 10)
                 (length candles
                  - (TradingConfig.lookbackCandles config + 10)))
              ltac:(lia) (scan_indices _ _) st) as [st' Hloop].
  exists st'. unfold Backtester2.findMatchingCandles.
  rewrite Hloop. cbn [bind]. repeat split.
  - destruct (writeResults st'); [discriminate | reflexivity].
  - intros Hsave. now rewrite Hsave.
Qed.

(** ** What an entry and an exit say about the candles *)

Lemma crossingLoop_sound candles startIndex legendCandle remaining :
  forall i side,
    let r := Backtester.crossingLoop candles startIndex legendCandle remaining i in
    Crossing.direction r = Dir side ->
    exists candle,
      (i <= Crossing.candles_until_cross r < i + remaining)%nat
      /\ nth_error candles (startIndex + Crossing.candles_until_cross r)
         = Some candle
      /\ Crossing.crossed_at r = Formatted (Candle.openTime candle)
      /\ match side with
         | LONG =>
             Crossing.entry_price r
             = LegendCandle.upward_movementThreshold legendCandle
             /\ LegendCandle.upward_movementThreshold legendCandle
                <= Candle.high candle
         | SHORT =>
             Crossing.entry_price r
             = LegendCandle.downward_movementThreshold legendCandle
             /\ Candle.high candle
                < LegendCandle.upward_movementThreshold legendCandle
             /\ Candle.low candle
                <= LegendCandle.downward_movementThreshold legendCandle
         end
      /\ (forall k c,
            (i <= k < Crossing.candles_until_cross r)%nat ->
            nth_error candles (startIndex + k) = Some c ->
            Candle.high c < LegendCandle.upward_movementThreshold legendCandle
            /\ LegendCandle.downward_movementThreshold legendCandle
               < Candle.low c).
Proof.
  induction remaining as [|remaining IH]; intros i side; cbn zeta;
    cbn [Backtester.crossingLoop]; [discriminate|].
  destruct (nth_error candles (startIndex + i)) as [c|] eqn:Hc;
    [|discriminate].
  destruct (geb _ _) eqn:Hup.
  - cbn. intros [= <-]. exists c. apply geb_true in Hup.
    repeat split; try assumption; try lia.
  - apply geb_false in Hup. destruct (leb _ _) eqn:Hdown.
    + cbn. intros [= <-]. exists c. apply leb_true in Hdown.
      repeat split; try assumption; try lia.
    + apply leb_false in Hdown. intros Hdir.
      destruct (IH (S i) side Hdir) as (candle & Hrange & Hnth & Hat & Hside & Hbefore).
      exists candle. split; [lia|]. split; [exact Hnth|].
      split; [exact Hat|]. split; [exact Hside|].
      intros k c' Hk Hk'. destruct (Nat.eq_dec k i) as [->|Hne].
      * rewrite Hc in Hk'. injection Hk' as <-. split; assumption.
      * apply (Hbefore k c'); [lia | exact Hk'].
Qed.

(** X4. An entry reported by [checkThresholdCrossing] of the current class is
    backed by the candles: its offset lies within the look-forward horizon and
    points at an existing candle, whose open time is the entry time; a LONG
    entry is priced at the upward level and that candle's high reaches it; a
    SHORT entry is priced at the downward level, that candle's low reaches it
    and its high stays below the upward level; and no candle between the legend
    and the entry candle reaches either level. *)
Theorem crossing_sound runConfig candles startIndex legendCandle side :
  let r := Backtester.checkThresholdCrossing runConfig candles startIndex
             legendCandle in
  Crossing.direction r = Dir side ->
  exists candle,
    (1 <= Crossing.candles_until_cross r
     <= TradingConfig.maxLookForwardCandles runConfig)%nat
    /\ nth_error candles (startIndex + Crossing.candles_until_cross r)
       = Some candle
    /\ Crossing.crossed_at r = Formatted (Candle.openTime candle)
    /\ match side with
       | LONG =>
           Crossing.entry_price r
           = LegendCandle.upward_movementThreshold legendCandle
           /\ LegendCandle.upward_movementThreshold legendCandle
              <= Candle.high candle
       | SHORT =>
           Crossing.entry_price r
           = LegendCandle.downward_movementThreshold legendCandle
           /\ Candle.high candle
              < LegendCandle.upward_movementThreshold legendCandle
           /\ Candle.low candle
              <= LegendCandle.downward_movementThreshold legendCandle
       end
    /\ (forall k c,
          (1 <= k < Crossing.candles_until_cross r)%nat ->
          nth_error candles (startIndex + k) = Some c ->
          Candle.high c < LegendCandle.upward_movementThreshold legendCandle
          /\ LegendCandle.downward_movementThreshold legendCandle
             < Candle.low c).
Proof.
  intros r Hdir. subst r. unfold Backtester.checkThresholdCrossing in *.
  destruct (crossingLoop_sound candles startIndex legendCandle _ 1 side Hdir)
    as (candle & Hrange & Hrest).
  exists candle. split; [lia | exact Hrest].
Qed.

Lemma crossing_sound_witness :
  Crossing.direction
    (Backtester.checkThresholdCrossing tinyConfig abandonedRun 11
       (Backtester.legendCandleOf legendCandle102 1)) = Dir LONG
  /\ exists candle,
       nth_error abandonedRun
         (11 + Crossing.candles_until_cross
                 (Backtester.checkThresholdCrossing tinyConfig abandonedRun 11
                    (Backtester.legendCandleOf legendCandle102 1)))
       = Some candle
       /\ LegendCandle.upward_movementThreshold
            (Backtester.legendCandleOf legendCandle102 1)
          <= Candle.high candle.
Proof.
  assert (Hdir : Crossing.direction
                   (Backtester.checkThresholdCrossing tinyConfig abandonedRun 11
                      (Backtester.legendCandleOf legendCandle102 1)) = Dir LONG)
    by reflexivity.
  split; [exact Hdir|].
  destruct (crossing_sound tinyConfig abandonedRun 11
              (Backtester.legendCandleOf legendCandle102 1) LONG Hdir)
    as (candle & _ & Hnth & _ & [_ Hup] & _).
  exists candle. split; assumption.
Defined.

(** When no entry is found the result is the NONE record, with price and
    offset 0: no candle of the horizon, as far as the array goes, reaches a
    level. *)
Lemma crossingLoop_none candles startIndex legendCandle remaining :
  forall i,
    Crossing.direction
      (Backtester.crossingLoop candles startIndex legendCandle remaining i)
    = NONE ->
    Backtester.crossingLoop candles startIndex legendCandle remaining i
    = Crossing.none.
Proof.
  induction remaining as [|remaining IH]; intros i;
    cbn [Backtester.crossingLoop]; [reflexivity|].
  destruct (nth_error candles (startIndex + i)); [|reflexivity].
  destruct (geb _ _); [discriminate|]. destruct (leb _ _); [discriminate|].
  apply IH.
Qed.

Lemma tradeLoop_sound candles startIndex entry levels remaining :
  forall i st exit,
    Backtester.tradeLoop candles startIndex entry levels remaining i st
    = Some exit ->
    exists candle,
      (i <= TradeExit.candles_until_exit exit < i + remaining)%nat
      /\ nth_error candles (startIndex + TradeExit.candles_until_exit exit)
         = Some candle
      /\ TradeExit.time exit = Formatted (Candle.openTime candle)
      /\ stopHit (Entry.side entry) candle (TradeExit.price exit) = true.
Proof.
  induction remaining as [|remaining IH]; intros i st exit;
    cbn [Backtester.tradeLoop]; [discriminate|].
  destruct (nth_error candles (startIndex + i)) as [candle|] eqn:Hc;
    [|discriminate].
  unfold Backtester.candleStep.
  destruct (stopHit _ _ _) eqn:Hs.
  - intros [= <-]. exists candle. cbn. repeat split; try assumption; lia.
  - intros Hloop. apply IH in Hloop as (c & Hrange & Hrest).
    exists c. split; [lia | exact Hrest].
Qed.

(** X5. An exit returned by [checkTradeOutcome] of the current class is backed by
    the candles: it lies 1 to [maxLookForwardCandles] candles after the entry
    candle, on an existing candle whose open time is the exit time, and that
    candle reaches the exit price from the losing side (LONG: its low is at or
    below it; SHORT: its high is at or above it). *)
Theorem exit_sound runConfig candles startIndex entry exit :
  Backtester.checkTradeOutcome runConfig candles startIndex entry
  = Return (Some exit) ->
  exists candle,
    (1 <= TradeExit.candles_until_exit exit
     <= TradingConfig.maxLookForwardCandles runConfig)%nat
    /\ nth_error candles (startIndex + TradeExit.candles_until_exit exit)
       = Some candle
    /\ TradeExit.time exit = Formatted (Candle.openTime candle)
    /\ stopHit (Entry.side entry) candle (TradeExit.price exit) = true.
Proof.
  unfold Backtester.checkTradeOutcome.
  destruct (nth_error candles startIndex); [|discriminate].
  intros [= Hloop]. apply tradeLoop_sound in Hloop as (c & Hrange & Hrest).
  exists c. split; [lia | exact Hrest].
Qed.

Lemma exit_sound_witness :
  exists exit candle,
    Backtester.checkTradeOutcome shippedConfig candles189 0 entry189
    = Return (Some exit)
    /\ nth_error candles189 (0 + TradeExit.candles_until_exit exit) = Some candle
    /\ stopHit LONG candle (TradeExit.price exit) = true.
Proof.
  destruct (Backtester.checkTradeOutcome shippedConfig candles189 0 entry189)
    as [[exit|]|] eqn:Hout; try discriminate.
  destruct (exit_sound shippedConfig candles189 0 entry189 exit Hout)
    as (candle & _ & Hnth & _ & Hhit).
  exists exit, candle. split; [reflexivity|]. split; assumption.
Defined.

(** X6. The bounds of [checkTradeOutcome].  It throws exactly when the entry
    index is not an index of the candle array; started on the last candle, or
    with a look-forward of 0, it returns null. *)
Theorem checkTradeOutcome_bounds runConfig candles startIndex entry :
  (Backtester.checkTradeOutcome runConfig candles startIndex entry = Throw
   <-> (length candles <= startIndex)%nat)
  /\ (S startIndex = length candles \/
      TradingConfig.maxLookForwardCandles runConfig = 0%nat ->
      (startIndex < length candles)%nat ->
      Backtester.checkTradeOutcome runConfig candles startIndex entry
      = Return None).
Proof.
  unfold Backtester.checkTradeOutcome. split.
  - destruct (nth_error candles startIndex) eqn:Hc.
    + split; [discriminate|]. intros Hle.
      apply nth_error_None in Hle. congruence.
    + split; [intros _; now apply nth_error_None | reflexivity].
  - intros Hedge Hlt.
    destruct (nth_error candles startIndex) eqn:Hc;
      [|apply nth_error_None in Hc; lia].
    f_equal. destruct Hedge as [Hlast | ->]; [|reflexivity].
    destruct (TradingConfig.maxLookForwardCandles runConfig); [reflexivity|].
    cbn [Backtester.tradeLoop].
    replace (nth_error candles (startIndex + 1)) with (@None Candle.t);
      [reflexivity|].
    symmetry. apply nth_error_None. lia.
Qed.

(** ** The profit of a trade *)

Lemma filter_isTrail_trails side (l : list TrailingStopUpdate.t) n :
  map TrailingStopUpdate.type l = repeat (trailTypeOf side) n ->
  filter Backtester.isTrail l = l.
Proof.
  revert n. induction l as [|u l IH]; intros n Hmap; [reflexivity|].
  destruct n as [|n]; [discriminate|]. cbn in Hmap. injection Hmap as Hu Hl.
  cbn [filter]. unfold Backtester.isTrail at 1. rewrite Hu.
  destruct side; cbn [trailTypeOf]; f_equal; eapply IH; eassumption.
Qed.

Lemma filter_isTrail_history side (history : list TrailingStopUpdate.t) hit n :
  map TrailingStopUpdate.type history = INITIAL :: repeat (trailTypeOf side) n ->
  TrailingStopUpdate.type hit = HIT ->
  filter Backtester.isTrail (history ++ [hit]) = tl history
  /\ length (tl history) = n.
Proof.
  intros Hmap Hhit. destruct history as [|u rest]; [discriminate|].
  cbn in Hmap. injection Hmap as Hu Hrest. cbn [app filter tl].
  unfold Backtester.isTrail at 1. rewrite Hu. rewrite filter_app.
  rewrite (filter_isTrail_trails side rest n Hrest). cbn [filter].
  unfold Backtester.isTrail. rewrite Hhit. rewrite app_nil_r.
  split; [reflexivity|].
  apply (f_equal (@length _)) in Hrest.
  now rewrite length_map, repeat_length in Hrest.
Qed.

(** What an exit of the current class is made of: a state the loop reached,
    satisfying the loop invariant, and the candle that hit its stop. *)
Lemma exit_from_chain runConfig candles startIndex entry exit :
  Backtester.checkTradeOutcome runConfig candles startIndex entry
  = Return (Some exit) ->
  exists i st candle,
    stopChain runConfig entry st
    /\ exit = Backtester.createTradeExit candle (Sim.currentStopLoss st) i
                (Sim.trailingHistory st).
Proof.
  unfold Backtester.checkTradeOutcome.
  destruct (nth_error candles startIndex) as [startCandle|] eqn:Hstart;
    [|discriminate].
  intros [= Hloop].
  apply tradeLoop_exit in Hloop; [|now apply reach_init].
  destruct Hloop as (i & st & candle & Hreach & ->).
  exists i, st, candle. split; [|reflexivity].
  eapply reachable_stopChain; eassumption.
Qed.

(** The content of the next theorem, shared with the bound on losses.
    The profit of a completed trade of the current class is a whole number
    of rungs.  With [n] the number of TRAIL events in the exit's history, the
    history holds exactly the INITIAL event, these [n] events and the HIT
    event, [n] is at most [maxTriggerLevels], and the profit of the trade is
    [(n - 1) * delta] for LONG and SHORT alike: one rung lost when no trigger
    was reached, nothing with one, a rung gained for each further one. *)
Lemma exit_profit runConfig candles startIndex entry exit :
  Backtester.checkTradeOutcome runConfig candles startIndex entry
  = Return (Some exit) ->
  let n := length (filter Backtester.isTrail (TradeExit.trailing_stops exit)) in
  (n <= TradingConfig.maxTriggerLevels runConfig)%nat
  /\ length (TradeExit.trailing_stops exit) = S (S n)
  /\ fst (calculatePnL (Entry.price entry) (TradeExit.price exit)
            (Entry.side entry) 1)
     == (ofNat n - 1)
        * Backtester.thresholdValue (Entry.price entry)
            (Entry.dynamicThreshold entry).
Proof.
  intros Hexit.
  destruct (exit_from_chain _ _ _ _ _ Hexit) as (i & st & candle & Hinv & ->).
  destruct Hinv as (Hidx & _ & Hcur & _ & Htypes & _).
  unfold Backtester.createTradeExit.
  cbn [TradeExit.trailing_stops TradeExit.price].
  destruct (filter_isTrail_history (Entry.side entry) (Sim.trailingHistory st)
              (TrailingStopUpdate.mk (Sim.currentStopLoss st)
                 (Formatted (Candle.openTime candle)) HIT
                 (Sim.currentStopLoss st) 0 None)
              _ Htypes eq_refl) as [Hfilter Hlen].
  rewrite Hfilter. cbn zeta. rewrite Hlen.
  assert (Hhist : length (Sim.trailingHistory st) = Sim.currentTriggerIndex st).
  { apply (f_equal (@length _)) in Htypes.
    rewrite length_map in Htypes. cbn [length] in Htypes.
    rewrite repeat_length in Htypes. lia. }
  split; [lia|]. split; [rewrite length_app, Hhist; cbn; lia|].
  assert (Hof : ofNat (Sim.currentTriggerIndex st)
                == ofNat (Sim.currentTriggerIndex st - 1) + 1).
  { replace (Sim.currentTriggerIndex st)
      with (S (Sim.currentTriggerIndex st - 1)) at 1 by lia.
    apply ofNat_S. }
  unfold calculatePnL, signedDelta in *. cbn [fst].
  destruct (Entry.side entry); rewrite Hcur, Hof; ring.
Qed.

(** X7. In exact arithmetic, the profit of a completed trade of the current
    class is a whole number of rungs.  With [n] the number of TRAIL events in the exit's history, the
    history holds exactly the INITIAL event, these [n] events and the HIT
    event, [n] is at most [maxTriggerLevels], and the profit of the trade is
    [(n - 1) * delta] for LONG and SHORT alike: one rung lost when no trigger
    was reached, nothing with one, a rung gained for each further one. *)
Theorem pnl_in_whole_rungs runConfig candles startIndex entry exit :
  Backtester.checkTradeOutcome runConfig candles startIndex entry
  = Return (Some exit) ->
  let n := length (filter Backtester.isTrail (TradeExit.trailing_stops exit)) in
  (n <= TradingConfig.maxTriggerLevels runConfig)%nat
  /\ length (TradeExit.trailing_stops exit) = S (S n)
  /\ fst (calculatePnL (Entry.price entry) (TradeExit.price exit)
            (Entry.side entry) 1)
     == (ofNat n - 1)
        * Backtester.thresholdValue (Entry.price entry)
            (Entry.dynamicThreshold entry).
Proof. apply exit_profit. Qed.

Lemma pnl_in_whole_rungs_witness :
  exists exit,
    Backtester.checkTradeOutcome shippedConfig candles100 0 entry100
    = Return (Some exit)
    /\ length (filter Backtester.isTrail (TradeExit.trailing_stops exit)) = 2%nat
    /\ fst (calculatePnL 100 (TradeExit.price exit) LONG 1)
       == (ofNat 2 - 1) * Backtester.thresholdValue 100 5.
Proof.
  destruct (Backtester.checkTradeOutcome shippedConfig candles100 0 entry100)
    as [[exit|]|] eqn:Hout; try discriminate.
  exists exit. split; [reflexivity|].
  assert (Hn : length (filter Backtester.isTrail (TradeExit.trailing_stops exit))
               = 2%nat).
  { vm_compute in Hout. injection Hout as <-. reflexivity. }
  split; [exact Hn|]. rewrite <- Hn.
  exact (proj2 (proj2 (pnl_in_whole_rungs shippedConfig candles100 0 entry100
                         exit Hout))).
Defined.

(** X8. In exact arithmetic, a trade of the current class never loses more
    than one rung: with a positive entry price and a positive dynamic
    threshold the profit is at least [- delta], and it is negative exactly
    when the stop was hit before any trigger was reached.  (On binary64
    numbers both can miss by the rounding of the last bits:
    [binary64_profit_misses_whole_rungs].) *)
Theorem loss_is_at_most_one_rung runConfig candles startIndex entry exit :
  0 < Entry.price entry ->
  0 < Entry.dynamicThreshold entry ->
  Backtester.checkTradeOutcome runConfig candles startIndex entry
  = Return (Some exit) ->
  let pnl := fst (calculatePnL (Entry.price entry) (TradeExit.price exit)
                    (Entry.side entry) 1) in
  - Backtester.thresholdValue (Entry.price entry) (Entry.dynamicThreshold entry)
    <= pnl
  /\ (pnl < 0
      <-> filter Backtester.isTrail (TradeExit.trailing_stops exit) = []).
Proof.
  intros HP Ht Hexit pnl. subst pnl.
  destruct (exit_profit _ _ _ _ _ Hexit) as (_ & _ & Hpnl).
  pose proof (thresholdValue_pos _ _ HP Ht) as Hd.
  set (d := Backtester.thresholdValue _ _) in *.
  set (trails := filter _ _) in *.
  rewrite Hpnl. destruct trails as [|u trails].
  - cbn [length]. change (ofNat 0) with 0. split; [lra|].
    split; [reflexivity | intros _; lra].
  - cbn [length]. rewrite ofNat_S.
    assert (Hk : 0 <= ofNat (length trails) * d)
      by (apply Qmult_le_0_compat; [apply ofNat_nonneg | lra]).
    split; [lra|]. split; [lra | discriminate].
Qed.

Lemma loss_is_at_most_one_rung_witness :
  (0 < Entry.price entry189 /\ 0 < Entry.dynamicThreshold entry189)
  /\ exists exit,
       Backtester.checkTradeOutcome shippedConfig
         [crossingCandle189; engulfingCandle189] 0 entry189
       = Return (Some exit)
       /\ - Backtester.thresholdValue 189 5
          <= fst (calculatePnL 189 (TradeExit.price exit) LONG 1)
       /\ fst (calculatePnL 189 (TradeExit.price exit) LONG 1) < 0.
Proof.
  assert (HP : 0 < Entry.price entry189) by reflexivity.
  assert (Ht : 0 < Entry.dynamicThreshold entry189) by reflexivity.
  split; [split; assumption|].
  destruct (Backtester.checkTradeOutcome shippedConfig
              [crossingCandle189; engulfingCandle189] 0 entry189)
    as [[exit|]|] eqn:Hout; try discriminate.
  exists exit. split; [reflexivity|].
  destruct (loss_is_at_most_one_rung shippedConfig
              [crossingCandle189; engulfingCandle189] 0 entry189 exit HP Ht Hout)
    as [Hbound Hneg].
  split; [exact Hbound|]. apply Hneg.
  vm_compute in Hout. injection Hout as <-. reflexivity.
Defined.

(** X9. In exact arithmetic, the two initial stops of one legend coincide.  A LONG entry at the upward
    level and a SHORT entry at the downward level of the same legend candle
    start with the same stop, [close * (1 - (dynamicThreshold / 100)^2)]: just
    below the legend's close, not at it. *)
Theorem initial_stops_coincide runConfig c dynamicThreshold size1 size2 startCandle :
  let legendCandle := Backtester.legendCandleOf c dynamicThreshold in
  let long :=
    Entry.mk (LegendCandle.upward_movementThreshold legendCandle) LONG size1
      dynamicThreshold in
  let short :=
    Entry.mk (LegendCandle.downward_movementThreshold legendCandle) SHORT size2
      dynamicThreshold in
  let stopOf entry :=
    Sim.currentStopLoss
      (Backtester.initialSim entry
         (Backtester.calculateTriggerLevels runConfig (Entry.price entry)
            (Entry.side entry) (Entry.dynamicThreshold entry))
         startCandle) in
  stopOf long
  == Candle.close c * (1 - (dynamicThreshold / 100) * (dynamicThreshold / 100))
  /\ stopOf short == stopOf long.
Proof.
  cbv zeta.
  unfold Backtester.initialSim, Backtester.calculateTriggerLevels,
    Backtester.thresholdValue, Backtester.legendCandleOf.
  cbn [Sim.currentStopLoss TriggerLevel.stopLoss Entry.side Entry.price
       Entry.dynamicThreshold LegendCandle.upward_movementThreshold
       LegendCandle.downward_movementThreshold].
  split; field.
Qed.

(** ** Position size *)

Lemma trailWhile_size entry1 entry2 candle pending :
  Entry.side entry1 = Entry.side entry2 ->
  Entry.price entry1 = Entry.price entry2 ->
  forall st,
    Backtester.trailWhile entry1 candle pending st
    = Backtester.trailWhile entry2 candle pending st.
Proof.
  intros Hside Hprice.
  induction pending as [|level pending IH]; intros st; [reflexivity|].
  cbn [Backtester.trailWhile]. rewrite Hside.
  destruct (triggerCrossed _ _ _); [|reflexivity].
  unfold Backtester.promote. rewrite Hside, Hprice. apply IH.
Qed.

Lemma tradeLoop_size candles startIndex entry1 entry2 levels remaining :
  Entry.side entry1 = Entry.side entry2 ->
  Entry.price entry1 = Entry.price entry2 ->
  forall i st,
    Backtester.tradeLoop candles startIndex entry1 levels remaining i st
    = Backtester.tradeLoop candles startIndex entry2 levels remaining i st.
Proof.
  intros Hside Hprice.
  induction remaining as [|remaining IH]; intros i st; [reflexivity|].
  cbn [Backtester.tradeLoop].
  destruct (nth_error candles (startIndex + i)) as [candle|]; [|reflexivity].
  unfold Backtester.candleStep. rewrite Hside.
  destruct (stopHit _ _ _); [reflexivity|].
  rewrite (trailWhile_size entry1 entry2 candle _ Hside Hprice). apply IH.
Qed.

Lemma checkTradeOutcome_size runConfig candles startIndex price side size1 size2 dt :
  Backtester.checkTradeOutcome runConfig candles startIndex
    (Entry.mk price side size1 dt)
  = Backtester.checkTradeOutcome runConfig candles startIndex
      (Entry.mk price side size2 dt).
Proof.
  unfold Backtester.checkTradeOutcome.
  cbn [Entry.price Entry.side Entry.dynamicThreshold].
  destruct (nth_error candles startIndex) as [startCandle|]; [|reflexivity].
  f_equal. apply tradeLoop_size; reflexivity.
Qed.

Lemma processCandle_size config1 config2 runConfig candles st c window i :
  Backtester.processCandle config1 runConfig candles st c window i
  = Backtester.processCandle config2 runConfig candles st c window i.
Proof.
  unfold Backtester.processCandle.
  destruct (Backtester.averageMovement runConfig window) as [avg|];
    [|reflexivity].
  cbn [bind]. destruct (geb _ _); [|reflexivity].
  destruct (Crossing.direction _) as [side|]; [|reflexivity].
  match goal with
  | |- bind (Backtester.checkTradeOutcome ?r ?cs ?s (Entry.mk ?p ?sd ?s1 ?d)) _
       = bind (Backtester.checkTradeOutcome _ _ _ (Entry.mk _ _ ?s2 _)) _ =>
      rewrite (checkTradeOutcome_size r cs s p sd s1 s2 d)
  end.
  reflexivity.
Qed.

Lemma candleLoop_size config1 config2 runConfig candles lookbackPeriod indices st :
  Backtester.candleLoop config1 runConfig candles lookbackPeriod indices st
  = Backtester.candleLoop config2 runConfig candles lookbackPeriod indices st.
Proof.
  revert st.
  induction indices as [|i indices IH]; intros st; [reflexivity|].
  cbn [Backtester.candleLoop].
  destruct (nth_error candles i) as [c|]; [|reflexivity].
  rewrite (processCandle_size config1 config2).
  destruct (Backtester.processCandle config2 runConfig candles st c _ i);
    [|reflexivity].
  cbn [bind]. apply IH.
Qed.

(** X10. The position size changes nothing.  [calculateTradeSize] reads the
    balance and [positionSizePercent] of the module-level configuration, but
    the size it returns reaches neither the simulation nor the accounting: two
    runs that differ only in that configuration end in the same state, with
    the same trades and the same balance. *)
Theorem position_size_is_ignored
    config1 config2 runConfig candles saveResults st :
  Backtester.findMatchingCandles config1 runConfig candles saveResults st
  = Backtester.findMatchingCandles config2 runConfig candles saveResults st.
Proof.
  unfold Backtester.findMatchingCandles.
  now rewrite (candleLoop_size config1 config2).
Qed.

(** ** The ledger of a run *)

Lemma toFixed2_error (x : Q) : Qabs (toFixed2 x - x) <= 1 # 200.
Proof.
  unfold toFixed2.
  set (n := Qfloor (Qabs x * 100 + (1 # 2))).
  assert (Hlo : inject_Z n <= Qabs x * 100 + (1 # 2)) by apply Qfloor_le.
  assert (Hhi : Qabs x * 100 + (1 # 2) < inject_Z n + 1).
  { pose proof (Qlt_floor (Qabs x * 100 + (1 # 2))) as H.
    fold n in H. rewrite inject_Z_plus in H. exact H. }
  assert (Hdiv : inject_Z n / 100 == inject_Z n * (1 # 100)) by field.
  apply Qabs_Qle_condition.
  destruct (ltb x 0) eqn:Hneg; rewrite Hdiv.
  - apply ltb_true in Hneg.
    assert (Habs : Qabs x == - x) by (apply Qabs_neg; lra).
    rewrite Habs in Hlo, Hhi. split; lra.
  - apply not_true_iff_false in Hneg. rewrite ltb_true in Hneg.
    assert (Habs : Qabs x == x) by (apply Qabs_pos; lra).
    rewrite Habs in Hlo, Hhi. split; lra.
Qed.

Lemma detailed_trades_app l1 l2 :
  detailed_trades (l1 ++ l2) = detailed_trades l1 ++ detailed_trades l2.
Proof. unfold detailed_trades. apply flat_map_app. Qed.

Lemma pnlConsistent_snoc initial history update :
  pnlConsistent initial history ->
  Qabs (BalanceUpdate.trade_pnl update
        - (BalanceUpdate.balance update
           - last (map BalanceUpdate.balance history) initial)) <= 1 # 200 ->
  pnlConsistent initial (history ++ [update]).
Proof.
  revert initial. induction history as [|u history IH]; intros initial Hh Hu.
  - cbn in *. split; [exact Hu | exact I].
  - cbn [app pnlConsistent] in *. destruct Hh as [Hfirst Hrest].
    split; [exact Hfirst|]. apply IH; [exact Hrest|].
    cbn [map] in Hu. rewrite last_cons_default in Hu. exact Hu.
Qed.

Lemma ledger_initial runConfig :
  ledger (TradingConfig.initialBalance runConfig)
    (Backtester.initialState runConfig).
Proof. repeat split. Qed.

(** The two ways [processCandle] can return: untouched, or with one trade
    accounted for. *)
Lemma processCandle_cases config runConfig candles st c window i st' :
  Backtester.processCandle config runConfig candles st c window i = Return st' ->
  st' = st
  \/ exists legendCandle crossing side exit dt cd avg,
       let tradeResult :=
         Backtester.processTradeResult st crossing side exit dt cd
           (LegendCandle.candleData legendCandle) in
       st' = Backtester.storeMatchingCandle runConfig
               (Backtester.updateBalance st tradeResult) c legendCandle
               crossing tradeResult dt avg.
Proof.
  unfold Backtester.processCandle.
  destruct (Backtester.averageMovement runConfig window) as [avg|];
    [|discriminate].
  cbn [bind]. destruct (geb _ _); [|intros [= <-]; now left].
  destruct (Crossing.direction _) as [side|]; [|intros [= <-]; now left].
  destruct (Backtester.checkTradeOutcome _ _ _ _) as [[exit|]|];
    cbn [bind]; [|intros [= <-]; now left|discriminate].
  intros [= <-]. right.
  exists (Backtester.legendCandleOf c
            (Backtester.dynamicThresholdOf runConfig avg)),
    (Backtester.checkThresholdCrossing runConfig candles i
       (Backtester.legendCandleOf c
          (Backtester.dynamicThresholdOf runConfig avg))),
    side, exit, (Backtester.dynamicThresholdOf runConfig avg),
    (Backtester.movement c), avg.
  reflexivity.
Qed.

Lemma ledger_trade runConfig initial st c legendCandle crossing side exit dt cd avg :
  ledger initial st ->
  ledger initial
    (Backtester.storeMatchingCandle runConfig
       (Backtester.updateBalance st
          (Backtester.processTradeResult st crossing side exit dt cd
             (LegendCandle.candleData legendCandle)))
       c legendCandle crossing
       (Backtester.processTradeResult st crossing side exit dt cd
          (LegendCandle.candleData legendCandle))
       dt avg).
Proof.
  intros (Hall & Hnum & Hbal & Htime & Hcur & Hpnl).
  unfold ledger, Backtester.storeMatchingCandle, Backtester.updateBalance.
  cbn [RunState.matchingCandles RunState.balanceHistory RunState.currentBalance].
  cbv zeta. rewrite detailed_trades_app.
  cbn [detailed_trades flat_map MatchingCandle.trade_result app].
  rewrite !map_app, !length_app. cbn [map length].
  split; [lia|]. split.
  { rewrite Nat.add_1_r, seq_S, Hnum. f_equal. cbn [Nat.add].
    unfold Backtester.processTradeResult, calculatePnL.
    cbn [TradeDetailsResult.trade_Number]. rewrite Hall. f_equal. lia. }
  split; [now rewrite Hbal|]. split.
  { rewrite Htime. f_equal. }
  split; [now rewrite last_last|].
  apply pnlConsistent_snoc; [exact Hpnl|].
  cbn [BalanceUpdate.trade_pnl BalanceUpdate.balance]. rewrite <- Hcur.
  unfold Backtester.processTradeResult, calculatePnL.
  cbn [TradeDetailsResult.PNL TradeDetailsResult.balance_after_trade].
  set (pnl := match side with
              | LONG => TradeExit.price exit - Crossing.entry_price crossing
              | SHORT => Crossing.entry_price crossing - TradeExit.price exit
              end).
  assert (Heq : toFixed2 pnl - (RunState.currentBalance st + pnl
                               - RunState.currentBalance st)
                == toFixed2 pnl - pnl) by ring.
  rewrite Heq. apply toFixed2_error.
Qed.

Lemma ledger_candleLoop config runConfig candles initial lookbackPeriod indices :
  forall st st',
    ledger initial st ->
    Backtester.candleLoop config runConfig candles lookbackPeriod indices st
    = Return st' ->
    ledger initial st'.
Proof.
  induction indices as [|i indices IH]; intros st st' Hinv;
    cbn [Backtester.candleLoop]; [now intros [= <-]|].
  destruct (nth_error candles i) as [c|]; [|discriminate].
  destruct (Backtester.processCandle config runConfig candles st c _ i)
    as [st1|] eqn:Hstep; [|discriminate].
  cbn [bind]. apply IH.
  apply processCandle_cases in Hstep
    as [-> | (lc & crossing & side & exit & dt & cd & avg & ->)];
    [exact Hinv | now apply ledger_trade].
Qed.

(** X11. The books of a run of the current class agree with its trades.  After
    [findMatchingCandles] on a fresh instance every stored legend carries a
    trade result, trades are numbered 1, 2, 3, ... in the order stored, the
    balance history has one entry per trade, carrying that trade's exit time
    and [balance_after_trade], and the final balance is the last of these (the
    initial balance when there is no trade). *)
Theorem ledger_matches_trades config runConfig candles saveResults st' :
  Backtester.findMatchingCandles config runConfig candles saveResults
    (Backtester.initialState runConfig) = Return st' ->
  let trades := detailed_trades (RunState.matchingCandles st') in
  length trades = length (RunState.matchingCandles st')
  /\ map TradeDetailsResult.trade_Number trades = seq 1 (length trades)
  /\ map BalanceUpdate.balance (RunState.balanceHistory st')
     = map TradeDetailsResult.balance_after_trade trades
  /\ map BalanceUpdate.timestamp (RunState.balanceHistory st')
     = map TradeDetailsResult.exit_time trades
  /\ RunState.currentBalance st'
     = last (map TradeDetailsResult.balance_after_trade trades)
         (TradingConfig.initialBalance runConfig).
Proof.
  intros Hrun. apply findMatchingCandles_scan in Hrun.
  apply (ledger_candleLoop _ _ _ (TradingConfig.initialBalance runConfig))
    in Hrun; [|apply ledger_initial].
  destruct Hrun as (Hall & Hnum & Hbal & Htime & Hcur & _).
  cbv zeta. rewrite <- Hbal. repeat split; assumption.
Qed.

Lemma ledger_matches_trades_witness :
  exists st',
    Backtester.findMatchingCandles tinyConfig tinyConfig completedRun
      resultsSaved (Backtester.initialState tinyConfig) = Return st'
    /\ length (RunState.matchingCandles st') = 1%nat
    /\ map TradeDetailsResult.trade_Number
         (detailed_trades (RunState.matchingCandles st')) = [1%nat]
    /\ RunState.currentBalance st'
       = last (map TradeDetailsResult.balance_after_trade
                 (detailed_trades (RunState.matchingCandles st')))
           (TradingConfig.initialBalance tinyConfig).
Proof.
  destruct (Backtester.findMatchingCandles tinyConfig tinyConfig completedRun
              resultsSaved (Backtester.initialState tinyConfig))
    as [st'|] eqn:Hrun;
    [|discriminate].
  exists st'. split; [reflexivity|].
  destruct (ledger_matches_trades tinyConfig tinyConfig completedRun _ st' Hrun)
    as (_ & Hnum & _ & _ & Hcur).
  assert (Hlen : length (RunState.matchingCandles st') = 1%nat)
    by (vm_compute in Hrun; injection Hrun as <-; reflexivity).
  split; [exact Hlen|]. split; [|exact Hcur].
  rewrite Hnum. vm_compute in Hrun. injection Hrun as <-. reflexivity.
Defined.



(** ** The trails reported for a trade *)

Lemma map_mapiFrom {A B C : Type} (g : B -> C) (f : A -> nat -> B) k l :
  map g (mapiFrom f k l) = mapiFrom (fun x index => g (f x index)) k l.
Proof.
  revert k. induction l as [|x l IH]; intros k; [reflexivity|].
  cbn. now rewrite IH.
Qed.

Lemma mapiFrom_length {A B : Type} (f : A -> nat -> B) k l :
  length (mapiFrom f k l) = length l.
Proof.
  revert k. induction l as [|x l IH]; intros k; [reflexivity|].
  cbn. now rewrite IH.
Qed.

Lemma mapiFrom_element {A B : Type} (h : A -> B) k (l : list A) :
  mapiFrom (fun x _ => h x) k l = map h l.
Proof.
  revert k. induction l as [|x l IH]; intros k; [reflexivity|].
  cbn. now rewrite IH.
Qed.

Lemma mapiFrom_index {A B : Type} (h : nat -> B) k (l : list A) :
  mapiFrom (fun _ index => h index) k l = map h (seq k (length l)).
Proof.
  revert k. induction l as [|x l IH]; intros k; [reflexivity|].
  cbn. now rewrite IH.
Qed.

Lemma priceAt_seq (before stops : list TrailingStopUpdate.t) n :
  (n <= length stops)%nat ->
  map (priceAt (before ++ stops)) (seq (length before) n)
  = firstn n (prices stops).
Proof.
  revert before n. induction stops as [|u stops IH]; intros before n Hn.
  - destruct n; [reflexivity | cbn in Hn; lia].
  - destruct n as [|n]; [reflexivity|]. cbn [seq map firstn prices].
    f_equal.
    + unfold priceAt. rewrite nth_error_app2 by lia.
      now rewrite Nat.sub_diag.
    + specialize (IH (before ++ [u]) n).
      rewrite <- app_assoc, length_app in IH. cbn [app length] in IH.
      rewrite Nat.add_1_r in IH. apply IH. cbn in Hn. lia.
Qed.

Lemma firstn_removelast {A : Type} (l : list A) (x : A) :
  firstn (length l - 1) (l ++ [x]) = removelast l.
Proof.
  rewrite firstn_app. replace (length l - 1 - length l)%nat with 0%nat by lia.
  cbn [firstn]. rewrite app_nil_r. symmetry.
  rewrite removelast_firstn_len. f_equal. lia.
Qed.

(** X13. The trails of a trade report follow the ladder.  For an exit of the
    current class, [processTradeResult] lists one trail per promotion,
    numbered 1, 2, 3, ...; in exact arithmetic the reported initial stop is
    one rung behind the entry price and the new stops, read after the initial
    stop, move by exactly one signed rung at a time (on binary64 numbers the
    steps can miss the rung in the last bits); each trail's old stop is the
    stop before it (the initial stop for trail 1, the previous trail's new
    stop after that); and the reported final stop is the last new stop (the
    initial stop when there is no trail). *)
Theorem reported_trails_follow_the_ladder
    runConfig candles startIndex entry exit st crossing dt cd legendData :
  Backtester.checkTradeOutcome runConfig candles startIndex entry
  = Return (Some exit) ->
  let result :=
    Backtester.processTradeResult st crossing (Entry.side entry) exit dt cd
      legendData in
  let trails := TradeDetailsResult.trails result in
  let stops :=
    TradeDetailsResult.initial_stop_price result
    :: map Trail.new_stop_loss trails in
  map Trail.trail_number trails = seq 1 (length trails)
  /\ TradeDetailsResult.total_trails_before_exit result = length trails
  /\ length trails
     = length (filter Backtester.isTrail (TradeExit.trailing_stops exit))
  /\ TradeDetailsResult.initial_stop_price result
     == Entry.price entry - signedDelta entry
  /\ stepsBy (signedDelta entry) stops
  /\ map Trail.old_stop_loss trails = removelast stops
  /\ TradeDetailsResult.final_stop_loss_price result
     = last stops (TradeDetailsResult.initial_stop_price result).
Proof.
  intros Hexit.
  destruct (exit_from_chain _ _ _ _ _ Hexit) as (i & sim & candle & Hinv & ->).
  destruct Hinv as (Hidx & [earlier Hlast] & _ & Hsteps & Htypes & Hfirst).
  destruct Hfirst as (first & rest & Hprices & Hf).
  set (hit := TrailingStopUpdate.mk (Sim.currentStopLoss sim)
                (Formatted (Candle.openTime candle)) HIT
                (Sim.currentStopLoss sim) 0 None).
  destruct (filter_isTrail_history (Entry.side entry) (Sim.trailingHistory sim)
              hit _ Htypes eq_refl) as [Hfilter Hlen].
  unfold Backtester.processTradeResult, calculatePnL,
    Backtester.createTradeExit.
  cbn [TradeExit.trailing_stops TradeExit.price TradeDetailsResult.trails
       TradeDetailsResult.initial_stop_price
       TradeDetailsResult.total_trails_before_exit
       TradeDetailsResult.final_stop_loss_price].
  cbv zeta. fold hit. rewrite Hfilter.
  destruct (Sim.trailingHistory sim) as [|u0 history] eqn:Hhist;
    [discriminate|].
  cbn [tl] in *. rewrite !map_mapiFrom.
  cbn [Trail.trail_number Trail.new_stop_loss Trail.old_stop_loss].
  rewrite (mapiFrom_element TrailingStopUpdate.price).
  rewrite (mapiFrom_index (fun index => (index + 1)%nat)).
  rewrite (mapiFrom_index (priceAt ((u0 :: history) ++ [hit]))).
  rewrite mapiFrom_length.
  assert (H0 : priceAt ((u0 :: history) ++ [hit]) 0
               = TrailingStopUpdate.price u0) by reflexivity.
  rewrite H0.
  change (TrailingStopUpdate.price u0 :: map TrailingStopUpdate.price history)
    with (prices (u0 :: history)).
  split.
  { rewrite <- seq_shift. apply map_ext. intros k. lia. }
  split; [reflexivity|]. split; [reflexivity|].
  split.
  { cbn [prices map] in Hprices. injection Hprices as -> _. exact Hf. }
  split; [exact Hsteps|].
  split.
  { rewrite (priceAt_seq [] ((u0 :: history) ++ [hit]))
      by (rewrite length_app; cbn; lia).
    unfold prices. rewrite map_app.
    replace (length history) with (length (map TrailingStopUpdate.price
                                             (u0 :: history)) - 1)%nat
      by (rewrite length_map; cbn; lia).
    apply firstn_removelast. }
  rewrite Hlast. now rewrite last_last.
Qed.

Lemma reported_trails_follow_the_ladder_witness :
  exists exit,
    Backtester.checkTradeOutcome shippedConfig candles100 0 entry100
    = Return (Some exit)
    /\ map Trail.trail_number
         (TradeDetailsResult.trails
            (Backtester.processTradeResult
               (Backtester.initialState shippedConfig) Crossing.none LONG exit
               5 6 None)) = [1%nat; 2%nat]
    /\ stepsBy (signedDelta entry100)
         (TradeDetailsResult.initial_stop_price
            (Backtester.processTradeResult
               (Backtester.initialState shippedConfig) Crossing.none LONG exit
               5 6 None)
          :: map Trail.new_stop_loss
               (TradeDetailsResult.trails
                  (Backtester.processTradeResult
                     (Backtester.initialState shippedConfig) Crossing.none LONG
                     exit 5 6 None))).
Proof.
  destruct (Backtester.checkTradeOutcome shippedConfig candles100 0 entry100)
    as [[exit|]|] eqn:Hout; try discriminate.
  exists exit. split; [reflexivity|].
  destruct (reported_trails_follow_the_ladder shippedConfig candles100 0
              entry100 exit (Backtester.initialState shippedConfig)
              Crossing.none 5 6 None Hout)
    as (Hnum & _ & Hlen & _ & Hsteps & _).
  change (Entry.side entry100) with LONG in Hnum, Hlen, Hsteps.
  split; [|exact Hsteps].
  rewrite Hnum, Hlen. vm_compute in Hout. injection Hout as <-. reflexivity.
Defined.

(** ** The report *)

Lemma filter_split_length {A : Type} (f g h : A -> bool) (l : list A) :
  Forall (fun x => h x = f x || g x /\ f x && g x = false) l ->
  (length (filter f l) + length (filter g l))%nat = length (filter h l).
Proof.
  induction 1 as [|x l [Hh Hfg] _ IH]; [reflexivity|].
  cbn [filter]. rewrite Hh.
  destruct (f x), (g x); try discriminate; cbn; lia.
Qed.

Lemma filter_true {A : Type} (l : list A) : filter (fun _ => true) l = l.
Proof. induction l as [|x l IH]; [reflexivity|]. cbn. now rewrite IH. Qed.

Lemma detailed_trades_all l :
  length (detailed_trades l) = length l ->
  Forall (fun c => MatchingCandle.trade_result c <> None) l.
Proof.
  induction l as [|c l IH]; intros Hlen; [constructor|].
  assert (Hle : forall l', (length (detailed_trades l') <= length l')%nat).
  { induction l' as [|c' l' IH']; [cbn; lia|].
    cbn [detailed_trades flat_map]. fold (detailed_trades l').
    rewrite length_app. cbn [length].
    destruct (MatchingCandle.trade_result c'); cbn; lia. }
  cbn [detailed_trades flat_map] in Hlen. fold (detailed_trades l) in Hlen.
  rewrite length_app in Hlen. cbn [length] in Hlen.
  specialize (Hle l).
  destruct (MatchingCandle.trade_result c) eqn:Hc; cbn in Hlen.
  - constructor; [congruence | apply IH; lia].
  - lia.
Qed.

Lemma gtb_leb_negb (p : Q) : gtb p 0 = negb (leb p 0).
Proof. reflexivity. Qed.

(** X14. The counts of the report add up.  In the report of a run of the current
    class every stored candle is a trade; profitable and unprofitable trades
    together are all trades (a trade whose rounded profit is 0.00 counts as
    unprofitable); LONG and SHORT trades together are all trades, and their
    profitable ones together are all profitable ones; the win rate is missing
    exactly when there is no trade. *)
Theorem report_counts_add_up config runConfig candles saveResults st' :
  Backtester.findMatchingCandles config runConfig candles saveResults
    (Backtester.initialState runConfig) = Return st' ->
  let p := trade_performance (RunState.matchingCandles st') in
  Performance.total_trades p
  = length (detailed_trades (RunState.matchingCandles st'))
  /\ (Performance.profitable_trades p + Performance.unprofitable_trades p)%nat
     = Performance.total_trades p
  /\ (DirectionStats.total_trades (Performance.long p)
      + DirectionStats.total_trades (Performance.short p))%nat
     = Performance.total_trades p
  /\ (DirectionStats.profitable_trades (Performance.long p)
      + DirectionStats.profitable_trades (Performance.short p))%nat
     = Performance.profitable_trades p
  /\ (Performance.win_rate p = None <-> Performance.total_trades p = 0%nat).
Proof.
  intros Hrun. apply findMatchingCandles_scan in Hrun.
  apply (ledger_candleLoop _ _ _ (TradingConfig.initialBalance runConfig))
    in Hrun; [|apply ledger_initial].
  destruct Hrun as (Hall & _).
  pose proof (detailed_trades_all _ Hall) as Hsome.
  set (l := RunState.matchingCandles st') in *. cbv zeta.
  unfold trade_performance, by_direction.
  cbn [Performance.total_trades Performance.profitable_trades
       Performance.unprofitable_trades Performance.long Performance.short
       Performance.win_rate DirectionStats.total_trades
       DirectionStats.profitable_trades].
  split; [now rewrite Hall|]. split.
  { rewrite <- (filter_true l) at 3. apply filter_split_length.
    eapply Forall_impl; [|exact Hsome]. intros c Hc. cbn beta in Hc. unfold pnlIs.
    destruct (MatchingCandle.trade_result c); [|congruence].
    rewrite gtb_leb_negb. destruct (leb _ _); split; reflexivity. }
  split.
  { rewrite <- (filter_true l) at 3. apply filter_split_length.
    eapply Forall_impl; [|exact Hsome]. intros c Hc. cbn beta in Hc. unfold sideIs.
    destruct (MatchingCandle.trade_result c) as [r|]; [|congruence].
    destruct (TradeDetailsResult.side r); split; reflexivity. }
  split.
  { apply filter_split_length.
    eapply Forall_impl; [|exact Hsome]. intros c Hc. cbn beta in Hc. unfold sideIs, pnlIs.
    destruct (MatchingCandle.trade_result c) as [r|]; [|congruence].
    destruct (TradeDetailsResult.side r), (gtb _ _); split; reflexivity. }
  destruct (length l); split; intros H; try reflexivity; discriminate H.
Qed.

Lemma report_counts_add_up_witness :
  exists st',
    Backtester.findMatchingCandles tinyConfig tinyConfig completedRun
      resultsSaved (Backtester.initialState tinyConfig) = Return st'
    /\ Performance.total_trades
         (trade_performance (RunState.matchingCandles st')) = 1%nat
    /\ (Performance.profitable_trades
          (trade_performance (RunState.matchingCandles st'))
        + Performance.unprofitable_trades
            (trade_performance (RunState.matchingCandles st')))%nat
       = Performance.total_trades
           (trade_performance (RunState.matchingCandles st')).
Proof.
  destruct (Backtester.findMatchingCandles tinyConfig tinyConfig completedRun
              resultsSaved (Backtester.initialState tinyConfig))
    as [st'|] eqn:Hrun;
    [|discriminate].
  exists st'. split; [reflexivity|].
  destruct (report_counts_add_up tinyConfig tinyConfig completedRun _ st' Hrun)
    as (_ & Hsum & _).
  split; [|exact Hsum].
  vm_compute in Hrun. injection Hrun as <-. reflexivity.
Defined.

(** ** Promotions in the earlier class *)

Lemma tradeLoop2_trails candles startIndex entry levels remaining :
  forall i st exit,
    (Sim.currentTriggerIndex st < i)%nat ->
    (Sim.currentTriggerIndex st <= length levels)%nat ->
    map TrailingStopUpdate.type (Sim.trailingHistory st)
    = INITIAL :: repeat (trailTypeOf (Entry.side entry))
                   (Sim.currentTriggerIndex st) ->
    Backtester2.tradeLoop candles startIndex entry levels remaining i st
    = Some exit ->
    exists n,
      map TrailingStopUpdate.type (TradeExit.trailing_stops exit)
      = INITIAL :: repeat (trailTypeOf (Entry.side entry)) n ++ [HIT]
      /\ (n < TradeExit.candles_until_exit exit)%nat
      /\ (n <= length levels)%nat.
Proof.
  induction remaining as [|remaining IH]; intros i st exit Hi Hlen Htypes;
    cbn [Backtester2.tradeLoop]; [discriminate|].
  destruct (nth_error candles (startIndex + i)) as [candle|]; [|discriminate].
  unfold Backtester2.candleStep.
  destruct (stopHit _ _ _).
  - intros [= <-]. exists (Sim.currentTriggerIndex st).
    unfold Backtester2.hitExit.
    cbn [TradeExit.trailing_stops TradeExit.candles_until_exit].
    rewrite map_app, Htypes. repeat split; assumption.
  - destruct (nth_error levels (Sim.currentTriggerIndex st)) as [level|] eqn:Hl.
    + assert (Hlt : (Sim.currentTriggerIndex st < length levels)%nat)
        by (apply nth_error_Some; rewrite Hl; discriminate).
      destruct (triggerCrossed _ _ _).
      * apply IH; unfold Backtester2.promote;
          cbn [Sim.currentTriggerIndex Sim.trailingHistory]; try lia.
        rewrite map_app, Htypes. cbn [map TrailingStopUpdate.type app repeat].
        f_equal. rewrite repeat_cons. f_equal.
      * apply IH; [lia | assumption | assumption].
    + apply IH; [lia | assumption | assumption].
Qed.

(** X15. In the earlier class an exit after [c] candles carries at most [c - 1]
    promotions (one trigger is tested per candle) and never more than 20; its
    history is the INITIAL event, the promotions and the HIT event.  Its
    [total_trails], computed as the length of the history minus one, is the
    number of promotions plus one: the HIT event is counted as a trail. *)
Theorem earlier_class_trails_bounded
    config candles startIndex entry exit crossing pnl pnl_percentage balance :
  Backtester2.checkTradeOutcome config candles startIndex entry
  = Return (Some exit) ->
  exists n,
    map TrailingStopUpdate.type (TradeExit.trailing_stops exit)
    = INITIAL :: repeat (trailTypeOf (Entry.side entry)) n ++ [HIT]
    /\ (n <= 20)%nat
    /\ (n < TradeExit.candles_until_exit exit)%nat
    /\ Backtester2.TradeResult.total_trails
         (Backtester2.tradeResultOf crossing (Entry.side entry) exit pnl
            pnl_percentage balance) = S n.
Proof.
  unfold Backtester2.checkTradeOutcome.
  destruct (nth_error candles startIndex) as [startCandle|]; [|discriminate].
  intros [= Hloop].
  apply tradeLoop2_trails in Hloop;
    [|cbn; lia
     |unfold Backtester2.calculateTriggerLevels;
      rewrite length_map, length_seq; cbn; lia
     |reflexivity].
  destruct Hloop as (n & Htypes & Hcandles & Hlevels).
  unfold Backtester2.calculateTriggerLevels in Hlevels.
  rewrite length_map, length_seq in Hlevels.
  exists n. split; [exact Htypes|]. split; [exact Hlevels|].
  split; [exact Hcandles|].
  unfold Backtester2.tradeResultOf. cbn [Backtester2.TradeResult.total_trails].
  apply (f_equal (@length _)) in Htypes.
  rewrite length_map in Htypes. cbn [length] in Htypes.
  rewrite length_app, repeat_length in Htypes. cbn [length] in Htypes. lia.
Qed.

Lemma earlier_class_trails_bounded_witness :
  exists exit n,
    Backtester2.checkTradeOutcome shippedConfig candles189 0 entry189
    = Return (Some exit)
    /\ map TrailingStopUpdate.type (TradeExit.trailing_stops exit)
       = INITIAL :: repeat TRAIL_UP n ++ [HIT]
    /\ (n < TradeExit.candles_until_exit exit)%nat
    /\ Backtester2.TradeResult.total_trails
         (Backtester2.tradeResultOf Crossing.none LONG exit 0 0 1000) = S n.
Proof.
  destruct (Backtester2.checkTradeOutcome shippedConfig candles189 0 entry189)
    as [[exit|]|] eqn:Hout; try discriminate.
  destruct (earlier_class_trails_bounded shippedConfig candles189 0 entry189
              exit Crossing.none 0 0 1000 Hout)
    as (n & Htypes & _ & Hcandles & Htotal).
  exists exit, n. split; [reflexivity|]. repeat split; assumption.
Defined.

(** ** The months to download *)

Lemma jsDate_month (year month : nat) :
  (snd (DataFetcher.jsDate year month) <= 11)%nat.
Proof.
  unfold DataFetcher.jsDate. destruct month as [|monthIndex]; cbn [snd].
  - lia.
  - pose proof (Nat.mod_upper_bound monthIndex 12). lia.
Qed.

Lemma dateOfNumber_monthNumber (year month : nat) :
  (month <= 11)%nat ->
  DataFetcher.dateOfNumber (DataFetcher.monthNumber (year, month))
  = (year, month).
Proof.
  intros Hm. unfold DataFetcher.dateOfNumber, DataFetcher.monthNumber.
  cbn [fst snd].
  pose proof (Nat.div_mod_eq (12 * year + month) 12) as Heq.
  pose proof (Nat.mod_upper_bound (12 * year + month) 12) as Hlt.
  f_equal; lia.
Qed.

Lemma monthLoop_closed fuel endYear endMonth :
  (endMonth <= 11)%nat ->
  forall currentYear currentMonth,
    (currentMonth <= 11)%nat ->
    (DataFetcher.monthNumber (endYear, endMonth) + 1
     - DataFetcher.monthNumber (currentYear, currentMonth) <= fuel)%nat ->
    DataFetcher.monthLoop fuel endYear endMonth currentYear currentMonth
    = map DataFetcher.dateOfNumber
        (seq (DataFetcher.monthNumber (currentYear, currentMonth))
           (DataFetcher.monthNumber (endYear, endMonth) + 1
            - DataFetcher.monthNumber (currentYear, currentMonth))).
Proof.
  intros He. induction fuel as [|fuel IH]; intros cy cm Hc Hfuel.
  - replace (_ + 1 - _)%nat with 0%nat by lia. reflexivity.
  - cbn [DataFetcher.monthLoop].
    unfold DataFetcher.monthNumber in *. cbn [fst snd] in *.
    destruct ((cy <? endYear) || ((cy =? endYear) && (cm <=? endMonth)))%nat
      eqn:Hcond.
    + assert (Hle : (12 * cy + cm <= 12 * endYear + endMonth)%nat).
      { apply orb_true_iff in Hcond as [H | H].
        - apply Nat.ltb_lt in H. lia.
        - apply andb_true_iff in H as [H1 H2].
          apply Nat.eqb_eq in H1. apply Nat.leb_le in H2. lia. }
      replace (12 * endYear + endMonth + 1 - (12 * cy + cm))%nat
        with (S (12 * endYear + endMonth + 1 - (12 * cy + cm + 1)))%nat by lia.
      cbn [seq map]. f_equal.
      * symmetry. apply (dateOfNumber_monthNumber cy cm Hc).
      * destruct (11 <? cm + 1)%nat eqn:Hwrap.
        -- apply Nat.ltb_lt in Hwrap.
           rewrite IH by (cbn [fst snd]; lia). cbn [fst snd].
           do 2 f_equal; lia.
        -- apply Nat.ltb_ge in Hwrap.
           rewrite IH by (cbn [fst snd]; lia). cbn [fst snd].
           do 2 f_equal; lia.
    + assert (Hgt : (12 * endYear + endMonth < 12 * cy + cm)%nat).
      { apply orb_false_iff in Hcond as [H1 H2].
        apply Nat.ltb_ge in H1. apply andb_false_iff in H2 as [H2 | H2].
        - apply Nat.eqb_neq in H2. lia.
        - apply Nat.leb_gt in H2. lia. }
      replace (_ + 1 - _)%nat with 0%nat by lia. reflexivity.
Qed.

Lemma NoDup_map_on {A B : Type} (f : A -> B) (l : list A) :
  (forall a b, In a l -> In b l -> f a = f b -> a = b) ->
  NoDup l -> NoDup (map f l).
Proof.
  intros Hinj Hnd. induction Hnd as [|x l Hx _ IH]; [constructor|].
  cbn [map]. constructor.
  - intros Hin. apply in_map_iff in Hin as (y & Hfy & Hy).
    apply Hx. rewrite (Hinj x y); [exact Hy | now left | now right | congruence].
  - apply IH. intros a b Ha Hb. apply Hinj; now right.
Qed.

(** X16. The months [getMonthlyFileNames] names are exactly the months from the
    start date to the end date, both included, each once and in order: the
    list is empty when the end lies before the start, it holds
    [end - start + 1] months otherwise, and a year and zero-based month is
    walked if and only if the month is at most 11 and lies in that range. *)
Theorem months_to_fetch (startDate endDate : nat * nat) :
  (snd startDate <= 11)%nat -> (snd endDate <= 11)%nat ->
  let s := DataFetcher.monthNumber startDate in
  let e := DataFetcher.monthNumber endDate in
  DataFetcher.monthsToFetch startDate endDate
  = map DataFetcher.dateOfNumber (seq s (e + 1 - s))
  /\ length (DataFetcher.monthsToFetch startDate endDate) = (e + 1 - s)%nat
  /\ NoDup (DataFetcher.monthsToFetch startDate endDate)
  /\ (forall year month,
        In (year, month) (DataFetcher.monthsToFetch startDate endDate)
        <-> (month <= 11 /\ s <= DataFetcher.monthNumber (year, month) <= e)%nat).
Proof.
  intros Hs He s e. destruct startDate as [sy sm], endDate as [ey em].
  cbn [snd] in Hs, He.
  assert (Hclosed : DataFetcher.monthsToFetch (sy, sm) (ey, em)
                    = map DataFetcher.dateOfNumber (seq s (e + 1 - s))).
  { unfold DataFetcher.monthsToFetch. cbn [fst snd].
    apply monthLoop_closed; try assumption.
    unfold DataFetcher.monthNumber. cbn [fst snd]. lia. }
  rewrite Hclosed. split; [reflexivity|].
  split; [now rewrite length_map, length_seq|]. split.
  - apply NoDup_map_on; [|apply seq_NoDup].
    intros a b _ _ Hab. unfold DataFetcher.dateOfNumber in Hab.
    pose proof (f_equal fst Hab) as Hq. pose proof (f_equal snd Hab) as Hr.
    cbn [fst snd] in Hq, Hr.
    pose proof (Nat.div_mod_eq a 12). pose proof (Nat.div_mod_eq b 12). lia.
  - intros year month. rewrite in_map_iff. split.
    + intros (k & Hk & Hin). apply in_seq in Hin.
      unfold DataFetcher.dateOfNumber in Hk.
      pose proof (f_equal fst Hk) as Hq. pose proof (f_equal snd Hk) as Hr.
      cbn [fst snd] in Hq, Hr.
      unfold DataFetcher.monthNumber. cbn [fst snd].
      pose proof (Nat.div_mod_eq k 12).
      pose proof (Nat.mod_upper_bound k 12). lia.
    + intros [Hm Hrange]. exists (DataFetcher.monthNumber (year, month)).
      split; [now apply dateOfNumber_monthNumber|]. apply in_seq. lia.
Qed.

Lemma months_to_fetch_witness :
  ((snd (DataFetcher.jsDate 2022 11) <= 11)%nat
   /\ (snd (DataFetcher.jsDate 2023 2) <= 11)%nat)
  /\ DataFetcher.monthsToFetch (DataFetcher.jsDate 2022 11)
       (DataFetcher.jsDate 2023 2)
     = [(2022, 10); (2022, 11); (2023, 0); (2023, 1)]%nat.
Proof.
  split; [split; apply jsDate_month|].
  rewrite (proj1 (months_to_fetch (DataFetcher.jsDate 2022 11)
                    (DataFetcher.jsDate 2023 2)
                    (jsDate_month 2022 11) (jsDate_month 2023 2))).
  reflexivity.
Defined.

(** ** Faults and look-ahead of [processCandle] *)

Lemma averageMovement_empty runConfig :
  Backtester.averageMovement runConfig [] = Throw.
Proof.
  unfold Backtester.averageMovement.
  destruct (TradingConfig.lookbackCandles runConfig); reflexivity.
Qed.

(** X17. [processCandle] of the current class throws exactly when it is handed an
    empty array of lookback candles ([math.mean] of no value); with any other
    array it returns, whatever the candle, the index and the candles. *)
Theorem processCandle_throws_on_empty_window
    config runConfig candles st c window i :
  Backtester.processCandle config runConfig candles st c window i = Throw
  <-> window = [].
Proof.
  split.
  - intros Hthrow. destruct window as [|w window]; [reflexivity|].
    destruct (averageMovement_returns runConfig (w :: window)) as [avg Havg];
      [discriminate|].
    destruct (processCandle_returns config runConfig candles st c _ i avg Havg)
      as [st' Hst']. congruence.
  - intros ->. unfold Backtester.processCandle.
    now rewrite averageMovement_empty.
Qed.

Lemma crossingLoop_ext candles1 candles2 startIndex legendCandle remaining :
  forall i,
    (forall k, (startIndex + i <= k < startIndex + i + remaining)%nat ->
               nth_error candles1 k = nth_error candles2 k) ->
    Backtester.crossingLoop candles1 startIndex legendCandle remaining i
    = Backtester.crossingLoop candles2 startIndex legendCandle remaining i.
Proof.
  induction remaining as [|remaining IH]; intros i Hsame; [reflexivity|].
  cbn [Backtester.crossingLoop]. rewrite (Hsame (startIndex + i)%nat) by lia.
  destruct (nth_error candles2 (startIndex + i)); [|reflexivity].
  destruct (geb _ _); [reflexivity|]. destruct (leb _ _); [reflexivity|].
  apply IH. intros k Hk. apply Hsame. lia.
Qed.

Lemma tradeLoop_ext candles1 candles2 startIndex entry levels remaining :
  forall i st,
    (forall k, (startIndex + i <= k < startIndex + i + remaining)%nat ->
               nth_error candles1 k = nth_error candles2 k) ->
    Backtester.tradeLoop candles1 startIndex entry levels remaining i st
    = Backtester.tradeLoop candles2 startIndex entry levels remaining i st.
Proof.
  induction remaining as [|remaining IH]; intros i st Hsame; [reflexivity|].
  cbn [Backtester.tradeLoop]. rewrite (Hsame (startIndex + i)%nat) by lia.
  destruct (nth_error candles2 (startIndex + i)); [|reflexivity].
  destruct (Backtester.candleStep _ _ _ _ _); [reflexivity|].
  apply IH. intros k Hk. apply Hsame. lia.
Qed.

Lemma checkTradeOutcome_ext runConfig candles1 candles2 startIndex entry :
  (forall k,
     (startIndex <= k
      <= startIndex + TradingConfig.maxLookForwardCandles runConfig)%nat ->
     nth_error candles1 k = nth_error candles2 k) ->
  Backtester.checkTradeOutcome runConfig candles1 startIndex entry
  = Backtester.checkTradeOutcome runConfig candles2 startIndex entry.
Proof.
  intros Hsame. unfold Backtester.checkTradeOutcome.
  rewrite (Hsame startIndex) by lia.
  destruct (nth_error candles2 startIndex); [|reflexivity].
  f_equal. apply tradeLoop_ext. intros k Hk. apply Hsame. lia.
Qed.

(** X18. The look-ahead of [processCandle] is bounded.  Processing the candle at
    index [i] reads the candle array only at the indices [i + 1] to
    [i + 2 * maxLookForwardCandles] (at most one horizon to find the entry,
    one more to find the exit): two arrays that agree there give the same
    result, so neither earlier candles nor candles further ahead can change a
    trade. *)
Theorem processCandle_lookahead
    config runConfig candles1 candles2 st c window i :
  (forall k,
     (i < k <= i + 2 * TradingConfig.maxLookForwardCandles runConfig)%nat ->
     nth_error candles1 k = nth_error candles2 k) ->
  Backtester.processCandle config runConfig candles1 st c window i
  = Backtester.processCandle config runConfig candles2 st c window i.
Proof.
  intros Hsame. unfold Backtester.processCandle.
  destruct (Backtester.averageMovement runConfig window) as [avg|];
    [|reflexivity].
  cbn [bind]. destruct (geb _ _); [|reflexivity].
  assert (Hcross :
    Backtester.checkThresholdCrossing runConfig candles1 i
      (Backtester.legendCandleOf c (Backtester.dynamicThresholdOf runConfig avg))
    = Backtester.checkThresholdCrossing runConfig candles2 i
        (Backtester.legendCandleOf c
           (Backtester.dynamicThresholdOf runConfig avg))).
  { unfold Backtester.checkThresholdCrossing. apply crossingLoop_ext.
    intros k Hk. apply Hsame. lia. }
  rewrite Hcross.
  destruct (Crossing.direction _) as [side|] eqn:Hdir; [|reflexivity].
  unfold Backtester.checkThresholdCrossing in Hdir.
  destruct (crossingLoop_sound candles2 i _ _ 1 side Hdir)
    as (candle & Hrange & _).
  fold (Backtester.checkThresholdCrossing runConfig candles2 i
          (Backtester.legendCandleOf c
             (Backtester.dynamicThresholdOf runConfig avg))) in Hrange |- *.
  rewrite (checkTradeOutcome_ext runConfig candles1 candles2);
    [reflexivity|].
  intros k Hk. apply Hsame. lia.
Qed.

Lemma processCandle_lookahead_witness :
  (forall k,
     (11 < k <= 11 + 2 * TradingConfig.maxLookForwardCandles tinyConfig)%nat ->
     nth_error completedRun k
     = nth_error (flatCandleAt 0 :: tl completedRun) k)
  /\ Backtester.processCandle tinyConfig tinyConfig completedRun
       (Backtester.initialState tinyConfig) legendCandle102
       (slice 0 11 completedRun) 11
     = Backtester.processCandle tinyConfig tinyConfig
         (flatCandleAt 0 :: tl completedRun)
         (Backtester.initialState tinyConfig) legendCandle102
         (slice 0 11 completedRun) 11.
Proof.
  assert (Hsame : forall k,
            (11 < k <= 11 + 2 * TradingConfig.maxLookForwardCandles tinyConfig)%nat ->
            nth_error completedRun k
            = nth_error (flatCandleAt 0 :: tl completedRun) k).
  { intros k Hk. cbn in Hk.
    assert (Hcases : k = 12%nat \/ k = 13%nat \/ k = 14%nat \/ k = 15%nat)
      by lia.
    destruct Hcases as [-> | [-> | [-> | ->]]]; reflexivity. }
  split; [exact Hsame|].
  exact (processCandle_lookahead tinyConfig tinyConfig completedRun
           (flatCandleAt 0 :: tl completedRun)
           (Backtester.initialState tinyConfig) legendCandle102
           (slice 0 11 completedRun) 11 Hsame).
Defined.

(** ** The balance of the earlier class *)

Lemma total_pnl2_snoc l candle :
  total_pnl2 (l ++ [candle])
  = total_pnl2 l
    + match Backtester2.MatchingCandle.trade_result candle with
      | Some r => Backtester2.TradeResult.pnl r
      | None => 0
      end.
Proof. unfold total_pnl2. now rewrite fold_left_app. Qed.

Lemma balance2_processCandle config candles initial st c window i st' :
  Backtester2.RunState.balanceHistory st = [] ->
  Backtester2.RunState.currentBalance st
  == initial + total_pnl2 (Backtester2.RunState.matchingCandles st) ->
  Backtester2.processCandle config candles st c window i = Return st' ->
  Backtester2.RunState.balanceHistory st' = []
  /\ Backtester2.RunState.currentBalance st'
     == initial + total_pnl2 (Backtester2.RunState.matchingCandles st').
Proof.
  intros Hh Hb. unfold Backtester2.processCandle.
  destruct (Backtester2.averageMovement config window) as [avg|];
    [|discriminate].
  cbn [bind]. destruct (gtb _ _); [|intros [= <-]; now split].
  destruct (Crossing.direction _) as [side|]; [|intros [= <-]; now split].
  destruct (Backtester2.checkTradeOutcome _ _ _ _) as [[exit|]|];
    cbn [bind]; [|intros [= <-]; now split|discriminate].
  unfold calculatePnL. intros [= <-].
  cbn [Backtester2.RunState.balanceHistory Backtester2.RunState.currentBalance
       Backtester2.RunState.matchingCandles].
  split; [exact Hh|]. rewrite total_pnl2_snoc.
  cbn [Backtester2.MatchingCandle.trade_result].
  unfold Backtester2.tradeResultOf. cbn [Backtester2.TradeResult.pnl].
  rewrite Hb. ring.
Qed.

Lemma balance2_candleLoop config candles initial lookbackPeriod indices :
  forall st st',
    Backtester2.RunState.balanceHistory st = [] ->
    Backtester2.RunState.currentBalance st
    == initial + total_pnl2 (Backtester2.RunState.matchingCandles st) ->
    Backtester2.candleLoop config candles lookbackPeriod indices st
    = Return st' ->
    Backtester2.RunState.balanceHistory st' = []
    /\ Backtester2.RunState.currentBalance st'
       == initial + total_pnl2 (Backtester2.RunState.matchingCandles st').
Proof.
  induction indices as [|i indices IH]; intros st st' Hh Hb;
    cbn [Backtester2.candleLoop]; [intros [= <-]; now split|].
  destruct (nth_error candles i) as [c|]; [|discriminate].
  destruct (Backtester2.processCandle config candles st c _ i)
    as [st1|] eqn:Hstep; [|discriminate].
  cbn [bind].
  destruct (balance2_processCandle _ _ initial _ _ _ _ _ Hh Hb Hstep)
    as [Hh1 Hb1].
  now apply IH.
Qed.

(** X19. The balance history of the earlier class is never written: after
    [findMatchingCandles] on a fresh instance it is still empty.  In exact
    arithmetic the balance is then the initial balance plus the total the
    class reports, the sum of the profits of the stored trades (the "Total
    PnL" it prints); the program adds the same terms in two different orders
    on binary64 numbers, whose rounding is outside this statement. *)
Theorem earlier_class_balance config candles writeResults st' :
  Backtester2.findMatchingCandles config candles writeResults
    (initialState2 config)
  = Return st' ->
  Backtester2.RunState.balanceHistory st' = []
  /\ Backtester2.RunState.currentBalance st'
     == TradingConfig.initialBalance config
        + total_pnl2 (Backtester2.RunState.matchingCandles st').
Proof.
  intros Hrun. apply findMatchingCandles2_scan in Hrun. revert Hrun.
  apply balance2_candleLoop; [reflexivity|].
  cbn. ring.
Qed.

Lemma earlier_class_balance_witness :
  exists st',
    Backtester2.findMatchingCandles tinyConfig completedRun resultsWritten
      (initialState2 tinyConfig) = Return st'
    /\ length (Backtester2.RunState.matchingCandles st') = 1%nat
    /\ Backtester2.RunState.currentBalance st'
       == 1000 + total_pnl2 (Backtester2.RunState.matchingCandles st').
Proof.
  destruct (Backtester2.findMatchingCandles tinyConfig completedRun
              resultsWritten (initialState2 tinyConfig))
    as [st'|] eqn:Hrun; [|discriminate].
  exists st'. split; [reflexivity|].
  split; [vm_compute in Hrun; injection Hrun as <-; reflexivity|].
  exact (proj2 (earlier_class_balance tinyConfig completedRun _ st' Hrun)).
Defined.

Lemma checkTradeOutcome_bounds_witness :
  Backtester.checkTradeOutcome shippedConfig candles189 3 entry189 = Throw
  /\ Backtester.checkTradeOutcome shippedConfig candles189 2 entry189
     = Return None.
Proof.
  destruct (checkTradeOutcome_bounds shippedConfig candles189 3 entry189)
    as [[_ Hthrow] _].
  destruct (checkTradeOutcome_bounds shippedConfig candles189 2 entry189)
    as [_ Hnull].
  split.
  - apply Hthrow. cbn. lia.
  - apply Hnull; [left; reflexivity | cbn; lia].
Defined.

Lemma processCandle_throws_on_empty_window_witness :
  Backtester.processCandle tinyConfig tinyConfig completedRun
    (Backtester.initialState tinyConfig) legendCandle102 [] 11 = Throw.
Proof.
  apply (proj2 (processCandle_throws_on_empty_window tinyConfig tinyConfig
                  completedRun (Backtester.initialState tinyConfig)
                  legendCandle102 [] 11)).
  reflexivity.
Defined.
